(** * System requirements validator: threshold evaluation and report aggregation

  A shallow embedding of [scripts/validate_system_requirements.py].  The
  script probes four hardware facts (CPU, memory, GPU, storage), compares
  them with fixed thresholds, aggregates warnings and recommendations into a
  report with an overall status, writes the report as JSON and exits with a
  status code.

  Python values are modelled as follows:
  - [int] as [Z], [str] as [string], [bool] as [bool], [None] as [None];
  - [float] as the kernel's binary64 [float], with the IEEE comparisons the
    interpreter uses ([nan] compares false with everything);
  - a field that the code fills with an [int] on one path and a [float] on
    another (the capacities in GB) as [Py.number];
  - the two accumulators [warnings] and [recommendations] that [validate]
    mutates with [append] as an explicit state threaded through the rules;
  - the texts the Linux probes parse ([/proc/cpuinfo], [/proc/meminfo], the
    answers of [nproc], [nvidia-smi] and [df]) as [string]s, with the methods
    of [str] the probes call on them;
  - the standard output as the list of the texts printed, each a list of
    code points. *)

From Stdlib Require Import ZArith Bool List String Ascii Lia Floats.
From stdpp Require Import base strings pretty gmap.

Local Open Scope Z_scope.
Set Warnings "-register-all".

(** ** Python numbers *)

Module Py.

(** [float(n)] for an [int]: the nearest binary64 value. *)
Definition float_of_int (n : Z) : float :=
  SF2Prim (binary_normalize prec emax n 0 false).

(** [n / 2 ** k] on two [int]s (true division): the quotient is the exact
    dyadic [n * 2^-k], rounded once to nearest-even; the interpreter raises
    [OverflowError] when the result does not fit a float. *)
Definition truediv_pow2 (n k : Z) : option float :=
  let q := SF2Prim (binary_normalize prec emax n (- k) false) in
  if is_infinity q then None else Some q.

(** [x >= n] and [x < n] for a float [x] and a small [int] constant [n]. *)
Definition ge_int (x : float) (n : Z) : bool := (float_of_int n <=? x)%float.
Definition lt_int (x : float) (n : Z) : bool := (x <? float_of_int n)%float.

(** A value that is an [int] on some paths and a [float] on others. *)
Inductive number :=
| Int (z : Z)
| Float (x : float).

End Py.

(** ** Python strings

    The methods of [str] the probes use.  A [str] is a sequence of code
    points below 256 here. *)

Module Str.

(** [c.isspace()] for a code point below 256. *)
Definition isspace (c : ascii) : bool :=
  let n := N_of_ascii c in
  (((9 <=? n) && (n <=? 13)) || ((28 <=? n) && (n <=? 32))
   || (n =? 133) || (n =? 160))%N.

(** [sub in s]. *)
Fixpoint contains (sub s : string) : bool :=
  String.prefix sub s ||
  match s with
  | String _ s' => contains sub s'
  | EmptyString => false
  end.

(** [s.split(sep)] for a separator that is not empty: the pieces between the
    occurrences of [sep], found from the left and not overlapping.  [skip]
    counts the characters of an occurrence that are still to be passed. *)
Fixpoint split_from (sep : string) (skip : nat) (s : string)
  : string * list string :=
  match s with
  | EmptyString => (EmptyString, [])
  | String c s' =>
      match skip with
      | S skip' => split_from sep skip' s'
      | O =>
          if String.prefix sep s then
            let '(piece, pieces) := split_from sep (String.length sep - 1) s' in
            (EmptyString, piece :: pieces)
          else
            let '(piece, pieces) := split_from sep O s' in
            (String c piece, pieces)
      end
  end.

Definition split (sep s : string) : list string :=
  let '(piece, pieces) := split_from sep O s in piece :: pieces.

(** [s.split()]: the words between runs of white space. *)
Fixpoint words_from (s : string) : string * list string :=
  match s with
  | EmptyString => (EmptyString, [])
  | String c s' =>
      let '(word, words) := words_from s' in
      if isspace c then
        (EmptyString, match word with EmptyString => words | _ => word :: words end)
      else (String c word, words)
  end.

Definition split_whitespace (s : string) : list string :=
  let '(word, words) := words_from s in
  match word with EmptyString => words | _ => word :: words end.

(** [s.lstrip()], [s.rstrip()] and [s.strip()]. *)
Fixpoint lstrip (s : string) : string :=
  match s with
  | String c s' => if isspace c then lstrip s' else s
  | EmptyString => EmptyString
  end.

Fixpoint rstrip (s : string) : string :=
  match s with
  | String c s' =>
      match rstrip s' with
      | EmptyString => if isspace c then EmptyString else String c EmptyString
      | r => String c r
      end
  | EmptyString => EmptyString
  end.

Definition strip (s : string) : string := rstrip (lstrip s).

End Str.

(** ** Data model: the five dataclasses *)

Module CPUInfo.
Record t := mk {
  model : string;
  cores : Z;
  threads : Z;
  architecture : string;
  meets_minimum : bool;
  meets_recommended : bool
}.
End CPUInfo.

Module MemoryInfo.
Record t := mk {
  total_gb : Py.number;
  available_gb : Py.number;
  meets_minimum : bool;
  meets_recommended : bool
}.
End MemoryInfo.

Module GPUInfo.
Record t := mk {
  name : string;
  vram_gb : float;
  cuda_version : string;
  driver_version : string;
  compute_capability : string;
  is_available : bool;
  recommended_quantization : string
}.
End GPUInfo.

Module StorageInfo.
Record t := mk {
  total_gb : Py.number;
  available_gb : Py.number;
  meets_minimum : bool;
  filesystem : string
}.
End StorageInfo.

Module SystemReport.
Record t := mk {
  cpu : CPUInfo.t;
  memory : MemoryInfo.t;
  gpu : option GPUInfo.t;
  storage : StorageInfo.t;
  overall_status : string;
  recommendations : list string;
  warnings : list string;
  timestamp : string
}.
End SystemReport.

(** ** What the operating system answers

  The probes read [/proc], [nproc], [sysctl], WMI, [nvidia-smi], [statvfs]
  and [df].  A reading below is what those sources returned once the text
  has been split and converted with [int(...)] or [float(...)]; [None] for a
  whole reading stands for any exception raised while obtaining it. *)

Inductive cpu_reading :=
| cpu_linux (model_name : option string) (nproc : Z)
| cpu_windows (Name : string) (NumberOfCores NumberOfLogicalProcessors : Z)
| cpu_macos (brand_string : string) (physicalcpu logicalcpu : Z).

Inductive memory_reading :=
| memory_linux (MemTotal_kb MemAvailable_kb : Z)
| memory_windows (TotalVisibleMemorySize FreePhysicalMemory : Z)
| memory_macos (memsize : Z).

Record gpu_reading := {
gpu_name : string;
memory_total : float;                 (* float(gpu_data[1]), in MiB *)
gpu_driver_version : string;
cuda_line : option string;            (* the token after "CUDA Version:" *)
compute_cap : option string           (* None: the third query raised *)
}.

Inductive storage_reading :=
| storage_windows (total_bytes free_bytes : Z)
| storage_linux (f_blocks f_frsize f_bavail : Z) (df_type : option string)
| storage_macos (f_blocks f_frsize f_bavail : Z).

Record host := {
platform_machine : string;
cpu_source : option cpu_reading;
memory_source : option memory_reading;
gpu_source : option gpu_reading;
storage_source : option storage_reading;
utcnow_isoformat : string
}.

(** On Linux the readings are parsed from texts.  [None] stands for an
    exception raised while the text is obtained: the file cannot be opened or
    read, the command cannot be run or ends with an error, its output is no
    text. *)
Record linux_texts := {
machine : string;                       (* platform.machine() *)
proc_cpuinfo : option string;           (* open('/proc/cpuinfo').read() *)
nproc_all : option string;              (* check_output(['nproc','--all']).decode() *)
proc_meminfo : option string;           (* open('/proc/meminfo').read() *)
nvidia_smi_query : option string;       (* stdout of the name, memory, driver query *)
nvidia_smi : option string;             (* stdout of plain nvidia-smi *)
nvidia_smi_compute_cap : option string; (* stdout of the compute_cap query *)
statvfs : option (Z * Z * Z);           (* f_blocks, f_frsize, f_bavail *)
df_T : option string;                   (* stdout of df -T target_dir *)
utcnow : string                         (* datetime.utcnow().isoformat() *)
}.

(** ** The output file

    The disk is a finite map from paths to contents.  Two things can go wrong
    with it, and both are the environment's choice: opening a path for
    writing is refused ([unwritable]), or the device stops accepting data
    after [write_budget] more characters. *)

Record disk := {
  files : gmap string string;
  unwritable : gset string;
  write_budget : option nat
}.

Inductive exn := OSError.

Inductive result (A : Type) :=
| Ok (a : A)
| Raise (e : exn).
Arguments Ok {A} a.
Arguments Raise {A} e.

Fixpoint string_take (n : nat) (s : string) : string :=
  match n, s with
  | S n', String c s' => String c (string_take n' s')
  | _, _ => ""
  end.

(** [open(path, 'w')]: refused, or the file exists and is empty afterwards. *)
Definition open_w (path : string) (d : disk) : result disk :=
  if decide (path ∈ unwritable d) then Raise OSError
  else Ok {| files := <[path := ""]> (files d);
             unwritable := unwritable d;
             write_budget := write_budget d |}.

(** [f.write(text)] on the file at [path], appended at its end: all of
    [text], or what the device still accepts and an error. *)
Definition write (path : string) (text : string) (d : disk) : disk * result unit :=
  let old := default "" (files d !! path) in
  match write_budget d with
  | None =>
      ({| files := <[path := old +:+ text]> (files d);
          unwritable := unwritable d;
          write_budget := None |}, Ok ())
  | Some n =>
      if (String.length text <=? n)%nat then
        ({| files := <[path := old +:+ text]> (files d);
            unwritable := unwritable d;
            write_budget := Some (n - String.length text)%nat |}, Ok ())
      else
        ({| files := <[path := old +:+ string_take n text]> (files d);
            unwritable := unwritable d;
            write_budget := Some 0%nat |}, Raise OSError)
  end.

(** How the process ends. *)
Inductive termination :=
| Exit (code : Z)
| Uncaught (e : exn).

(** The status the shell sees: the argument of [sys.exit], or 1 after an
    uncaught exception. *)
Definition exit_status (t : termination) : Z :=
  match t with
  | Exit code => code
  | Uncaught _ => 1
  end.

(** ** The console

    What [print] writes is kept as the list of the texts printed, one per
    call, without the line break [print] adds.  The literals of
    [print_report] hold code points above 255, so a text on the console is a
    list of code points. *)

Definition text := list N.

Definition of_str (s : string) : text := N_of_ascii <$> list_ascii_of_string s.

(** ** Reference runtime

  [round(x, 2)], [repr(x)] and [float(text)] as CPython computes them, in
  exact integer arithmetic: rounding to two decimals is half-even on the
  exact binary value, followed by the nearest float of the decimal; [repr]
  is the shortest decimal that reads back as the same float, in the notation
  [float.__repr__] chooses; [float] of a decimal is the nearest float, ties
  to even; [int] and [float] of an arbitrary text follow the grammar of the
  interpreter.  The validator below does not depend on them; they serve to
  run it on concrete data. *)

Module Ref.

(** Round half to even of [n / m] to an integer ([n >= 0], [m > 0]). *)
Definition round_half_even (n m : Z) : Z :=
  let q := n / m in
  let r := n mod m in
  match Z.compare (2 * r) m with
  | Lt => q
  | Gt => q + 1
  | Eq => if Z.even q then q else q + 1
  end.

(** Numerator and denominator of [n / (m * 2^e)]. *)
Definition scaled (n m e : Z) : Z * Z :=
  if 0 <=? e then (n, m * 2 ^ e) else (n * 2 ^ (- e), m).

(** The integer part of the binary logarithm of [n / m]. *)
Definition floor_log2 (n m : Z) : Z :=
  let l := Z.log2 n - Z.log2 m in
  let '(a, b) := scaled n m l in
  if a <? b then l - 1 else l.

(** The nearest binary64 value (ties to even) of the ratio [n / m] of two
    positive integers, with the given sign: 53 bits below the leading one,
    or the bits above [2^-1074] when these are fewer; a mantissa rounded up
    to [2^53] moves to the next exponent, and past the largest exponent the
    value is infinite. *)
Definition nearest (negative : bool) (n m : Z) : spec_float :=
  if n =? 0 then S754_zero negative
  else
    let e := Z.max (floor_log2 n m - 52) (-1074) in
    let '(a, b) := scaled n m e in
    let c := round_half_even a b in
    let '(c, e) := if c =? 2 ^ 53 then (2 ^ 52, e + 1) else (c, e) in
    if c =? 0 then S754_zero negative
    else if 971 <? e then S754_infinity negative
    else S754_finite negative (Z.to_pos c) e.

Definition float_of_ratio (negative : bool) (n m : Z) : float :=
  SF2Prim (nearest negative n m).

(** [round(x, 2)]. *)
Definition round2 (x : float) : float :=
  match Prim2SF x with
  | S754_finite s m e =>
      let n := if 0 <=? e then Z.pos m * 2 ^ e * 100
               else round_half_even (Z.pos m * 100) (2 ^ (- e)) in
      float_of_ratio s n 100
  | _ => x
  end.

(** The decimals [c * 10^q] against the binary unit [2^s2]: [c] counts
    [grid_B] in units of [grid_A]. *)
Definition grid_A (s2 q : Z) : Z := 2 ^ Z.max s2 0 * 10 ^ Z.max (- q) 0.
Definition grid_B (s2 q : Z) : Z := 2 ^ Z.max (- s2) 0 * 10 ^ Z.max q 0.

(** The least and the greatest [c] with [c * 10^q] between [L * 2^s2] and
    [H * 2^s2], the ends included when [closed]. *)
Definition lowest (L s2 : Z) (closed : bool) (q : Z) : Z :=
  let A := grid_A s2 q in
  let B := grid_B s2 q in
  let c := (L * A + B - 1) / B in
  if closed then c else if (L * A) mod B =? 0 then c + 1 else c.

Definition highest (H s2 : Z) (closed : bool) (q : Z) : Z :=
  let A := grid_A s2 q in
  let B := grid_B s2 q in
  let f := (H * A) / B in
  if closed then f else if (H * A) mod B =? 0 then f - 1 else f.

(** From the exponent [q] downwards, the first exponent with a decimal in
    the interval, and of these decimals the one nearest to [V * 2^s2]. *)
Fixpoint shortest_search (fuel : nat) (L V H : Z) (s2 : Z) (closed : bool) (q : Z)
  : Z * Z :=
  let lo := lowest L s2 closed q in
  let hi := highest H s2 closed q in
  if lo <=? hi then
    let c := round_half_even (V * grid_A s2 q) (grid_B s2 q) in
    (Z.min hi (Z.max lo c), q)
  else
    match fuel with
    | O => (0, 0)
    | S fuel' => shortest_search fuel' L V H s2 closed (q - 1)
    end.

(** The shortest decimal [d * 10^q] that reads back as the finite positive
    float with mantissa [m] and exponent [e]. *)
Definition shortest (m : positive) (e : Z) : Z * Z :=
  let V := 4 * Z.pos m in
  let L := if (Z.pos m =? 2 ^ 52) && negb (e =? -1074) then V - 1 else V - 2 in
  let H := V + 2 in
  let q0 := (Z.log2 H + (e - 2) + 1) * 30103 / 100000 + 1 in
  shortest_search 40 L V H (e - 2) (Z.even (Z.pos m)) q0.

Fixpoint zeros (n : nat) : string :=
  match n with O => "" | S n' => String "0" (zeros n') end.

Definition str_drop (n : nat) (s : string) : string :=
  String.substring n (String.length s - n) s.
Definition str_take (n : nat) (s : string) : string :=
  String.substring 0 n s.

Definition exponent_text (x : Z) : string :=
  (if x <? 0 then "-" else "+") +:+
  (if Z.abs x <? 10 then "0" else "") +:+ pretty (Z.abs x).

Definition format_digits (d q : Z) : string :=
  let ds := pretty d in
  let k := Z.of_nat (String.length ds) in
  let decpt := k + q in
  if (decpt <=? -4) || (16 <? decpt) then
    str_take 1 ds +:+
    (if k =? 1 then "" else "." +:+ str_drop 1 ds) +:+
    "e" +:+ exponent_text (decpt - 1)
  else if decpt <=? 0 then "0." +:+ zeros (Z.to_nat (- decpt)) +:+ ds
  else if decpt <? k then
    str_take (Z.to_nat decpt) ds +:+ "." +:+ str_drop (Z.to_nat decpt) ds
  else ds +:+ zeros (Z.to_nat (decpt - k)) +:+ ".0".

(** [repr(x)]. *)
Definition float_repr (x : float) : string :=
  match Prim2SF x with
  | S754_nan => "nan"
  | S754_infinity s => if s then "-inf" else "inf"
  | S754_zero s => if s then "-0.0" else "0.0"
  | S754_finite s m e =>
      let '(d, q) := shortest m e in
      (if s then "-" else "") +:+ format_digits d q
  end.

(** [float(text)] on a number of the JSON grammar: the nearest float of the
    decimal. *)
Definition split_at_char (sep1 sep2 : ascii) : string -> string * string :=
  fix go (s : string) : string * string :=
    match s with
    | String c s' =>
        if Ascii.eqb c sep1 || Ascii.eqb c sep2 then (EmptyString, s')
        else let '(a, b) := go s' in (String c a, b)
    | EmptyString => (EmptyString, EmptyString)
    end.

Fixpoint decimal_value (acc : Z) (s : string) : Z :=
  match s with
  | String c s' =>
      decimal_value (10 * acc + (Z.of_N (N_of_ascii c) - 48)) s'
  | EmptyString => acc
  end.

Definition signed_value (s : string) : Z :=
  match s with
  | String "-" s' => - decimal_value 0 s'
  | String "+" s' => decimal_value 0 s'
  | _ => decimal_value 0 s
  end.

Definition float_of_str (text : string) : float :=
  let '(negative, body) :=
    match text with
    | String "-" t => (true, t)
    | _ => (false, text)
    end in
  let '(mantissa, exponent) := split_at_char "e" "E" body in
  let '(int_part, frac_part) := split_at_char "." "." mantissa in
  let n := decimal_value 0 (int_part +:+ frac_part) in
  let q := signed_value exponent - Z.of_nat (String.length frac_part) in
  if 0 <=? q then float_of_ratio negative (n * 10 ^ q) 1
  else float_of_ratio negative n (10 ^ (- q)).

(** [int(text)] and [float(text)] on an arbitrary text, as CPython 3.11
    parses them. *)

Definition isdigit (c : ascii) : bool :=
  let n := N_of_ascii c in ((48 <=? n) && (n <=? 57))%N.

(** A run of digits, with single underscores between digits allowed: the
    digits and what follows the run. *)
Fixpoint digitpart (s : string) : option (string * string) :=
  match s with
  | String c s' =>
      if isdigit c then
        let more :=
          match s' with
          | String "_" s'' => digitpart s''
          | _ => digitpart s'
          end in
        match more with
        | Some (ds, rest) => Some (String c ds, rest)
        | None => Some (String c EmptyString, s')
        end
      else None
  | EmptyString => None
  end.

(** The white space [int] and [float] accept around a number. *)
Definition number_space (c : ascii) : bool :=
  let n := N_of_ascii c in
  (((9 <=? n) && (n <=? 13)) || (n =? 32) || (n =? 133) || (n =? 160))%N.

Fixpoint trim_left (s : string) : string :=
  match s with
  | String c s' => if number_space c then trim_left s' else s
  | EmptyString => EmptyString
  end.

Fixpoint trim_right (s : string) : string :=
  match s with
  | String c s' =>
      match trim_right s' with
      | EmptyString => if number_space c then EmptyString else String c EmptyString
      | r => String c r
      end
  | EmptyString => EmptyString
  end.

Definition trim (s : string) : string := trim_right (trim_left s).

Definition unsigned (s : string) : bool * string :=
  match s with
  | String "-" s' => (true, s')
  | String "+" s' => (false, s')
  | _ => (false, s)
  end.

(** [int(text)], for a text of at most 4300 digits. *)
Definition py_int (text : string) : option Z :=
  let '(negative, body) := unsigned (trim text) in
  match digitpart body with
  | Some (ds, EmptyString) =>
      let n := decimal_value 0 ds in Some (if negative then - n else n)
  | _ => None
  end.

Definition lower (c : ascii) : ascii :=
  let n := N_of_ascii c in
  if ((65 <=? n) && (n <=? 90))%N then ascii_of_N (n + 32) else c.

Fixpoint lowercase (s : string) : string :=
  match s with
  | String c s' => String (lower c) (lowercase s')
  | EmptyString => EmptyString
  end.

(** The mantissa: digits, a dot and digits, digits and a dot, or a dot and
    digits. *)
Definition mantissa (s : string) : option (string * string * string) :=
  match digitpart s with
  | Some (ds, String "." rest) =>
      match digitpart rest with
      | Some (fs, rest') => Some (ds, fs, rest')
      | None => Some (ds, EmptyString, rest)
      end
  | Some (ds, rest) => Some (ds, EmptyString, rest)
  | None =>
      match s with
      | String "." rest =>
          '(fs, rest') ← digitpart rest; Some (EmptyString, fs, rest')
      | _ => None
      end
  end.

Definition exponent (s : string) : option Z :=
  match s with
  | EmptyString => Some 0
  | String c s' =>
      if Ascii.eqb c "e" || Ascii.eqb c "E" then
        let '(negative, body) := unsigned s' in
        match digitpart body with
        | Some (ds, EmptyString) =>
            let n := decimal_value 0 ds in Some (if negative then - n else n)
        | _ => None
        end
      else None
  end.

(** [float(text)]. *)
Definition py_float (text : string) : option float :=
  let '(negative, body) := unsigned (trim text) in
  let name := lowercase body in
  if String.eqb name "inf" || String.eqb name "infinity" then
    Some (if negative then neg_infinity else infinity)
  else if String.eqb name "nan" then Some nan
  else
    '(ds, fs, rest) ← mantissa body;
    e ← exponent rest;
    let n := decimal_value 0 (ds +:+ fs) in
    let q := e - Z.of_nat (String.length fs) in
    Some (if 0 <=? q then float_of_ratio negative (n * 10 ^ q) 1
          else float_of_ratio negative n (10 ^ (- q))).

End Ref.

(** ** Data of the test suite *)

(** The facts and the report the test suite builds. *)
Definition test_cpu : CPUInfo.t :=
  CPUInfo.mk "Test CPU" 8 16 "x86_64" true false.
Definition test_memory : MemoryInfo.t :=
  MemoryInfo.mk (Py.Float 32) (Py.Float 28) true false.
Definition test_storage : StorageInfo.t :=
  StorageInfo.mk (Py.Float 500) (Py.Float 200) true "ext4".
Definition test_gpu : GPUInfo.t :=
  GPUInfo.mk "Test GPU" 24 "12.0" "550.0" "8.9" true "Q5_K_M".
Definition test_report : SystemReport.t :=
  SystemReport.mk test_cpu test_memory None test_storage
    "PASSED_WITH_WARNINGS" ["Add GPU"] ["No GPU detected"] "2025-01-01T00:00:00".

(** The machine the probe tests describe: 16 logical CPUs, 32000000 kB of
    RAM, an RTX 5090 with 32768 MiB, 200 of 500 GiB free on ext4. *)
Definition test_host : host := {|
  platform_machine := "x86_64";
  cpu_source := Some (cpu_linux (Some "AMD Ryzen 7 7700X 8-Core Processor") 16);
  memory_source := Some (memory_linux 32000000 28000000);
  gpu_source := Some {| gpu_name := "NVIDIA RTX 5090";
                        memory_total := 32768;
                        gpu_driver_version := "560.35";
                        cuda_line := Some "12.6";
                        compute_cap := Some "9.0" |};
  storage_source := Some (storage_linux 131072000 4096 52428800 (Some "ext4"));
  utcnow_isoformat := "2025-01-01T00:00:00"
|}.

Definition default_output : string := "system_validation_report.json".

(** A disk with room for everything, and one that holds an earlier report
    and accepts a single character more. *)
Definition roomy_disk : disk :=
  {| files := ∅; unwritable := ∅; write_budget := None |}.
Definition full_disk : disk :=
  {| files := {[ default_output := "previous report" ]};
     unwritable := ∅;
     write_budget := Some 1%nat |}.

(** The test machine when [/proc/meminfo] cannot be read, and the test CPU
    under another name on another architecture. *)
Definition blind_host : host := {|
  platform_machine := platform_machine test_host;
  cpu_source := cpu_source test_host;
  memory_source := None;
  gpu_source := gpu_source test_host;
  storage_source := storage_source test_host;
  utcnow_isoformat := utcnow_isoformat test_host
|}.

Definition renamed_cpu : CPUInfo.t :=
  CPUInfo.mk "Another CPU" 8 8 "aarch64" true false.

(** The texts of the probe tests: two processors in [/proc/cpuinfo], 16
    logical CPUs, 32000000 kB of RAM, one RTX 5090; and what [df -T] prints
    for an ext4 volume. *)
Definition nl : string := String "010"%char EmptyString.
Definition tab : string := String "009"%char EmptyString.

Definition test_cpuinfo : string :=
  nl +:+ "processor" +:+ tab +:+ ": 0" +:+ nl +:+
  "model name" +:+ tab +:+ ": AMD Ryzen 7 7700X 8-Core Processor" +:+ nl +:+
  "processor" +:+ tab +:+ ": 1" +:+ nl +:+
  "model name" +:+ tab +:+ ": AMD Ryzen 7 7700X 8-Core Processor" +:+ nl.

Definition test_meminfo : string :=
  nl +:+ "MemTotal:       32000000 kB" +:+ nl +:+
  "MemAvailable:   28000000 kB" +:+ nl.

Definition test_df : string :=
  "Filesystem     Type 1K-blocks      Used Available Use% Mounted on" +:+ nl +:+
  "/dev/nvme0n1p2 ext4 524288000 314572800 209715200  60% /" +:+ nl.

Definition test_texts : linux_texts := {|
  machine := "x86_64";
  proc_cpuinfo := Some test_cpuinfo;
  nproc_all := Some ("16" +:+ nl);
  proc_meminfo := Some test_meminfo;
  nvidia_smi_query := Some "NVIDIA RTX 5090, 32768, 560.35";
  nvidia_smi := Some "CUDA Version: 12.6";
  nvidia_smi_compute_cap := Some "9.0";
  statvfs := Some (131072000, 4096, 52428800);
  df_T := Some test_df;
  utcnow := "2025-01-01T00:00:00"
|}.

(** The same machine with a kernel that prints no [MemAvailable] line, with
    a [/proc/cpuinfo] whose model line has no colon, with an [nvidia-smi]
    that answers [N/A] for the memory, and with a second card. *)
Definition old_kernel_texts : linux_texts := {|
  machine := machine test_texts;
  proc_cpuinfo := proc_cpuinfo test_texts;
  nproc_all := nproc_all test_texts;
  proc_meminfo := Some ("MemTotal:       67108864 kB" +:+ nl +:+
                        "MemFree:        60000000 kB" +:+ nl);
  nvidia_smi_query := nvidia_smi_query test_texts;
  nvidia_smi := nvidia_smi test_texts;
  nvidia_smi_compute_cap := nvidia_smi_compute_cap test_texts;
  statvfs := statvfs test_texts;
  df_T := df_T test_texts;
  utcnow := utcnow test_texts
|}.

Definition odd_cpuinfo_texts : linux_texts := {|
  machine := machine test_texts;
  proc_cpuinfo := Some ("model name = AMD Ryzen 7 7700X" +:+ nl);
  nproc_all := nproc_all test_texts;
  proc_meminfo := proc_meminfo test_texts;
  nvidia_smi_query := nvidia_smi_query test_texts;
  nvidia_smi := nvidia_smi test_texts;
  nvidia_smi_compute_cap := nvidia_smi_compute_cap test_texts;
  statvfs := statvfs test_texts;
  df_T := df_T test_texts;
  utcnow := utcnow test_texts
|}.

Definition with_gpu_answer (answer : string) : linux_texts := {|
  machine := machine test_texts;
  proc_cpuinfo := proc_cpuinfo test_texts;
  nproc_all := nproc_all test_texts;
  proc_meminfo := proc_meminfo test_texts;
  nvidia_smi_query := Some answer;
  nvidia_smi := nvidia_smi test_texts;
  nvidia_smi_compute_cap := nvidia_smi_compute_cap test_texts;
  statvfs := statvfs test_texts;
  df_T := df_T test_texts;
  utcnow := utcnow test_texts
|}.

(** The test machine without the [df] command. *)
Definition no_df_texts : linux_texts := {|
  machine := machine test_texts;
  proc_cpuinfo := proc_cpuinfo test_texts;
  nproc_all := nproc_all test_texts;
  proc_meminfo := proc_meminfo test_texts;
  nvidia_smi_query := nvidia_smi_query test_texts;
  nvidia_smi := nvidia_smi test_texts;
  nvidia_smi_compute_cap := nvidia_smi_compute_cap test_texts;
  statvfs := statvfs test_texts;
  df_T := None;
  utcnow := utcnow test_texts
|}.

Definition two_cards : string :=
  "NVIDIA RTX 5090, 32768, 560.35" +:+ nl +:+
  "NVIDIA RTX 4090, 24576, 560.35" +:+ nl.

(** A card whose memory size [nvidia-smi] prints as [nan]. *)
Definition nan_texts : linux_texts :=
  with_gpu_answer "NVIDIA RTX 5090, nan, 560.35".

(** ** The validator *)

Section SystemValidator.

(** Three functions of the Python runtime are taken as they are: the builtin
    [round(x, 2)] on floats, [float.__repr__] (which [str], f-strings and the
    JSON encoder use) and [float(text)] (which the JSON decoder applies to a
    number with a fraction or an exponent).  Nothing is assumed about them. *)
Variable round2 : float -> float.
Variable float_repr : float -> string.
Variable float_of_str : string -> float.

(** The builtins [int(text)] and [float(text)] on an arbitrary text; [None]
    stands for the [ValueError] of a text that is no number. *)
Variable py_int : string -> option Z.
Variable py_float : string -> option float.

(** [str(Path(p).resolve())]: the absolute form of a path, which depends on
    the working directory and on the links of the file system. *)
Variable resolve : string -> string.

(** [str(x)], as an f-string field [{x}] renders it. *)
Definition str_int (z : Z) : string := pretty z.

Definition str_number (n : Py.number) : string :=
  match n with
  | Py.Int z => str_int z
  | Py.Float x => float_repr x
  end.

(** Requirements for the model (class constants of [SystemValidator]). *)
Definition MIN_CPU_CORES : Z := 8.
Definition RECOMMENDED_CPU_CORES : Z := 12.
Definition MIN_RAM_GB : Z := 32.
Definition RECOMMENDED_RAM_GB : Z := 40.
Definition MIN_STORAGE_GB : Z := 50.
Definition MIN_VRAM_GB : Z := 16.
Definition RECOMMENDED_VRAM_GB : Z := 24.
Definition OPTIMAL_VRAM_GB : Z := 32.

(** *** CPU probe *)

(** The platform branch: model, cores, threads.  On Linux [cores] is the
    output of [nproc --all] and [threads] is the same number (the halved
    [physical_cores] is computed and not used). *)
Definition cpu_facts (r : cpu_reading) : string * Z * Z :=
  match r with
  | cpu_linux model_name nproc => (default "Unknown" model_name, nproc, nproc)
  | cpu_windows Name NumberOfCores NumberOfLogicalProcessors =>
      (Name, NumberOfCores, NumberOfLogicalProcessors)
  | cpu_macos brand_string physicalcpu logicalcpu =>
      (brand_string, physicalcpu, logicalcpu)
  end.

(** The threshold step of [get_cpu_info] (the [return CPUInfo(...)]). *)
Definition cpu_info (model : string) (cores threads : Z) (arch : string) : CPUInfo.t :=
  CPUInfo.mk model cores threads arch
    (MIN_CPU_CORES <=? cores) (RECOMMENDED_CPU_CORES <=? cores).

Definition get_cpu_info (h : host) : CPUInfo.t :=
  match cpu_source h with
  | Some r =>
      let '(model, cores, threads) := cpu_facts r in
      cpu_info model cores threads (platform_machine h)
  | None => CPUInfo.mk "Unknown" 0 0 (platform_machine h) false false
  end.

(** *** Memory probe *)

(** The platform branch: total and available capacity in GB, before any
    rounding.  [None] when a division raises. *)
Definition memory_gb (r : memory_reading) : option (float * float) :=
  match r with
  | memory_linux total_kb available_kb =>
      total_gb ← Py.truediv_pow2 total_kb 20;
      available_gb ← Py.truediv_pow2 available_kb 20;
      Some (total_gb, available_gb)
  | memory_windows total_visible free_physical =>
      total_gb ← Py.truediv_pow2 (total_visible * 1024) 30;
      available_gb ← Py.truediv_pow2 (free_physical * 1024) 30;
      Some (total_gb, available_gb)
  | memory_macos memsize =>
      total_gb ← Py.truediv_pow2 memsize 30;
      Some (total_gb, (total_gb * 0x1.6666666666666p-1)%float)
  end.

(** The threshold step of [get_memory_info] (the [return MemoryInfo(...)]):
    the stored capacities are rounded, the flags compare the unrounded
    total. *)
Definition memory_info (total_gb available_gb : float) : MemoryInfo.t :=
  MemoryInfo.mk (Py.Float (round2 total_gb)) (Py.Float (round2 available_gb))
    (Py.ge_int total_gb MIN_RAM_GB) (Py.ge_int total_gb RECOMMENDED_RAM_GB).

Definition get_memory_info (h : host) : MemoryInfo.t :=
  match memory_source h ≫= memory_gb with
  | Some (total_gb, available_gb) => memory_info total_gb available_gb
  | None => MemoryInfo.mk (Py.Int 0) (Py.Int 0) false false
  end.

(** *** GPU probe *)

(** The quantization advice, by descending VRAM threshold. *)
Definition recommended_quant (vram_gb : float) : string :=
  if Py.ge_int vram_gb OPTIMAL_VRAM_GB then "Q6_K or Q8_0 (full GPU offload)"
  else if Py.ge_int vram_gb RECOMMENDED_VRAM_GB then "Q5_K_M (full GPU offload)"
  else if Py.ge_int vram_gb MIN_VRAM_GB then "Q4_K_M (partial GPU offload)"
  else "Q4_K_M (CPU-heavy, limited GPU)".

Definition gpu_info (r : gpu_reading) : GPUInfo.t :=
  let vram_mb := memory_total r in
  let vram_gb := round2 (vram_mb / Py.float_of_int 1024)%float in
  GPUInfo.mk (gpu_name r) vram_gb
    (default "Unknown" (cuda_line r))
    (gpu_driver_version r)
    (default "Unknown" (compute_cap r))
    true
    (recommended_quant vram_gb).

Definition get_gpu_info (h : host) : option GPUInfo.t :=
  gpu_info <$> gpu_source h.

(** *** Storage probe *)

Definition storage_gb (r : storage_reading) : option (float * float * string) :=
  match r with
  | storage_windows total_bytes free_bytes =>
      total_gb ← Py.truediv_pow2 total_bytes 30;
      available_gb ← Py.truediv_pow2 free_bytes 30;
      Some (total_gb, available_gb, "NTFS")
  | storage_linux f_blocks f_frsize f_bavail df_type =>
      total_gb ← Py.truediv_pow2 (f_blocks * f_frsize) 30;
      available_gb ← Py.truediv_pow2 (f_bavail * f_frsize) 30;
      Some (total_gb, available_gb, default "Unknown" df_type)
  | storage_macos f_blocks f_frsize f_bavail =>
      total_gb ← Py.truediv_pow2 (f_blocks * f_frsize) 30;
      available_gb ← Py.truediv_pow2 (f_bavail * f_frsize) 30;
      Some (total_gb, available_gb, "APFS/HFS+")
  end.

Definition storage_info (total_gb available_gb : float) (filesystem : string)
  : StorageInfo.t :=
  StorageInfo.mk (Py.Float (round2 total_gb)) (Py.Float (round2 available_gb))
    (Py.ge_int available_gb MIN_STORAGE_GB) filesystem.

Definition get_storage_info (h : host) : StorageInfo.t :=
  match storage_source h ≫= storage_gb with
  | Some (total_gb, available_gb, filesystem) =>
      storage_info total_gb available_gb filesystem
  | None => StorageInfo.mk (Py.Int 0) (Py.Int 0) false "Unknown"
  end.

(** *** The Linux probes, from the texts

    What the probes do with the texts before the thresholds: split into
    lines, pick the first line that mentions a key, split it and index the
    pieces.  An index out of range raises [IndexError], a text that is no
    number raises [ValueError]; both end in the [except] branch of the probe,
    as every other exception does. *)

Definition lines (text : string) : list string :=
  Str.split (String "010"%char EmptyString) text.

(** The model name: of the first line that mentions [model name], what
    stands between the first and the second colon, stripped; the inner
    [None] is the [Unknown] of a text without such a line. *)
Definition cpu_model_name (cpuinfo : string) : option (option string) :=
  let model_lines := List.filter (Str.contains "model name") (lines cpuinfo) in
  match model_lines with
  | [] => Some None
  | line :: _ =>
      model ← Str.split ":" line !! 1%nat;
      Some (Some (Str.strip model))
  end.

Definition read_cpu_linux (t : linux_texts) : option cpu_reading :=
  cpuinfo ← proc_cpuinfo t;
  model ← cpu_model_name cpuinfo;
  out ← nproc_all t;
  cores ← py_int (Str.strip out);
  Some (cpu_linux model cores).

(** The number on the first line that mentions [key]: its second word. *)
Definition meminfo_field (key : string) (meminfo : string) : option Z :=
  line ← List.filter (Str.contains key) (lines meminfo) !! 0%nat;
  word ← Str.split_whitespace line !! 1%nat;
  py_int word.

Definition read_memory_linux (t : linux_texts) : option memory_reading :=
  meminfo ← proc_meminfo t;
  total_kb ← meminfo_field "MemTotal" meminfo;
  available_kb ← meminfo_field "MemAvailable" meminfo;
  Some (memory_linux total_kb available_kb).

(** The CUDA version: of the first line that mentions [CUDA Version], the
    first word behind [CUDA Version:]. *)
Definition cuda_version_of (out : string) : option (option string) :=
  let cuda_lines := List.filter (Str.contains "CUDA Version") (lines out) in
  match cuda_lines with
  | [] => Some None
  | line :: _ =>
      behind ← Str.split "CUDA Version:" line !! 1%nat;
      word ← Str.split_whitespace (Str.strip behind) !! 0%nat;
      Some (Some word)
  end.

(** The three calls of [nvidia-smi]; the third has a [try] of its own. *)
Definition read_gpu (t : linux_texts) : option gpu_reading :=
  stdout ← nvidia_smi_query t;
  let gpu_data := Str.split ", " (Str.strip stdout) in
  name ← gpu_data !! 0%nat;
  vram_mb ← gpu_data !! 1%nat ≫= py_float;
  driver_version ← gpu_data !! 2%nat;
  out ← nvidia_smi t;
  cuda_version ← cuda_version_of out;
  Some {| gpu_name := name;
          memory_total := vram_mb;
          gpu_driver_version := driver_version;
          cuda_line := cuda_version;
          compute_cap := Str.strip <$> nvidia_smi_compute_cap t |}.

(** The filesystem type: the second word of the second line of what [df -T]
    prints; [None], which becomes [Unknown], when nothing is printed or the
    [try] around it catches an exception. *)
Definition df_filesystem (df : option string) : option string :=
  stdout ← df;
  match stdout with
  | EmptyString => None
  | _ =>
      line ← lines stdout !! 1%nat;
      Str.split_whitespace line !! 1%nat
  end.

Definition read_storage_linux (t : linux_texts) : option storage_reading :=
  '(f_blocks, f_frsize, f_bavail) ← statvfs t;
  Some (storage_linux f_blocks f_frsize f_bavail (df_filesystem (df_T t))).

(** A Linux machine as the probes see it. *)
Definition linux_host (t : linux_texts) : host := {|
  platform_machine := machine t;
  cpu_source := read_cpu_linux t;
  memory_source := read_memory_linux t;
  gpu_source := read_gpu t;
  storage_source := read_storage_linux t;
  utcnow_isoformat := utcnow t
|}.

(** *** Aggregation

    [validate] starts with two empty lists and appends to them, rule after
    rule.  The two lists are the state threaded through the rules. *)

Record messages := {
  msg_warnings : list string;
  msg_recommendations : list string
}.

Definition no_messages : messages :=
  {| msg_warnings := []; msg_recommendations := [] |}.

(** [warnings.append(w)] and [recommendations.append(r)]. *)
Definition warn (w : string) (s : messages) : messages :=
  {| msg_warnings := msg_warnings s ++ [w];
     msg_recommendations := msg_recommendations s |}.

Definition recommend (r : string) (s : messages) : messages :=
  {| msg_warnings := msg_warnings s;
     msg_recommendations := msg_recommendations s ++ [r] |}.

Definition evaluate_cpu (cpu : CPUInfo.t) (s : messages) : messages :=
  if negb (CPUInfo.meets_minimum cpu) then
    let s := warn ("CPU has only " +:+ str_int (CPUInfo.cores cpu)
                   +:+ " cores (minimum: " +:+ str_int MIN_CPU_CORES +:+ ")") s in
    recommend "Upgrade to a CPU with at least 8 cores for acceptable performance" s
  else if negb (CPUInfo.meets_recommended cpu) then
    recommend ("CPU has " +:+ str_int (CPUInfo.cores cpu)
               +:+ " cores. 12+ cores recommended for optimal performance") s
  else s.

Definition evaluate_memory (memory : MemoryInfo.t) (s : messages) : messages :=
  if negb (MemoryInfo.meets_minimum memory) then
    let s := warn ("RAM is " +:+ str_number (MemoryInfo.total_gb memory)
                   +:+ "GB (minimum: " +:+ str_int MIN_RAM_GB +:+ "GB)") s in
    recommend "CRITICAL: Upgrade RAM to at least 32GB to run 70B model" s
  else if negb (MemoryInfo.meets_recommended memory) then
    recommend ("RAM is " +:+ str_number (MemoryInfo.total_gb memory)
               +:+ "GB. 40GB+ recommended for Q5_K_M or higher") s
  else s.

Definition evaluate_gpu (gpu : option GPUInfo.t) (s : messages) : messages :=
  match gpu with
  | None =>
      let s := warn "No NVIDIA GPU detected - will use CPU-only inference (very slow)" s in
      recommend "Add NVIDIA GPU with 24GB+ VRAM for 10-20x speedup" s
  | Some gpu =>
      if Py.lt_int (GPUInfo.vram_gb gpu) MIN_VRAM_GB then
        let s := warn ("GPU VRAM is " +:+ float_repr (GPUInfo.vram_gb gpu)
                       +:+ "GB (recommended: " +:+ str_int RECOMMENDED_VRAM_GB
                       +:+ "GB+)") s in
        recommend "GPU will be underutilized. Consider hybrid CPU/GPU inference" s
      else if Py.ge_int (GPUInfo.vram_gb gpu) OPTIMAL_VRAM_GB then
        recommend ("Excellent! " +:+ float_repr (GPUInfo.vram_gb gpu)
                   +:+ "GB VRAM enables Q6_K or Q8_0 quantization") s
      else s
  end.

Definition evaluate_storage (storage : StorageInfo.t) (s : messages) : messages :=
  if negb (StorageInfo.meets_minimum storage) then
    let s := warn ("Only " +:+ str_number (StorageInfo.available_gb storage)
                   +:+ "GB available (minimum: " +:+ str_int MIN_STORAGE_GB
                   +:+ "GB)") s in
    recommend "Free up disk space or use a larger drive" s
  else s.

(** [any(critical_failures)]. *)
Definition critical_failures (cpu : CPUInfo.t) (memory : MemoryInfo.t)
    (storage : StorageInfo.t) : list bool :=
  [ negb (MemoryInfo.meets_minimum memory);
    negb (StorageInfo.meets_minimum storage);
    negb (CPUInfo.meets_minimum cpu) ].

Definition any (l : list bool) : bool := existsb id l.

(** Truth value of a list: non-empty. *)
Definition truthy {A} (l : list A) : bool :=
  match l with [] => false | _ :: _ => true end.

(** The body of [validate] once the four facts are at hand (the tests
    replace the four getters and run exactly this part). *)
Definition validate_facts (cpu : CPUInfo.t) (memory : MemoryInfo.t)
    (gpu : option GPUInfo.t) (storage : StorageInfo.t) (now : string)
  : SystemReport.t :=
  let s := no_messages in
  let s := evaluate_cpu cpu s in
  let s := evaluate_memory memory s in
  let s := evaluate_gpu gpu s in
  let s := evaluate_storage storage s in
  let overall_status :=
    if any (critical_failures cpu memory storage) then "FAILED"
    else if truthy (msg_warnings s) then "PASSED_WITH_WARNINGS"
    else "PASSED" in
  SystemReport.mk cpu memory gpu storage overall_status
    (msg_recommendations s) (msg_warnings s) now.

Definition validate (h : host) : SystemReport.t :=
  validate_facts (get_cpu_info h) (get_memory_info h) (get_gpu_info h)
    (get_storage_info h) (utcnow_isoformat h).

(** *** The structured form of a report

    [asdict(report)] turns the dataclasses into nested dictionaries (keys in
    field order), copies the lists and keeps the scalars; the result is a value
    of the JSON data model. *)

Inductive json :=
| JNull
| JBool (b : bool)
| JInt (z : Z)
| JFloat (x : float)
| JString (s : string)
| JList (items : list json)
| JDict (fields : list (string * json)).

Definition json_of_number (n : Py.number) : json :=
  match n with
  | Py.Int z => JInt z
  | Py.Float x => JFloat x
  end.

Definition asdict_cpu (c : CPUInfo.t) : json :=
  JDict [ ("model", JString (CPUInfo.model c));
          ("cores", JInt (CPUInfo.cores c));
          ("threads", JInt (CPUInfo.threads c));
          ("architecture", JString (CPUInfo.architecture c));
          ("meets_minimum", JBool (CPUInfo.meets_minimum c));
          ("meets_recommended", JBool (CPUInfo.meets_recommended c)) ].

Definition asdict_memory (m : MemoryInfo.t) : json :=
  JDict [ ("total_gb", json_of_number (MemoryInfo.total_gb m));
          ("available_gb", json_of_number (MemoryInfo.available_gb m));
          ("meets_minimum", JBool (MemoryInfo.meets_minimum m));
          ("meets_recommended", JBool (MemoryInfo.meets_recommended m)) ].

Definition asdict_gpu (g : GPUInfo.t) : json :=
  JDict [ ("name", JString (GPUInfo.name g));
          ("vram_gb", JFloat (GPUInfo.vram_gb g));
          ("cuda_version", JString (GPUInfo.cuda_version g));
          ("driver_version", JString (GPUInfo.driver_version g));
          ("compute_capability", JString (GPUInfo.compute_capability g));
          ("is_available", JBool (GPUInfo.is_available g));
          ("recommended_quantization", JString (GPUInfo.recommended_quantization g)) ].

Definition asdict_storage (s : StorageInfo.t) : json :=
  JDict [ ("total_gb", json_of_number (StorageInfo.total_gb s));
          ("available_gb", json_of_number (StorageInfo.available_gb s));
          ("meets_minimum", JBool (StorageInfo.meets_minimum s));
          ("filesystem", JString (StorageInfo.filesystem s)) ].

Definition asdict (r : SystemReport.t) : json :=
  JDict [ ("cpu", asdict_cpu (SystemReport.cpu r));
          ("memory", asdict_memory (SystemReport.memory r));
          ("gpu", from_option asdict_gpu JNull (SystemReport.gpu r));
          ("storage", asdict_storage (SystemReport.storage r));
          ("overall_status", JString (SystemReport.overall_status r));
          ("recommendations", JList (JString <$> SystemReport.recommendations r));
          ("warnings", JList (JString <$> SystemReport.warnings r));
          ("timestamp", JString (SystemReport.timestamp r)) ].

(** *** The JSON text, as [json.dump(report_dict, f, indent=2)] writes it

    Defaults of the encoder: ASCII-only output, [", "] replaced by [","] at
    line ends because of the indent, [": "] between key and value, and the
    names [NaN], [Infinity], [-Infinity] for the floats JSON has no syntax
    for.  A [str] is a sequence of code points below 256 here. *)

Definition quote : ascii := "034"%char.
Definition backslash : ascii := "092"%char.

Definition hex_digit (n : N) : ascii :=
  match n with
  | 0 => "0" | 1 => "1" | 2 => "2" | 3 => "3" | 4 => "4" | 5 => "5"
  | 6 => "6" | 7 => "7" | 8 => "8" | 9 => "9" | 10 => "a" | 11 => "b"
  | 12 => "c" | 13 => "d" | 14 => "e" | _ => "f"
  end%N%char.

Definition escape_char (c : ascii) : string :=
  let n := N_of_ascii c in
  if (n =? 34)%N then String backslash (String quote "")
  else if (n =? 92)%N then String backslash (String backslash "")
  else if (n =? 10)%N then String backslash "n"
  else if (n =? 13)%N then String backslash "r"
  else if (n =? 9)%N then String backslash "t"
  else if (n =? 8)%N then String backslash "b"
  else if (n =? 12)%N then String backslash "f"
  else if ((32 <=? n) && (n <=? 126))%N then String c ""
  else String backslash ("u00" +:+
         String (hex_digit (n / 16)) (String (hex_digit (n mod 16)) "")).

Fixpoint escape (s : string) : string :=
  match s with
  | EmptyString => ""
  | String c s' => escape_char c +:+ escape s'
  end.

Definition encode_string (s : string) : string :=
  String quote (escape s +:+ String quote "").

Definition newline : ascii := "010"%char.

Fixpoint spaces (n : nat) : string :=
  match n with
  | O => ""
  | S n' => String " " (spaces n')
  end.

(** A line break followed by the indentation of nesting depth [level]. *)
Definition newline_indent (level : nat) : string :=
  String newline (spaces (2 * level)).

Definition encode_float (x : float) : string :=
  if is_nan x then "NaN"
  else if (x =? infinity)%float then "Infinity"
  else if (x =? neg_infinity)%float then "-Infinity"
  else float_repr x.

(** The items of a list after the first, each behind [","] and a line
    break; the same for the fields of a dictionary. *)
Definition encode_items (enc : json -> string) (sep : string)
  : list json -> string :=
  fix items (l : list json) : string :=
    match l with
    | [] => ""
    | y :: l' => "," +:+ sep +:+ enc y +:+ items l'
    end.

Definition encode_fields (enc : json -> string) (sep : string)
  : list (string * json) -> string :=
  fix fields (l : list (string * json)) : string :=
    match l with
    | [] => ""
    | (k, v) :: l' =>
        "," +:+ sep +:+ encode_string k +:+ ": " +:+ enc v +:+ fields l'
    end.

Fixpoint encode (level : nat) (j : json) {struct j} : string :=
  match j with
  | JNull => "null"
  | JBool true => "true"
  | JBool false => "false"
  | JInt z => str_int z
  | JFloat x => encode_float x
  | JString s => encode_string s
  | JList [] => "[]"
  | JList (x :: xs) =>
      "[" +:+ newline_indent (S level) +:+ encode (S level) x +:+
      encode_items (encode (S level)) (newline_indent (S level)) xs +:+
      newline_indent level +:+ "]"
  | JDict [] => "{}"
  | JDict ((k, v) :: kvs) =>
      "{" +:+ newline_indent (S level) +:+
      encode_string k +:+ ": " +:+ encode (S level) v +:+
      encode_fields (encode (S level)) (newline_indent (S level)) kvs +:+
      newline_indent level +:+ "}"
  end.

(** [json.dumps(obj, indent=2)]: the whole document. *)
Definition dumps (j : json) : string := encode 0 j.

(** *** Reading the JSON text back, as [json.load] does

    The decoder of the standard library: white space is skipped between
    tokens, a string runs to the next unescaped quote, a number is the longest
    match of the decoder's pattern (an optional minus sign, a zero or digits
    that do not start with a zero, an optional fraction, an optional
    exponent), and [NaN], [Infinity], [-Infinity] are accepted.  The
    recursion of the decoder is bounded by a fuel that the length of the
    text covers.

    An answer [Some] is the value [json.load] returns.  The answer [None]
    stands for a text that has no value among the values of this model: one
    the decoder rejects, or one with a string that holds a code point above
    255 (written [\uXXXX] above [\u00ff]; the encoder above writes none for
    the strings it is given here).  [scan_points] below is the string decoder
    without that bound. *)

Definition is_ws (c : ascii) : bool :=
  let n := N_of_ascii c in
  ((n =? 32) || (n =? 9) || (n =? 10) || (n =? 13))%N.

Fixpoint skip_ws (s : string) : string :=
  match s with
  | String c s' => if is_ws c then skip_ws s' else s
  | EmptyString => s
  end.

Definition is_digit (c : ascii) : bool :=
  let n := N_of_ascii c in ((48 <=? n) && (n <=? 57))%N.

Definition digit_value (c : ascii) : Z := Z.of_N (N_of_ascii c) - 48.

Definition hex_value (c : ascii) : option N :=
  let n := N_of_ascii c in
  if ((48 <=? n) && (n <=? 57))%N then Some (n - 48)%N
  else if ((97 <=? n) && (n <=? 102))%N then Some (n - 87)%N
  else if ((65 <=? n) && (n <=? 70))%N then Some (n - 55)%N
  else None.

(** The character a backslash escape stands for. *)
Definition unescape (c : ascii) : option ascii :=
  let n := N_of_ascii c in
  if (n =? 34)%N then Some quote
  else if (n =? 92)%N then Some backslash
  else if (n =? 47)%N then Some "/"%char
  else if (n =? 98)%N then Some "008"%char
  else if (n =? 102)%N then Some "012"%char
  else if (n =? 110)%N then Some "010"%char
  else if (n =? 114)%N then Some "013"%char
  else if (n =? 116)%N then Some "009"%char
  else None.

(** [\uXXXX]: the code point, when it is one of the 256 a [str] has here;
    [None] also for a code point above 255, which the decoder accepts. *)
Definition unicode_escape (h1 h2 h3 h4 : ascii) : option ascii :=
  a ← hex_value h1; b ← hex_value h2; c ← hex_value h3; d ← hex_value h4;
  let n := (((a * 16 + b) * 16 + c) * 16 + d)%N in
  if (n <? 256)%N then Some (ascii_of_N n) else None.

(** The body of a string, from behind the opening quote to the closing one. *)
Fixpoint scanstring (s : string) : option (string * string) :=
  match s with
  | EmptyString => None
  | String c s' =>
      let n := N_of_ascii c in
      if (n =? 34)%N then Some (EmptyString, s')
      else if (n =? 92)%N then
        match s' with
        | EmptyString => None
        | String e s'' =>
            if (N_of_ascii e =? 117)%N then
              match s'' with
              | String h1 (String h2 (String h3 (String h4 rest))) =>
                  ch ← unicode_escape h1 h2 h3 h4;
                  '(body, after) ← scanstring rest;
                  Some (String ch body, after)
              | _ => None
              end
            else
              ch ← unescape e;
              '(body, after) ← scanstring s'';
              Some (String ch body, after)
        end
      else if (n <? 32)%N then None
      else
        '(body, after) ← scanstring s';
        Some (String c body, after)
  end.

(** *** Strings of any code points

    A [str] is a sequence of code points up to 0x10FFFF.  The encoder writes
    a code point above 0xFFFF as two escapes, a high and a low surrogate;
    the decoder joins a high surrogate that is followed by the escape of a
    low one ([py_scanstring], [scanstring_unicode]) and takes every other
    escape for the code point it names. *)

(** The code points of a [str] of this model. *)
Definition points (s : string) : list N := N_of_ascii <$> list_ascii_of_string s.

Definition hex4 (n : N) : string :=
  String (hex_digit (n / 4096)) (String (hex_digit (n / 256 mod 16))
    (String (hex_digit (n / 16 mod 16)) (String (hex_digit (n mod 16)) ""))).

Definition escape_point (n : N) : string :=
  if (n <? 256)%N then escape_char (ascii_of_N n)
  else if (n <? 65536)%N then String backslash ("u" +:+ hex4 n)
  else
    let v := (n - 65536)%N in
    String backslash ("u" +:+ hex4 (55296 + v / 1024)) +:+
    String backslash ("u" +:+ hex4 (56320 + v mod 1024)).

Fixpoint escape_points (l : list N) : string :=
  match l with
  | [] => ""
  | n :: l' => escape_point n +:+ escape_points l'
  end.

Definition hex4_value (h1 h2 h3 h4 : ascii) : option N :=
  a ← hex_value h1; b ← hex_value h2; c ← hex_value h3; d ← hex_value h4;
  Some (((a * 16 + b) * 16 + c) * 16 + d)%N.

Definition high_surrogate (n : N) : bool := ((55296 <=? n) && (n <=? 56319))%N.
Definition low_surrogate (n : N) : bool := ((56320 <=? n) && (n <=? 57343))%N.

Fixpoint scan_points (s : string) : option (list N * string) :=
  match s with
  | EmptyString => None
  | String c s' =>
      let n := N_of_ascii c in
      if (n =? 34)%N then Some ([], s')
      else if (n =? 92)%N then
        match s' with
        | EmptyString => None
        | String e s'' =>
            if (N_of_ascii e =? 117)%N then
              match s'' with
              | String h1 (String h2 (String h3 (String h4 rest))) =>
                  uni ← hex4_value h1 h2 h3 h4;
                  let single :=
                    '(body, after) ← scan_points rest; Some (uni :: body, after) in
                  match rest with
                  | String b (String u (String g1 (String g2 (String g3
                      (String g4 rest'))))) =>
                      if high_surrogate uni && (N_of_ascii b =? 92)%N
                         && (N_of_ascii u =? 117)%N then
                        uni2 ← hex4_value g1 g2 g3 g4;
                        if low_surrogate uni2 then
                          '(body, after) ← scan_points rest';
                          Some ((65536 + (uni - 55296) * 1024 + (uni2 - 56320))%N
                                  :: body, after)
                        else single
                      else single
                  | _ => single
                  end
              | _ => None
              end
            else
              ch ← unescape e;
              '(body, after) ← scan_points s'';
              Some (N_of_ascii ch :: body, after)
        end
      else if (n <? 32)%N then None
      else
        '(body, after) ← scan_points s';
        Some (n :: body, after)
  end.

(** [text] without the literal [lit] at its front. *)
Fixpoint strip_prefix (lit text : string) : option string :=
  match lit, text with
  | EmptyString, _ => Some text
  | String a lit', String b text' =>
      if Ascii.eqb a b then strip_prefix lit' text' else None
  | String _ _, EmptyString => None
  end.

(** The longest run of digits at the front, and what follows it. *)
Fixpoint span_digits (s : string) : string * string :=
  match s with
  | String c s' =>
      if is_digit c then
        let '(ds, rest) := span_digits s' in (String c ds, rest)
      else (EmptyString, s)
  | EmptyString => (EmptyString, s)
  end.

Definition is_empty (s : string) : bool :=
  match s with EmptyString => true | _ => false end.

(** The integer part: an optional minus sign, then [0] or a run of digits
    that does not start with [0]. *)
Definition lex_integer (s : string) : option (string * string) :=
  let '(sign, s1) :=
    match strip_prefix "-" s with
    | Some s' => ("-", s')
    | None => (EmptyString, s)
    end in
  match strip_prefix "0" s1 with
  | Some rest => Some (sign +:+ "0", rest)
  | None =>
      let '(ds, rest) := span_digits s1 in
      if is_empty ds then None else Some (sign +:+ ds, rest)
  end.

(** The optional fraction: a dot and at least one digit. *)
Definition lex_frac (s : string) : string * string :=
  match strip_prefix "." s with
  | Some s' =>
      let '(ds, rest) := span_digits s' in
      if is_empty ds then (EmptyString, s) else ("." +:+ ds, rest)
  | None => (EmptyString, s)
  end.

(** The optional exponent: [e] or [E], an optional sign, at least one digit. *)
Definition lex_exp (s : string) : string * string :=
  let marked :=
    match strip_prefix "e" s with
    | Some s' => Some ("e", s')
    | None =>
        match strip_prefix "E" s with
        | Some s' => Some ("E", s')
        | None => None
        end
    end in
  match marked with
  | Some (mark, s') =>
      let '(sign, s'') :=
        match strip_prefix "+" s' with
        | Some t => ("+", t)
        | None =>
            match strip_prefix "-" s' with
            | Some t => ("-", t)
            | None => (EmptyString, s')
            end
        end in
      let '(ds, rest) := span_digits s'' in
      if is_empty ds then (EmptyString, s) else (mark +:+ sign +:+ ds, rest)
  | None => (EmptyString, s)
  end.

(** The value of a run of digits, most significant first. *)
Fixpoint digits_value (acc : Z) (s : string) : Z :=
  match s with
  | String c s' => digits_value (10 * acc + digit_value c) s'
  | EmptyString => acc
  end.

(** [int(text)] on a matched integer part. *)
Definition int_of_str (s : string) : Z :=
  match strip_prefix "-" s with
  | Some s' => - digits_value 0 s'
  | None => digits_value 0 s
  end.

(** A number: an [int] when there is neither fraction nor exponent, else a
    [float] of the whole text. *)
Definition match_number (s : string) : option (json * string) :=
  '(integer, s1) ← lex_integer s;
  let '(frac, s2) := lex_frac s1 in
  let '(exp, s3) := lex_exp s2 in
  if is_empty frac && is_empty exp then Some (JInt (int_of_str integer), s3)
  else Some (JFloat (float_of_str (integer +:+ frac +:+ exp)), s3).

(** The three names for the floats that are no numbers. *)
Definition scan_constant (s : string) : option (json * string) :=
  match strip_prefix "NaN" s with
  | Some rest => Some (JFloat nan, rest)
  | None =>
      match strip_prefix "Infinity" s with
      | Some rest => Some (JFloat infinity, rest)
      | None =>
          match strip_prefix "-Infinity" s with
          | Some rest => Some (JFloat neg_infinity, rest)
          | None => None
          end
      end
  end.

(** A number, or one of the three names. *)
Definition scan_number (s : string) : option (json * string) :=
  match match_number s with
  | Some r => Some r
  | None => scan_constant s
  end.

(** [null], [true], [false]. *)
Definition scan_name (s : string) : option (json * string) :=
  match strip_prefix "null" s with
  | Some rest => Some (JNull, rest)
  | None =>
      match strip_prefix "true" s with
      | Some rest => Some (JBool true, rest)
      | None =>
          match strip_prefix "false" s with
          | Some rest => Some (JBool false, rest)
          | None => None
          end
      end
  end.

(** [scan_once], with the loops of the array and object decoders. *)
Fixpoint scan_once (fuel : nat) (s : string) {struct fuel} : option (json * string) :=
  match fuel with
  | O => None
  | S fuel' =>
      match s with
      | EmptyString => None
      | String c s' =>
          let n := N_of_ascii c in
          if (n =? 34)%N then
            '(body, rest) ← scanstring s'; Some (JString body, rest)
          else if (n =? 123)%N then
            match strip_prefix "}" (skip_ws s') with
            | Some rest => Some (JDict [], rest)
            | None =>
                '(kvs, rest) ← scan_fields fuel' (skip_ws s');
                Some (JDict kvs, rest)
            end
          else if (n =? 91)%N then
            match strip_prefix "]" (skip_ws s') with
            | Some rest => Some (JList [], rest)
            | None =>
                '(items, rest) ← scan_items fuel' (skip_ws s');
                Some (JList items, rest)
            end
          else
            match scan_name s with
            | Some r => Some r
            | None => scan_number s
            end
      end
  end
with scan_items (fuel : nat) (s : string) {struct fuel}
  : option (list json * string) :=
  match fuel with
  | O => None
  | S fuel' =>
      '(value, rest) ← scan_once fuel' s;
      match strip_prefix "]" (skip_ws rest) with
      | Some after => Some ([value], after)
      | None =>
          match strip_prefix "," (skip_ws rest) with
          | Some after =>
              '(values, after') ← scan_items fuel' (skip_ws after);
              Some (value :: values, after')
          | None => None
          end
      end
  end
with scan_fields (fuel : nat) (s : string) {struct fuel}
  : option (list (string * json) * string) :=
  match fuel with
  | O => None
  | S fuel' =>
      match strip_prefix (String quote EmptyString) s with
      | Some s' =>
          '(key, rest) ← scanstring s';
          match strip_prefix ":" (skip_ws rest) with
          | Some rest' =>
              '(value, rest'') ← scan_once fuel' (skip_ws rest');
              match strip_prefix "}" (skip_ws rest'') with
              | Some after => Some ([(key, value)], after)
              | None =>
                  match strip_prefix "," (skip_ws rest'') with
                  | Some after =>
                      '(kvs, after') ← scan_fields fuel' (skip_ws after);
                      Some ((key, value) :: kvs, after')
                  | None => None
                  end
              end
          | None => None
          end
      | None => None
      end
  end.

(** [json.loads(text)]: one value, with nothing but white space around it. *)
Definition loads (text : string) : option json :=
  '(value, rest) ← scan_once (S (String.length text)) (skip_ws text);
  if is_empty (skip_ws rest) then Some value else None.

(** *** Reading a report off the loaded dictionary

    Field by field, as the tests read [loaded_data['cpu']['cores']]. *)

(** [d[key]] on a dictionary. *)
Definition get (j : json) (key : string) : option json :=
  match j with
  | JDict fields =>
      snd <$> List.find (fun kv => String.eqb (fst kv) key) fields
  | _ => None
  end.

Definition as_string (j : json) : option string :=
  match j with JString s => Some s | _ => None end.
Definition as_int (j : json) : option Z :=
  match j with JInt z => Some z | _ => None end.
Definition as_bool (j : json) : option bool :=
  match j with JBool b => Some b | _ => None end.
Definition as_float (j : json) : option float :=
  match j with JFloat x => Some x | _ => None end.
Definition as_number (j : json) : option Py.number :=
  match j with
  | JInt z => Some (Py.Int z)
  | JFloat x => Some (Py.Float x)
  | _ => None
  end.
Definition as_strings (j : json) : option (list string) :=
  match j with JList items => mapM as_string items | _ => None end.

Definition cpu_of_dict (j : json) : option CPUInfo.t :=
  model ← get j "model" ≫= as_string;
  cores ← get j "cores" ≫= as_int;
  threads ← get j "threads" ≫= as_int;
  architecture ← get j "architecture" ≫= as_string;
  meets_minimum ← get j "meets_minimum" ≫= as_bool;
  meets_recommended ← get j "meets_recommended" ≫= as_bool;
  Some (CPUInfo.mk model cores threads architecture meets_minimum meets_recommended).

Definition memory_of_dict (j : json) : option MemoryInfo.t :=
  total_gb ← get j "total_gb" ≫= as_number;
  available_gb ← get j "available_gb" ≫= as_number;
  meets_minimum ← get j "meets_minimum" ≫= as_bool;
  meets_recommended ← get j "meets_recommended" ≫= as_bool;
  Some (MemoryInfo.mk total_gb available_gb meets_minimum meets_recommended).

Definition gpu_of_dict (j : json) : option GPUInfo.t :=
  name ← get j "name" ≫= as_string;
  vram_gb ← get j "vram_gb" ≫= as_float;
  cuda_version ← get j "cuda_version" ≫= as_string;
  driver_version ← get j "driver_version" ≫= as_string;
  compute_capability ← get j "compute_capability" ≫= as_string;
  is_available ← get j "is_available" ≫= as_bool;
  recommended_quantization ← get j "recommended_quantization" ≫= as_string;
  Some (GPUInfo.mk name vram_gb cuda_version driver_version compute_capability
          is_available recommended_quantization).

Definition storage_of_dict (j : json) : option StorageInfo.t :=
  total_gb ← get j "total_gb" ≫= as_number;
  available_gb ← get j "available_gb" ≫= as_number;
  meets_minimum ← get j "meets_minimum" ≫= as_bool;
  filesystem ← get j "filesystem" ≫= as_string;
  Some (StorageInfo.mk total_gb available_gb meets_minimum filesystem).

(** [null] is the absent GPU, a dictionary a present one. *)
Definition optional_gpu_of_dict (j : json) : option (option GPUInfo.t) :=
  match j with
  | JNull => Some None
  | _ => Some <$> gpu_of_dict j
  end.

Definition report_of_dict (j : json) : option SystemReport.t :=
  cpu ← get j "cpu" ≫= cpu_of_dict;
  memory ← get j "memory" ≫= memory_of_dict;
  gpu ← get j "gpu" ≫= optional_gpu_of_dict;
  storage ← get j "storage" ≫= storage_of_dict;
  overall_status ← get j "overall_status" ≫= as_string;
  recommendations ← get j "recommendations" ≫= as_strings;
  warnings ← get j "warnings" ≫= as_strings;
  timestamp ← get j "timestamp" ≫= as_string;
  Some (SystemReport.mk cpu memory gpu storage overall_status
          recommendations warnings timestamp).

(** The floats a report holds. *)
Definition number_floats (n : Py.number) : list float :=
  match n with
  | Py.Int _ => []
  | Py.Float x => [x]
  end.

Definition report_floats (r : SystemReport.t) : list float :=
  number_floats (MemoryInfo.total_gb (SystemReport.memory r)) ++
  number_floats (MemoryInfo.available_gb (SystemReport.memory r)) ++
  from_option (fun g => [GPUInfo.vram_gb g]) [] (SystemReport.gpu r) ++
  number_floats (StorageInfo.total_gb (SystemReport.storage r)) ++
  number_floats (StorageInfo.available_gb (SystemReport.storage r)).

(** *** Comparing what was loaded with what was dumped

    [==] on two values of the JSON data model that share no object, as a
    loaded document and the dictionary it was dumped from: numbers by value
    (a [bool] is an [int], an [int] and a [float] are compared exactly, a NaN
    is unequal to every number, itself included), strings and lists element
    by element, dictionaries key by key whatever the order of the keys. *)

Definition float_eq_int (x : float) (z : Z) : bool :=
  match Prim2SF x with
  | S754_zero _ => z =? 0
  | S754_finite s m e =>
      let v := if s then Z.neg m else Z.pos m in
      if 0 <=? e then z =? v * 2 ^ e
      else (Z.pos m mod 2 ^ (- e) =? 0) && (z =? v / 2 ^ (- e))
  | _ => false
  end.

Definition as_num (j : json) : option (Z + float) :=
  match j with
  | JBool b => Some (inl (if b then 1 else 0))
  | JInt z => Some (inl z)
  | JFloat x => Some (inr x)
  | _ => None
  end.

Definition num_eq (a b : Z + float) : bool :=
  match a, b with
  | inl x, inl y => x =? y
  | inr x, inr y => (x =? y)%float
  | inl z, inr x | inr x, inl z => float_eq_int x z
  end.

Fixpoint py_eq (a b : json) {struct a} : bool :=
  match a with
  | JNull => match b with JNull => true | _ => false end
  | JString s => match b with JString t => String.eqb s t | _ => false end
  | JList items =>
      match b with
      | JList items' =>
          (fix all (l l' : list json) : bool :=
             match l, l' with
             | [], [] => true
             | x :: l, y :: l' => py_eq x y && all l l'
             | _, _ => false
             end) items items'
      | _ => false
      end
  | JDict fields =>
      match b with
      | JDict fields' =>
          (length fields =? length fields')%nat &&
          (fix all (l : list (string * json)) : bool :=
             match l with
             | [] => true
             | (k, v) :: l =>
                 match get b k with
                 | Some v' => py_eq v v'
                 | None => false
                 end && all l
             end) fields
      | _ => false
      end
  | _ =>
      match as_num a, as_num b with
      | Some x, Some y => num_eq x y
      | _, _ => false
      end
  end.

(** *** Saving and the command *)

(** [save_report]: open for writing, dump the dictionary, close (the [with]
    block closes the file on both ways out and lets an exception pass). *)
Definition save_report (d : disk) (report : SystemReport.t) (output_path : string)
  : disk * result unit :=
  match open_w output_path d with
  | Raise e => (d, Raise e)
  | Ok d =>
      let report_dict := asdict report in
      write output_path (dumps report_dict) d
  end.

(** [main], after the arguments are parsed.  [print_report] (skipped with
    [--quiet]) writes to the console only and is left out. *)
Definition main (h : host) (d : disk) (output : string) (quiet : bool)
  : disk * termination :=
  let report := validate h in
  match save_report d report output with
  | (d, Raise e) => (d, Uncaught e)
  | (d, Ok _) =>
      if String.eqb (SystemReport.overall_status report) "FAILED" then (d, Exit 1)
      else if String.eqb (SystemReport.overall_status report) "PASSED_WITH_WARNINGS"
      then (d, Exit 0)
      else (d, Exit 0)
  end.

(** *** The report on the console

    [print_report], section by section as the comments of the source divide
    it.  The four marks are the literals of the source file, code point by
    code point. *)

Definition ok_mark : text := [226; 339; 8230]%N.
Definition bad_mark : text := [226; 338]%N.
Definition warn_mark : text := [226; 353; 160; 239; 184]%N.
Definition bulb_mark : text := [240; 376; 8217; 161]%N.

(** ["=" * 70]. *)
Definition rule : text := repeat 61%N 70.

(** The status line of a resource: the mark and the wording, both chosen
    by the minimum flag. *)
Definition status_line (meets : bool) (yes no : string) : text :=
  of_str "  Status: " ++ (if meets then ok_mark else bad_mark) ++ of_str " " ++
  of_str (if meets then yes else no).

Definition print_header (report : SystemReport.t) : list text :=
  [ 10%N :: rule;
    of_str "SYSTEM VALIDATION REPORT";
    of_str "Strawberrylemonade-L3-70B-v1.1 Integration";
    rule;
    10%N :: of_str "Timestamp: " ++ of_str (SystemReport.timestamp report);
    of_str "Overall Status: " ++ of_str (SystemReport.overall_status report)
      ++ [10%N] ].

Definition print_cpu (cpu : CPUInfo.t) : list text :=
  [ of_str "CPU Information:";
    of_str "  Model: " ++ of_str (CPUInfo.model cpu);
    of_str "  Cores: " ++ of_str (str_int (CPUInfo.cores cpu))
      ++ of_str " (Physical)";
    of_str "  Threads: " ++ of_str (str_int (CPUInfo.threads cpu))
      ++ of_str " (Logical)";
    of_str "  Architecture: " ++ of_str (CPUInfo.architecture cpu);
    status_line (CPUInfo.meets_minimum cpu) "Meets minimum" "Below minimum" ].

Definition print_memory (memory : MemoryInfo.t) : list text :=
  [ 10%N :: of_str "Memory Information:";
    of_str "  Total: " ++ of_str (str_number (MemoryInfo.total_gb memory))
      ++ of_str "GB";
    of_str "  Available: " ++ of_str (str_number (MemoryInfo.available_gb memory))
      ++ of_str "GB";
    status_line (MemoryInfo.meets_minimum memory) "Meets minimum" "Below minimum" ].

Definition print_gpu (gpu : option GPUInfo.t) : list text :=
  (10%N :: of_str "GPU Information:") ::
  match gpu with
  | Some gpu =>
      [ of_str "  Name: " ++ of_str (GPUInfo.name gpu);
        of_str "  VRAM: " ++ of_str (float_repr (GPUInfo.vram_gb gpu))
          ++ of_str "GB";
        of_str "  CUDA Version: " ++ of_str (GPUInfo.cuda_version gpu);
        of_str "  Driver Version: " ++ of_str (GPUInfo.driver_version gpu);
        of_str "  Compute Capability: "
          ++ of_str (GPUInfo.compute_capability gpu);
        of_str "  Recommended Quantization: "
          ++ of_str (GPUInfo.recommended_quantization gpu);
        of_str "  Status: " ++ ok_mark ++ of_str " GPU Available" ]
  | None =>
      [ of_str "  Status: " ++ warn_mark
          ++ of_str "  No NVIDIA GPU detected (CPU-only mode)" ]
  end.

Definition print_storage (storage : StorageInfo.t) : list text :=
  [ 10%N :: of_str "Storage Information:";
    of_str "  Total: " ++ of_str (str_number (StorageInfo.total_gb storage))
      ++ of_str "GB";
    of_str "  Available: "
      ++ of_str (str_number (StorageInfo.available_gb storage)) ++ of_str "GB";
    of_str "  Filesystem: " ++ of_str (StorageInfo.filesystem storage);
    status_line (StorageInfo.meets_minimum storage)
      "Sufficient space" "Insufficient space" ].

(** A list of messages under its heading; nothing for an empty list. *)
Definition print_messages (heading : text) (messages : list string) : list text :=
  if truthy messages then
    (10%N :: heading) :: ((fun m => of_str "  - " ++ of_str m) <$> messages)
  else [].

Definition passed_banner : text := ok_mark ++ of_str " SYSTEM VALIDATION PASSED".
Definition warnings_banner : text :=
  warn_mark ++ of_str "  SYSTEM VALIDATION PASSED WITH WARNINGS".
Definition failed_banner : text := bad_mark ++ of_str " SYSTEM VALIDATION FAILED".

Definition print_verdict (overall_status : string) : list text :=
  (10%N :: rule) ::
  (if String.eqb overall_status "PASSED" then
     [ passed_banner;
       of_str "Your system meets all requirements for model deployment." ]
   else if String.eqb overall_status "PASSED_WITH_WARNINGS" then
     [ warnings_banner;
       of_str "Your system meets minimum requirements but has limitations." ]
   else
     [ failed_banner;
       of_str "Your system does not meet minimum requirements.";
       of_str "Please address critical issues before proceeding." ]) ++
  [ rule ++ [10%N] ].

Definition print_report (report : SystemReport.t) : list text :=
  print_header report ++
  print_cpu (SystemReport.cpu report) ++
  print_memory (SystemReport.memory report) ++
  print_gpu (SystemReport.gpu report) ++
  print_storage (SystemReport.storage report) ++
  print_messages (warn_mark ++ of_str "  WARNINGS:") (SystemReport.warnings report) ++
  print_messages (bulb_mark ++ of_str " RECOMMENDATIONS:")
    (SystemReport.recommendations report) ++
  print_verdict (SystemReport.overall_status report).

(** The line [save_report] prints when the file is written. *)
Definition saved_line (output_path : string) : text :=
  of_str "Report saved to: " ++ of_str (resolve output_path).

(** [main] with what it prints on the standard output.  The warnings the
    probes print on the standard error are left out. *)
Definition main_io (h : host) (d : disk) (output : string) (quiet : bool)
  : disk * list text * termination :=
  let report := validate h in
  let printed := if negb quiet then print_report report else [] in
  match save_report d report output with
  | (d, Raise e) => (d, printed, Uncaught e)
  | (d, Ok _) =>
      let printed := printed ++ [saved_line output] in
      if String.eqb (SystemReport.overall_status report) "FAILED"
      then (d, printed, Exit 1)
      else if String.eqb (SystemReport.overall_status report) "PASSED_WITH_WARNINGS"
      then (d, printed, Exit 0)
      else (d, printed, Exit 0)
  end.

(** A text that starts with a character of ASCII, or is empty. *)
Definition starts_plain (t : text) : bool :=
  match t with
  | c :: _ => (c <? 128)%N
  | [] => true
  end.

(** *** Notions used in the statements and their proofs *)

(** Lexicographic comparison of (exponent, mantissa), as [SFcompare] does
    for two finite values of the same sign. *)
Definition cmp_em (e1 : Z) (m1 : positive) (e2 : Z) (m2 : positive) : comparison :=
  match Z.compare e1 e2 with
  | Lt => Lt
  | Gt => Gt
  | Eq => Pos.compare_cont Eq m1 m2
  end.

(** The order as a proposition on the specification side. *)
Definition SFle (x y : spec_float) : Prop := SFleb x y = true.
Definition SFlt (x y : spec_float) : Prop := SFltb x y = true.

(** What a rule emits on its own: its effect on empty accumulators. *)
Definition emitted (rule : messages -> messages) : messages := rule no_messages.

(** A rule only appends, and what it appends does not depend on what the
    accumulators hold. *)
Definition appends (rule : messages -> messages) : Prop :=
  forall s,
    msg_warnings (rule s) = msg_warnings s ++ msg_warnings (emitted rule) /\
    msg_recommendations (rule s) =
      msg_recommendations s ++ msg_recommendations (emitted rule).

(** Some resource among CPU, memory and storage is below its minimum. *)
Definition below_minimum (cpu : CPUInfo.t) (memory : MemoryInfo.t)
    (storage : StorageInfo.t) : Prop :=
  CPUInfo.meets_minimum cpu = false \/
  MemoryInfo.meets_minimum memory = false \/
  StorageInfo.meets_minimum storage = false.

(** The four options by ascending precision. *)
Definition precision_rank (advice : string) : nat :=
  if String.eqb advice "Q6_K or Q8_0 (full GPU offload)" then 3
  else if String.eqb advice "Q5_K_M (full GPU offload)" then 2
  else if String.eqb advice "Q4_K_M (partial GPU offload)" then 1
  else 0.

(** The three ways [save_report] can end. *)
Inductive save_outcome (d : disk) (doc : string) (p : string)
  : disk -> result unit -> Prop :=
| save_refused :
    p ∈ unwritable d ->
    save_outcome d doc p d (Raise OSError)
| save_complete d' :
    p ∉ unwritable d ->
    files d' = <[p := doc]> (files d) ->
    save_outcome d doc p d' (Ok ())
| save_cut_short d' n :
    p ∉ unwritable d ->
    write_budget d = Some n ->
    (n < String.length doc)%nat ->
    files d' = <[p := string_take n doc]> (files d) ->
    save_outcome d doc p d' (Raise OSError).

(** [written] is a beginning of [doc] and something of [doc] is missing. *)
Definition proper_prefix (written doc : string) : Prop :=
  exists rest : string, rest <> "" /\ doc = written +:+ rest.

(** The claim of an atomic write, as a property of one call: when
    [save_report] raises, the output path holds the complete document or what
    it held before. *)
Definition atomic_on_failure (d : disk) (r : SystemReport.t) (p : string) : Prop :=
  forall e, snd (save_report d r p) = Raise e ->
  files (fst (save_report d r p)) !! p = Some (dumps (asdict r)) \/
  files (fst (save_report d r p)) !! p = files d !! p.

(** The text after a value: nothing, a comma or a line break. *)
Definition value_end (s : string) : bool :=
  match s with
  | EmptyString => true
  | String c _ => (N_of_ascii c =? 44)%N || (N_of_ascii c =? 10)%N
  end.

(** No character of [lit] ends a value. *)
Fixpoint plain (lit : string) : bool :=
  match lit with
  | EmptyString => true
  | String c lit' =>
      negb ((N_of_ascii c =? 44)%N || (N_of_ascii c =? 10)%N) && plain lit'
  end.

Fixpoint all_digits (s : string) : bool :=
  match s with
  | String c s' => is_digit c && all_digits s'
  | EmptyString => true
  end.

(** Where a number or one of the three names can start. *)
Definition number_start (s : string) : bool :=
  match s with
  | String c _ =>
      is_digit c || Ascii.eqb "-" c || Ascii.eqb "N" c || Ascii.eqb "I" c
  | EmptyString => false
  end.

(** A float reads back: the decoder turns its text into the same float. *)
Definition float_reads_back (x : float) : Prop :=
  scan_number (encode_float x) = Some (JFloat x, EmptyString).

(** Every float of a value reads back. *)
Fixpoint reads_back (j : json) : Prop :=
  match j with
  | JFloat x => float_reads_back x
  | JList items =>
      (fix all (l : list json) : Prop :=
         match l with
         | [] => True
         | x :: l' => reads_back x /\ all l'
         end) items
  | JDict fields =>
      (fix all (l : list (string * json)) : Prop :=
         match l with
         | [] => True
         | (_, v) :: l' => reads_back v /\ all l'
         end) fields
  | _ => True
  end.

(** Fuel that decoding a value takes at most. *)
Fixpoint size (j : json) : nat :=
  match j with
  | JList items =>
      S ((fix sum (l : list json) : nat :=
            match l with
            | [] => O
            | x :: l' => S (size x + sum l')
            end) items)
  | JDict fields =>
      S ((fix sum (l : list (string * json)) : nat :=
            match l with
            | [] => O
            | (_, v) :: l' => S (size v + sum l')
            end) fields)
  | _ => 1%nat
  end.

(** Where a value can start: no white space and no closing bracket. *)
Definition value_start (s : string) : bool :=
  match s with
  | String c _ => negb (is_ws c) && negb (Ascii.eqb "]" c) && negb (Ascii.eqb "}" c)
  | EmptyString => false
  end.

Definition items_size : list json -> nat :=
  fix sum (l : list json) : nat :=
    match l with
    | [] => O
    | x :: l' => S (size x + sum l')
    end.

Definition fields_size : list (string * json) -> nat :=
  fix sum (l : list (string * json)) : nat :=
    match l with
    | [] => O
    | (_, v) :: l' => S (size v + sum l')
    end.

Definition items_read_back : list json -> Prop :=
  fix all (l : list json) : Prop :=
    match l with
    | [] => True
    | x :: l' => reads_back x /\ all l'
    end.

Definition fields_read_back : list (string * json) -> Prop :=
  fix all (l : list (string * json)) : Prop :=
    match l with
    | [] => True
    | (_, v) :: l' => reads_back v /\ all l'
    end.

(** Decoding the text of [j], whatever follows it, gives [j] back and stops
    right behind it. *)
Definition decodes (j : json) : Prop :=
  forall (level : nat) (rest : string) (fuel : nat),
    reads_back j -> (size j <= fuel)%nat -> value_end rest = true ->
    scan_once fuel (encode level j +:+ rest) = Some (j, rest).

Definition fits (j : json) : Prop :=
  forall level : nat, reads_back j ->
    (size j <= String.length (encode level j))%nat.

(** A rule emits at most one warning, and never a warning without a
    recommendation. *)
Definition paired (rule : messages -> messages) : Prop :=
  (length (msg_warnings (emitted rule)) <=
   length (msg_recommendations (emitted rule)) <= 1)%nat.

(** What the rules and the status read of the four facts: the core count and
    the flags of the CPU, the total and the flags of the memory, the VRAM of
    a GPU that is present, the available space and the flag of the storage. *)
Definition decisive (cpu : CPUInfo.t) (memory : MemoryInfo.t)
    (gpu : option GPUInfo.t) (storage : StorageInfo.t) :=
  (CPUInfo.cores cpu, CPUInfo.meets_minimum cpu, CPUInfo.meets_recommended cpu,
   (MemoryInfo.total_gb memory, MemoryInfo.meets_minimum memory,
    MemoryInfo.meets_recommended memory),
   GPUInfo.vram_gb <$> gpu,
   (StorageInfo.available_gb storage, StorageInfo.meets_minimum storage)).

(** [save_report] raises: the path is refused, or the device takes less than
    the document. *)
Definition save_fails (d : disk) (doc : string) (p : string) : Prop :=
  p ∈ unwritable d \/
  exists n : nat, write_budget d = Some n /\ (n < String.length doc)%nat.

(** A count the operating system keeps in an unsigned 64-bit field. *)
Definition counter (z : Z) : Prop := 0 <= z < 2 ^ 64.

(** The installed memory of a reading in bytes, and that its numbers are
    counters. *)
Definition memory_total_bytes (r : memory_reading) : Z :=
  match r with
  | memory_linux total_kb _ => total_kb * 1024
  | memory_windows total_visible _ => total_visible * 1024
  | memory_macos memsize => memsize
  end.

Definition memory_counters (r : memory_reading) : Prop :=
  match r with
  | memory_linux total_kb available_kb => counter total_kb /\ counter available_kb
  | memory_windows total_visible free_physical =>
      counter total_visible /\ counter free_physical
  | memory_macos memsize => counter memsize
  end.

(** The space of a reading that is available to the user, in bytes. *)
Definition storage_available_bytes (r : storage_reading) : Z :=
  match r with
  | storage_windows _ free_bytes => free_bytes
  | storage_linux _ f_frsize f_bavail _ => f_bavail * f_frsize
  | storage_macos _ f_frsize f_bavail => f_bavail * f_frsize
  end.

Definition storage_counters (r : storage_reading) : Prop :=
  match r with
  | storage_windows total_bytes free_bytes => counter total_bytes /\ counter free_bytes
  | storage_linux f_blocks f_frsize f_bavail _ =>
      counter f_blocks /\ counter f_frsize /\ counter f_bavail
  | storage_macos f_blocks f_frsize f_bavail =>
      counter f_blocks /\ counter f_frsize /\ counter f_bavail
  end.

(** The CPU fact of a probe that raised. *)
Definition unknown_cpu (arch : string) : CPUInfo.t :=
  CPUInfo.mk "Unknown" 0 0 arch false false.

(** A text without a comma. *)
Definition no_comma (s : string) : Prop := Str.contains "," s = false.

(** The memory fact of a probe that raised. *)
Definition unknown_memory : MemoryInfo.t :=
  MemoryInfo.mk (Py.Int 0) (Py.Int 0) false false.

(** What a run printed. *)
Definition printed (run : disk * list text * termination) : list text :=
  snd (fst run).

(** The part of the printed report that comes before the verdict. *)
Definition print_body (report : SystemReport.t) : list text :=
  print_header report ++
  print_cpu (SystemReport.cpu report) ++
  print_memory (SystemReport.memory report) ++
  print_gpu (SystemReport.gpu report) ++
  print_storage (SystemReport.storage report) ++
  print_messages (warn_mark ++ of_str "  WARNINGS:") (SystemReport.warnings report) ++
  print_messages (bulb_mark ++ of_str " RECOMMENDATIONS:")
    (SystemReport.recommendations report).

(** The line of a message in the printed report. *)
Definition message_line (m : string) : text := of_str "  - " ++ of_str m.

(** The three statuses in ascending order. *)
Definition status_rank (status : string) : nat :=
  if String.eqb status "PASSED" then 2
  else if String.eqb status "PASSED_WITH_WARNINGS" then 1
  else 0.

(** A GPU fact that draws no warning: a card with 16 GB or more. *)
Definition gpu_without_warning (gpu : option GPUInfo.t) : bool :=
  match gpu with
  | Some g => negb (Py.lt_int (GPUInfo.vram_gb g) MIN_VRAM_GB)
  | None => false
  end.

(** A float that [==] finds equal to itself: every float but NaN. *)
Definition equal_to_itself (x : float) : bool := (x =? x)%float.

(** The values of a dictionary, each compared with itself. *)
Fixpoint own_values_equal (fields : list (string * json)) : bool :=
  match fields with
  | [] => true
  | (_, v) :: fields' => py_eq v v && own_values_equal fields'
  end.

(** Writing a report and reading the document gives a dictionary equal
    ([==]) to the dictionary of the report. *)
Definition reproduced (r : SystemReport.t) : Prop :=
  exists j : json, loads (dumps (asdict r)) = Some j /\ py_eq j (asdict r) = true.

(** *** Notions on the floats of the reference runtime *)

(** The mantissa and exponent of a finite binary64 value: 53 bits, or fewer
    at the least exponent. *)
Definition canonical (mx : positive) (ex : Z) : Prop :=
  (2 ^ 52 <= Z.pos mx < 2 ^ 53 /\ -1074 <= ex <= 971) \/
  (Z.pos mx < 2 ^ 52 /\ ex = -1074).

(** [n / m] rounds to the float [mx * 2^ex]: it lies between the middle to
    the float below and the middle to the float above, in units of
    [2^(ex - 2)], and on a middle only when [mx] is even. *)
Definition within (mx : positive) (ex : Z) (n m : Z) : Prop :=
  let V := 4 * Z.pos mx in
  let L := if (Z.pos mx =? 2 ^ 52) && negb (ex =? -1074) then V - 1 else V - 2 in
  let H := V + 2 in
  let a := fst (Ref.scaled n m (ex - 2)) in
  let b := snd (Ref.scaled n m (ex - 2)) in
  L * b <= a <= H * b /\ (Z.even (Z.pos mx) = true \/ L * b < a < H * b).

(** The ratio [n / m] is the decimal [d * 10^q]. *)
Definition decimal_ratio (d q n m : Z) : Prop :=
  0 < m /\ n * 10 ^ Z.max (- q) 0 = d * 10 ^ Z.max q 0 * m.

(** The exponent the search for the shortest decimal starts from, for an
    upper end of [lh] bits, and that forty steps below it the decimals are
    as dense as the binary unit. *)
Definition first_exponent (lh s2 : Z) : Z := (lh + s2 + 1) * 30103 / 100000 + 1.

Definition fine_enough (s2 : Z) : bool :=
  let q := first_exponent 54 s2 - 40 in Ref.grid_B s2 q <=? Ref.grid_A s2 q.

Fixpoint all_from (f : Z -> bool) (n : nat) (z : Z) : bool :=
  match n with
  | O => true
  | S n' => f z && all_from f n' (z + 1)
  end.

(** The text of a number: the integer part, the digits of the fraction
    (no fraction when there are none) and the exponent. *)
Definition number_text (ip fs : string) (ex : option (bool * string)) : string :=
  ip +:+ (if is_empty fs then "" else "." +:+ fs) +:+
  match ex with
  | None => ""
  | Some (negative, es) => "e" +:+ (if negative then "-" else "+") +:+ es
  end.

Definition exponent_value (ex : option (bool * string)) : Z :=
  match ex with
  | None => 0
  | Some (negative, es) =>
      if negative then - digits_value 0 es else digits_value 0 es
  end.

(** An integer part the decoder takes whole: a zero, or digits that do not
    start with a zero. *)
Definition integer_part (ip : string) : Prop :=
  ip = "0" \/
  exists (c : ascii) (ds : string),
    ip = String c ds /\ is_digit c = true /\ Ascii.eqb "0" c = false /\
    all_digits ds = true.

(** No character of [s] is one of the two separators. *)
Fixpoint lacks (sep1 sep2 : ascii) (s : string) : bool :=
  match s with
  | String c s' => negb (Ascii.eqb c sep1 || Ascii.eqb c sep2) && lacks sep1 sep2 s'
  | EmptyString => true
  end.

(** A text that does not go on with a digit. *)
Definition stops_digits (s : string) : bool :=
  match s with
  | String c _ => negb (is_digit c)
  | EmptyString => true
  end.

(** * Properties *)

(** ** The order of binary64 values

  [<=?] and [<?] on [float] are specified by [SFleb] and [SFltb] on
  [spec_float]; the facts needed about them are transitivity of [<=] and
  that [<] excludes [>=]. *)

Lemma cmp_em_Lt e1 m1 e2 m2 :
  cmp_em e1 m1 e2 m2 = Lt <-> (e1 < e2 \/ (e1 = e2 /\ (m1 < m2)%positive)).
Proof.
  unfold cmp_em. fold (Pos.compare m1 m2).
  destruct (Z.compare_spec e1 e2); destruct (Pos.compare_spec m1 m2);
    split; intros; try discriminate; try reflexivity; lia.
Qed.

Lemma cmp_em_Eq e1 m1 e2 m2 :
  cmp_em e1 m1 e2 m2 = Eq <-> (e1 = e2 /\ m1 = m2).
Proof.
  unfold cmp_em. fold (Pos.compare m1 m2).
  destruct (Z.compare_spec e1 e2); destruct (Pos.compare_spec m1 m2);
    split; intros; try discriminate; try reflexivity; lia.
Qed.

Lemma cmp_em_Gt e1 m1 e2 m2 :
  cmp_em e1 m1 e2 m2 = Gt <-> (e2 < e1 \/ (e1 = e2 /\ (m2 < m1)%positive)).
Proof.
  unfold cmp_em. fold (Pos.compare m1 m2).
  destruct (Z.compare_spec e1 e2); destruct (Pos.compare_spec m1 m2);
    split; intros; try discriminate; try reflexivity; lia.
Qed.

Lemma SFcompare_finite s1 m1 e1 s2 m2 e2 :
  SFcompare (S754_finite s1 m1 e1) (S754_finite s2 m2 e2) =
  Some match s1, s2 with
       | true, false => Lt
       | false, true => Gt
       | false, false => cmp_em e1 m1 e2 m2
       | true, true => CompOpp (cmp_em e1 m1 e2 m2)
       end.
Proof.
  destruct s1, s2; simpl; try reflexivity.
  unfold cmp_em. destruct (Z.compare e1 e2); reflexivity.
Qed.

(** Two values of different sign, and the three outcomes of comparing two
    of the same sign. *)
Ltac sign_case := first [reflexivity | discriminate | exact I | contradiction].

Ltac cmp_em_cases e1 m1 e2 m2 :=
  let E := fresh "E" in
  destruct (cmp_em e1 m1 e2 m2) eqn:E; simpl;
  [ apply cmp_em_Eq in E | apply cmp_em_Lt in E | apply cmp_em_Gt in E ];
  split; intros; try reflexivity; try discriminate; lia.

(** What [SFleb] and [SFltb] say on two finite values. *)
Lemma SFleb_finite s1 m1 e1 s2 m2 e2 :
  SFleb (S754_finite s1 m1 e1) (S754_finite s2 m2 e2) = true <->
  match s1, s2 with
  | true, false => True
  | false, true => False
  | false, false => e1 < e2 \/ (e1 = e2 /\ (m1 <= m2)%positive)
  | true, true => e2 < e1 \/ (e1 = e2 /\ (m2 <= m1)%positive)
  end.
Proof.
  unfold SFleb. rewrite SFcompare_finite.
  destruct s1, s2; try (split; intros; sign_case); cmp_em_cases e1 m1 e2 m2.
Qed.

Lemma SFltb_finite s1 m1 e1 s2 m2 e2 :
  SFltb (S754_finite s1 m1 e1) (S754_finite s2 m2 e2) = true <->
  match s1, s2 with
  | true, false => True
  | false, true => False
  | false, false => e1 < e2 \/ (e1 = e2 /\ (m1 < m2)%positive)
  | true, true => e2 < e1 \/ (e1 = e2 /\ (m2 < m1)%positive)
  end.
Proof.
  unfold SFltb. rewrite SFcompare_finite.
  destruct s1, s2; try (split; intros; sign_case); cmp_em_cases e1 m1 e2 m2.
Qed.

Lemma SFleb_trans x y z : SFle x y -> SFle y z -> SFle x z.
Proof.
  unfold SFle.
  destruct x as [sx|sx| |sx mx ex], y as [sy|sy| |sy my ey],
           z as [sz|sz| |sz mz ez];
    try (destruct sx); try (destruct sy); try (destruct sz);
    try (intros; reflexivity); try (intros; discriminate).
  all: rewrite !SFleb_finite; lia.
Qed.

Lemma SFltb_not_ge x y : SFlt x y -> SFleb y x = false.
Proof.
  unfold SFlt. intros H.
  destruct (SFleb y x) eqn:E; [exfalso | reflexivity].
  revert H E.
  destruct x as [sx|sx| |sx mx ex], y as [sy|sy| |sy my ey];
    try (destruct sx); try (destruct sy);
    try (intros; discriminate).
  all: rewrite SFltb_finite, SFleb_finite; lia.
Qed.

(** Transfer to the primitive floats, through their specification. *)

Lemma float_le_trans (x y z : float) :
(x <=? y)%float = true -> (y <=? z)%float = true -> (x <=? z)%float = true.
Proof. rewrite !leb_spec. apply SFleb_trans. Qed.

Lemma float_lt_not_ge (x y : float) :
(x <? y)%float = true -> (y <=? x)%float = false.
Proof. rewrite ltb_spec, leb_spec. apply SFltb_not_ge. Qed.

Lemma float_ge_not_lt (x y : float) :
(y <=? x)%float = true -> (x <? y)%float = false.
Proof.
intros H. destruct (x <? y)%float eqn:E; [| reflexivity].
apply float_lt_not_ge in E. congruence.
Qed.

(** The mixed comparisons are the IEEE comparisons with the constant. *)
Lemma ge_int_16 x : Py.ge_int x MIN_VRAM_GB = (16 <=? x)%float.
Proof. reflexivity. Qed.
Lemma ge_int_24 x : Py.ge_int x RECOMMENDED_VRAM_GB = (24 <=? x)%float.
Proof. reflexivity. Qed.
Lemma ge_int_32 x : Py.ge_int x OPTIMAL_VRAM_GB = (32 <=? x)%float.
Proof. reflexivity. Qed.
Lemma lt_int_16 x : Py.lt_int x MIN_VRAM_GB = (x <? 16)%float.
Proof. reflexivity. Qed.

(** ** The rules append, one resource after the other *)

Ltac rule_cases :=
  unfold appends, emitted, warn, recommend; intros s; simpl;
  repeat match goal with
         | |- context [if ?b then _ else _] => destruct b
         end;
  simpl; rewrite ?app_nil_r, <- ?app_assoc; split; reflexivity.

Lemma evaluate_cpu_appends cpu : appends (evaluate_cpu cpu).
Proof. unfold evaluate_cpu. rule_cases. Qed.

Lemma evaluate_memory_appends memory : appends (evaluate_memory memory).
Proof. unfold evaluate_memory. rule_cases. Qed.

Lemma evaluate_gpu_appends gpu : appends (evaluate_gpu gpu).
Proof. unfold evaluate_gpu. destruct gpu as [g|]; rule_cases. Qed.

Lemma evaluate_storage_appends storage : appends (evaluate_storage storage).
Proof. unfold evaluate_storage. rule_cases. Qed.

(** The two lists of a report, spelled out. *)
Lemma validate_facts_warnings cpu memory gpu storage now :
  SystemReport.warnings (validate_facts cpu memory gpu storage now) =
  msg_warnings (emitted (evaluate_cpu cpu)) ++
  msg_warnings (emitted (evaluate_memory memory)) ++
  msg_warnings (emitted (evaluate_gpu gpu)) ++
  msg_warnings (emitted (evaluate_storage storage)).
Proof.
  unfold validate_facts. cbn [SystemReport.warnings].
  rewrite (proj1 (evaluate_storage_appends storage _)).
  rewrite (proj1 (evaluate_gpu_appends gpu _)).
  rewrite (proj1 (evaluate_memory_appends memory _)).
  rewrite <- !app_assoc. reflexivity.
Qed.

Lemma validate_facts_recommendations cpu memory gpu storage now :
  SystemReport.recommendations (validate_facts cpu memory gpu storage now) =
  msg_recommendations (emitted (evaluate_cpu cpu)) ++
  msg_recommendations (emitted (evaluate_memory memory)) ++
  msg_recommendations (emitted (evaluate_gpu gpu)) ++
  msg_recommendations (emitted (evaluate_storage storage)).
Proof.
  unfold validate_facts. cbn [SystemReport.recommendations].
  rewrite (proj2 (evaluate_storage_appends storage _)).
  rewrite (proj2 (evaluate_gpu_appends gpu _)).
  rewrite (proj2 (evaluate_memory_appends memory _)).
  rewrite <- !app_assoc. reflexivity.
Qed.

(** C6. For every combination of the four facts, the warnings and the
    recommendations of the report are the messages of the CPU rule, then those
    of the memory rule, then those of the GPU rule, then those of the storage
    rule; each segment is what that rule emits on its own, a function of that
    resource's fact and of nothing else. *)
Theorem messages_ordered_by_resource
    (cpu : CPUInfo.t) (memory : MemoryInfo.t) (gpu : option GPUInfo.t)
    (storage : StorageInfo.t) (now : string) :
  let r := validate_facts cpu memory gpu storage now in
  SystemReport.warnings r =
    msg_warnings (emitted (evaluate_cpu cpu)) ++
    msg_warnings (emitted (evaluate_memory memory)) ++
    msg_warnings (emitted (evaluate_gpu gpu)) ++
    msg_warnings (emitted (evaluate_storage storage)) /\
  SystemReport.recommendations r =
    msg_recommendations (emitted (evaluate_cpu cpu)) ++
    msg_recommendations (emitted (evaluate_memory memory)) ++
    msg_recommendations (emitted (evaluate_gpu gpu)) ++
    msg_recommendations (emitted (evaluate_storage storage)).
Proof.
  intros r. split.
  - apply validate_facts_warnings.
  - apply validate_facts_recommendations.
Qed.

(** ** Overall status *)

Lemma any_critical_failures cpu memory storage :
  any (critical_failures cpu memory storage) = true <->
  below_minimum cpu memory storage.
Proof.
  unfold any, critical_failures, below_minimum. simpl.
  destruct (CPUInfo.meets_minimum cpu), (MemoryInfo.meets_minimum memory),
    (StorageInfo.meets_minimum storage); simpl; intuition congruence.
Qed.

Lemma truthy_nonempty {A} (l : list A) : truthy l = true <-> l <> [].
Proof. destruct l; simpl; split; congruence. Qed.

(** FAILED is decided by the three minimum flags alone. *)
Lemma validate_facts_failed cpu memory storage now (g : option GPUInfo.t) :
  SystemReport.overall_status (validate_facts cpu memory g storage now) = "FAILED"
  <-> below_minimum cpu memory storage.
Proof.
  unfold validate_facts. cbn [SystemReport.overall_status].
  rewrite <- any_critical_failures.
  destruct (any (critical_failures cpu memory storage));
    [ split; reflexivity | ].
  match goal with |- context [truthy ?l] => destruct (truthy l) end;
    split; discriminate.
Qed.

(** C1. For every report [validate] produces: the status is FAILED exactly
    when CPU, memory or storage misses its minimum flag, whatever the GPU fact
    is; it is PASSED_WITH_WARNINGS exactly when none misses it and the warning
    list is non-empty; it is PASSED exactly when none misses it and the warning
    list is empty. *)
Theorem overall_status_derivation
    (cpu : CPUInfo.t) (memory : MemoryInfo.t) (gpu : option GPUInfo.t)
    (storage : StorageInfo.t) (now : string) :
  let r := validate_facts cpu memory gpu storage now in
  (SystemReport.overall_status r = "FAILED" <->
     below_minimum cpu memory storage) /\
  (SystemReport.overall_status r = "PASSED_WITH_WARNINGS" <->
     ~ below_minimum cpu memory storage /\ SystemReport.warnings r <> []) /\
  (SystemReport.overall_status r = "PASSED" <->
     ~ below_minimum cpu memory storage /\ SystemReport.warnings r = []) /\
  (forall gpu' : option GPUInfo.t,
     SystemReport.overall_status (validate_facts cpu memory gpu' storage now)
       = "FAILED" <->
     SystemReport.overall_status r = "FAILED").
Proof.
  intros r.
  pose proof (validate_facts_failed cpu memory storage now) as Hstatus.
  split; [apply Hstatus |].
  split; [| split].
  - subst r. unfold validate_facts.
    cbn [SystemReport.overall_status SystemReport.warnings].
    rewrite <- any_critical_failures, <- truthy_nonempty.
    destruct (any (critical_failures cpu memory storage)).
    + split; [discriminate | intros [H _]; congruence].
    + match goal with |- context [truthy ?l] => destruct (truthy l) end.
      * split; [intros _; split; congruence | reflexivity].
      * split; [discriminate | intros [_ H]; congruence].
  - subst r. unfold validate_facts.
    cbn [SystemReport.overall_status SystemReport.warnings].
    rewrite <- any_critical_failures.
    destruct (any (critical_failures cpu memory storage)).
    + split; [discriminate | intros [H _]; congruence].
    + match goal with |- context [truthy ?l] => destruct l eqn:El end; simpl.
      * split; [intros _; split; congruence | reflexivity].
      * split; [discriminate | intros [_ H]; congruence].
  - intros g. rewrite (Hstatus g). symmetry. apply Hstatus.
Qed.

(** The same for the report of a whole run. *)
Corollary validate_status_failed (h : host) :
  SystemReport.overall_status (validate h) = "FAILED" <->
  below_minimum (get_cpu_info h) (get_memory_info h) (get_storage_info h).
Proof. apply validate_facts_failed. Qed.

(** ** Threshold flags *)

(** C2. For every core count [c] and every RAM size [r] in GB, the CPU flags
    are [c >= 8] and [c >= 12] and the memory flags are [r >= 32] and
    [r >= 40]: a comparison of integers for the cores, the IEEE comparison of
    the unrounded total for the memory. *)
Theorem threshold_flags
    (model arch : string) (c threads : Z) (r available : float) :
  CPUInfo.meets_minimum (cpu_info model c threads arch) = (8 <=? c) /\
  CPUInfo.meets_recommended (cpu_info model c threads arch) = (12 <=? c) /\
  MemoryInfo.meets_minimum (memory_info r available) = (32 <=? r)%float /\
  MemoryInfo.meets_recommended (memory_info r available) = (40 <=? r)%float.
Proof. repeat split; reflexivity. Qed.

(** On every host, also when the probe fails and reports zero cores, the CPU
    flags of the fact are the comparisons of the core count it stores. *)
Lemma get_cpu_info_flags (h : host) :
  CPUInfo.meets_minimum (get_cpu_info h) = (8 <=? CPUInfo.cores (get_cpu_info h)) /\
  CPUInfo.meets_recommended (get_cpu_info h) =
    (12 <=? CPUInfo.cores (get_cpu_info h)).
Proof.
  unfold get_cpu_info. destruct (cpu_source h) as [r|]; [| split; reflexivity].
  destruct (cpu_facts r) as [[model cores] threads]. split; reflexivity.
Qed.

(** The memory flags of a host: the comparisons of the unrounded total when
    the probe succeeds, false when it fails. *)
Lemma get_memory_info_flags (h : host) :
  match memory_source h ≫= memory_gb with
  | Some (total_gb, _) =>
      MemoryInfo.meets_minimum (get_memory_info h) = (32 <=? total_gb)%float /\
      MemoryInfo.meets_recommended (get_memory_info h) = (40 <=? total_gb)%float
  | None =>
      MemoryInfo.meets_minimum (get_memory_info h) = false /\
      MemoryInfo.meets_recommended (get_memory_info h) = false
  end.
Proof.
  unfold get_memory_info.
  destruct (memory_source h ≫= memory_gb) as [[total_gb available_gb]|];
    split; reflexivity.
Qed.

(** ** Quantization advice *)

Lemma recommended_quant_cases (v : float) :
  ((32 <=? v)%float = true /\
     recommended_quant v = "Q6_K or Q8_0 (full GPU offload)") \/
  ((32 <=? v)%float = false /\ (24 <=? v)%float = true /\
     recommended_quant v = "Q5_K_M (full GPU offload)") \/
  ((24 <=? v)%float = false /\ (16 <=? v)%float = true /\
     recommended_quant v = "Q4_K_M (partial GPU offload)") \/
  ((16 <=? v)%float = false /\
     recommended_quant v = "Q4_K_M (CPU-heavy, limited GPU)").
Proof.
  unfold recommended_quant. rewrite ge_int_32, ge_int_24, ge_int_16.
  destruct (32 <=? v)%float eqn:E32; [left; split; reflexivity |].
  destruct (24 <=? v)%float eqn:E24; [right; left; repeat split; reflexivity |].
  destruct (16 <=? v)%float eqn:E16; [right; right; left; repeat split; reflexivity |].
  right; right; right. split; reflexivity.
Qed.

(** A threshold that is met implies the lower ones. *)
Lemma ge_32_ge_24 v : (32 <=? v)%float = true -> (24 <=? v)%float = true.
Proof. apply float_le_trans. reflexivity. Qed.
Lemma ge_24_ge_16 v : (24 <=? v)%float = true -> (16 <=? v)%float = true.
Proof. apply float_le_trans. reflexivity. Qed.

(** Closes a goal about the thresholds a capacity meets: lower thresholds
    follow from higher ones, and contradictory facts end the case. *)
Ltac thresholds :=
  intros;
  repeat match goal with
         | H : _ /\ _ |- _ => destruct H
         end;
  repeat match goal with
         | H : (32 <=? ?v)%float = true |- _ =>
             lazymatch goal with
             | _ : (24 <=? v)%float = true |- _ => fail
             | _ => pose proof (ge_32_ge_24 v H)
             end
         | H : (24 <=? ?v)%float = true |- _ =>
             lazymatch goal with
             | _ : (16 <=? v)%float = true |- _ => fail
             | _ => pose proof (ge_24_ge_16 v H)
             end
         end;
  first [ discriminate | congruence | split; congruence ].

(** C3. The advice is one of four fixed strings, chosen by the first
    threshold met in descending order: [v >= 32] gives the highest-precision
    option, otherwise [v >= 24] the mid option, otherwise [v >= 16] the
    partial-offload option, otherwise the CPU-heavy fallback.  Each option is
    given on exactly its interval, so the mapping is total and has no gaps,
    with boundaries at 16, 24 and 32, and the precision of the advice never
    decreases when the capacity increases. *)
Theorem quantization_advice :
  (forall v, recommended_quant v = "Q6_K or Q8_0 (full GPU offload)" <->
             (32 <=? v)%float = true) /\
  (forall v, recommended_quant v = "Q5_K_M (full GPU offload)" <->
             (24 <=? v)%float = true /\ (32 <=? v)%float = false) /\
  (forall v, recommended_quant v = "Q4_K_M (partial GPU offload)" <->
             (16 <=? v)%float = true /\ (24 <=? v)%float = false) /\
  (forall v, recommended_quant v = "Q4_K_M (CPU-heavy, limited GPU)" <->
             (16 <=? v)%float = false) /\
  (forall v1 v2, (v1 <=? v2)%float = true ->
     (precision_rank (recommended_quant v1) <=
      precision_rank (recommended_quant v2))%nat).
Proof.
  repeat apply conj.
  1-4: intros v;
    destruct (recommended_quant_cases v)
      as [[H ->]|[(H & H' & ->)|[(H & H' & ->)|[H ->]]]];
    split; thresholds.
  intros v1 v2 Hle.
  assert (T : forall t : float, (t <=? v1)%float = true -> (t <=? v2)%float = true)
    by (intros t Ht; exact (float_le_trans t v1 v2 Ht Hle)).
  destruct (recommended_quant_cases v1)
    as [[H1 ->]|[(H1 & H1' & ->)|[(H1 & H1' & ->)|[H1 ->]]]];
  destruct (recommended_quant_cases v2)
    as [[H2 ->]|[(H2 & H2' & ->)|[(H2 & H2' & ->)|[H2 ->]]]];
    try (vm_compute; lia); exfalso;
    try (apply T in H1); try (apply T in H1'); thresholds.
Qed.

(** ** The GPU rule *)

(** The status of a report, read off its own warning list. *)
Lemma validate_facts_status cpu memory gpu storage now :
  let r := validate_facts cpu memory gpu storage now in
  SystemReport.overall_status r =
    if any (critical_failures cpu memory storage) then "FAILED"
    else if truthy (SystemReport.warnings r) then "PASSED_WITH_WARNINGS"
    else "PASSED".
Proof. reflexivity. Qed.

Lemma truthy_app_r {A} (l1 l2 : list A) : truthy l2 = true -> truthy (l1 ++ l2) = true.
Proof. destruct l1, l2; simpl; congruence. Qed.

(** C4. When CPU, memory and storage meet their minimum flags and no GPU
    fact is present, the status is PASSED_WITH_WARNINGS, the warnings contain
    the message about CPU-only inference and the recommendations contain the
    message to add a GPU. *)
Theorem gpu_absent_passes_with_warnings
    (cpu : CPUInfo.t) (memory : MemoryInfo.t) (storage : StorageInfo.t)
    (now : string) :
  CPUInfo.meets_minimum cpu = true ->
  MemoryInfo.meets_minimum memory = true ->
  StorageInfo.meets_minimum storage = true ->
  let r := validate_facts cpu memory None storage now in
  SystemReport.overall_status r = "PASSED_WITH_WARNINGS" /\
  In "No NVIDIA GPU detected - will use CPU-only inference (very slow)"
     (SystemReport.warnings r) /\
  In "Add NVIDIA GPU with 24GB+ VRAM for 10-20x speedup"
     (SystemReport.recommendations r).
Proof.
  intros Hcpu Hmem Hsto r. subst r.
  rewrite validate_facts_status, validate_facts_warnings,
    validate_facts_recommendations.
  unfold any, critical_failures. rewrite Hcpu, Hmem, Hsto. cbn [existsb negb id orb].
  split; [| split].
  - rewrite truthy_app_r; [reflexivity |]. apply truthy_app_r. reflexivity.
  - apply in_or_app; right. apply in_or_app; right. apply in_or_app; left.
    left. reflexivity.
  - apply in_or_app; right. apply in_or_app; right. apply in_or_app; left.
    left. reflexivity.
Qed.

(** C9. A GPU whose VRAM is at least 16 GB and below 32 GB gets no warning
    and no recommendation: the report carries the CPU, memory and storage
    messages only.  Whenever the GPU rule emits something, the GPU is absent,
    or its VRAM is below 16 GB, or it is at least 32 GB. *)
Theorem gpu_between_minimum_and_optimal_is_silent
    (cpu : CPUInfo.t) (memory : MemoryInfo.t) (gpu : GPUInfo.t)
    (storage : StorageInfo.t) (now : string) :
  (16 <=? GPUInfo.vram_gb gpu)%float = true ->
  (GPUInfo.vram_gb gpu <? 32)%float = true ->
  let r := validate_facts cpu memory (Some gpu) storage now in
  emitted (evaluate_gpu (Some gpu)) = no_messages /\
  SystemReport.warnings r =
    msg_warnings (emitted (evaluate_cpu cpu)) ++
    msg_warnings (emitted (evaluate_memory memory)) ++
    msg_warnings (emitted (evaluate_storage storage)) /\
  SystemReport.recommendations r =
    msg_recommendations (emitted (evaluate_cpu cpu)) ++
    msg_recommendations (emitted (evaluate_memory memory)) ++
    msg_recommendations (emitted (evaluate_storage storage)) /\
  (forall g : option GPUInfo.t,
     emitted (evaluate_gpu g) <> no_messages ->
     g = None \/
     exists gpu', g = Some gpu' /\
       ((GPUInfo.vram_gb gpu' <? 16)%float = true \/
        (32 <=? GPUInfo.vram_gb gpu')%float = true)).
Proof.
  intros Hmin Hopt r.
  assert (Hsilent : emitted (evaluate_gpu (Some gpu)) = no_messages).
  { unfold emitted, evaluate_gpu. rewrite lt_int_16, ge_int_32.
    rewrite (float_ge_not_lt _ _ Hmin), (float_lt_not_ge _ _ Hopt). reflexivity. }
  split; [exact Hsilent |]. subst r.
  rewrite validate_facts_warnings, validate_facts_recommendations, Hsilent.
  split; [reflexivity |]. split; [reflexivity |].
  intros [g|] Hg; [right | left; reflexivity].
  exists g. split; [reflexivity |].
  unfold emitted, evaluate_gpu in Hg. rewrite lt_int_16, ge_int_32 in Hg.
  destruct (GPUInfo.vram_gb g <? 16)%float; [left; reflexivity |].
  destruct (32 <=? GPUInfo.vram_gb g)%float; [right; reflexivity |].
  congruence.
Qed.

(** ** Available memory *)

(** C10. The available capacity decides nothing.  Two memory probes with the
    same total capacity and any two available capacities give the same flags
    (both computed from the total alone), and reports with the same warnings,
    recommendations and status; the same holds for any memory fact whose
    [available_gb] field is replaced. *)
Theorem memory_available_is_inert
    (total_gb available1 available2 : float)
    (cpu : CPUInfo.t) (gpu : option GPUInfo.t) (storage : StorageInfo.t)
    (now : string) :
  let m1 := memory_info total_gb available1 in
  let m2 := memory_info total_gb available2 in
  let r1 := validate_facts cpu m1 gpu storage now in
  let r2 := validate_facts cpu m2 gpu storage now in
  (MemoryInfo.meets_minimum m1 = MemoryInfo.meets_minimum m2 /\
   MemoryInfo.meets_recommended m1 = MemoryInfo.meets_recommended m2) /\
  (MemoryInfo.meets_minimum m1 = Py.ge_int total_gb MIN_RAM_GB /\
   MemoryInfo.meets_recommended m1 = Py.ge_int total_gb RECOMMENDED_RAM_GB) /\
  (SystemReport.warnings r1 = SystemReport.warnings r2 /\
   SystemReport.recommendations r1 = SystemReport.recommendations r2 /\
   SystemReport.overall_status r1 = SystemReport.overall_status r2) /\
  (forall (m : MemoryInfo.t) (available : Py.number),
     let m' := MemoryInfo.mk (MemoryInfo.total_gb m) available
                 (MemoryInfo.meets_minimum m) (MemoryInfo.meets_recommended m) in
     let r := validate_facts cpu m gpu storage now in
     let r' := validate_facts cpu m' gpu storage now in
     SystemReport.warnings r' = SystemReport.warnings r /\
     SystemReport.recommendations r' = SystemReport.recommendations r /\
     SystemReport.overall_status r' = SystemReport.overall_status r).
Proof.
  intros m1 m2 r1 r2.
  split; [split; reflexivity |].
  split; [split; reflexivity |].
  split; [repeat split; reflexivity |].
  intros m available m' r r'. repeat split; reflexivity.
Qed.

(** ** Writing the report *)

Lemma save_report_outcome (d : disk) (r : SystemReport.t) (p : string) :
  save_outcome d (dumps (asdict r)) p
    (fst (save_report d r p)) (snd (save_report d r p)).
Proof.
  unfold save_report, open_w. generalize (dumps (asdict r)). intros doc.
  destruct (decide (p ∈ unwritable d)) as [Hin|Hout].
  { apply save_refused. exact Hin. }
  unfold write. cbn [files write_budget unwritable].
  rewrite lookup_insert_eq. cbn [default from_option String.append].
  destruct (write_budget d) as [n|] eqn:Hb.
  - destruct (Nat.leb_spec (String.length doc) n); cbn [fst snd].
    + apply save_complete; [exact Hout |]. apply insert_insert_eq.
    + eapply save_cut_short; eauto. apply insert_insert_eq.
  - cbn [fst snd]. apply save_complete; [exact Hout |]. apply insert_insert_eq.
Qed.

(** [main] ends with the exception [save_report] raised, or with the exit
    code chosen from the status. *)
Lemma main_after_save (h : host) (d : disk) (output : string) (quiet : bool) :
  snd (main h d output quiet) =
  match snd (save_report d (validate h) output) with
  | Raise e => Uncaught e
  | Ok _ =>
      if String.eqb (SystemReport.overall_status (validate h)) "FAILED"
      then Exit 1 else Exit 0
  end.
Proof.
  unfold main. destruct (save_report d (validate h) output) as [d' [u|e]];
    cbn [snd]; [| reflexivity].
  destruct (String.eqb _ "FAILED"); [reflexivity |].
  destruct (String.eqb _ "PASSED_WITH_WARNINGS"); reflexivity.
Qed.

(** C5. For every run that gets past writing the report, the process exits
    with the code [main] passes to [sys.exit], and that code is non-zero
    exactly when the status is FAILED; with PASSED_WITH_WARNINGS it is zero. *)
Theorem exit_status_nonzero_iff_failed
    (h : host) (d : disk) (output : string) (quiet : bool) :
  snd (save_report d (validate h) output) = Ok () ->
  exists code : Z,
    snd (main h d output quiet) = Exit code /\
    exit_status (snd (main h d output quiet)) = code /\
    (code <> 0 <-> SystemReport.overall_status (validate h) = "FAILED") /\
    (SystemReport.overall_status (validate h) = "PASSED_WITH_WARNINGS" ->
     code = 0).
Proof.
  intros Hsave. rewrite main_after_save, Hsave.
  destruct (String.eqb_spec (SystemReport.overall_status (validate h)) "FAILED")
    as [E|E].
  - exists 1. repeat split; first [reflexivity | congruence | lia].
  - exists 0. repeat split; first [reflexivity | congruence | lia].
Qed.

(** ** A failed write *)

Lemma string_take_proper_prefix n doc :
  (n < String.length doc)%nat -> proper_prefix (string_take n doc) doc.
Proof.
  revert doc. induction n as [|n IH]; intros [|c doc] H; simpl in *; try lia.
  - exists (String c doc). split; [discriminate | reflexivity].
  - destruct (IH doc) as (rest & Hne & Heq); [lia |].
    exists rest. split; [exact Hne |].
    change (String c doc = String c (string_take n doc +:+ rest)).
    f_equal. exact Heq.
Qed.

Lemma main_disk (h : host) (d : disk) (output : string) (quiet : bool) :
  fst (main h d output quiet) = fst (save_report d (validate h) output).
Proof.
  unfold main. destruct (save_report d (validate h) output) as [d' [u|e]];
    cbn [fst]; [| reflexivity].
  destruct (String.eqb _ "FAILED"); [reflexivity |].
  destruct (String.eqb _ "PASSED_WITH_WARNINGS"); reflexivity.
Qed.

(** C8, as the code has it.  When writing the report fails, [main] ends with
    that exception uncaught (exit status 1) and leaves the disk as
    [save_report] left it; no other path is touched.  Either opening the
    output path was refused and the disk is unchanged, or the path had been
    opened, which emptied it, and it now holds a beginning of the JSON
    document with the rest missing. *)
Theorem write_failure_is_fatal_and_truncating
    (h : host) (d : disk) (output : string) (quiet : bool) (e : exn) :
  snd (save_report d (validate h) output) = Raise e ->
  let doc := dumps (asdict (validate h)) in
  let d' := fst (save_report d (validate h) output) in
  snd (main h d output quiet) = Uncaught e /\
  exit_status (snd (main h d output quiet)) = 1 /\
  fst (main h d output quiet) = d' /\
  (forall q : string, q <> output -> files d' !! q = files d !! q) /\
  (((output ∈ unwritable d) /\ d' = d) \/
   ((output ∉ unwritable d) /\
    exists written : string,
      files d' !! output = Some written /\ proper_prefix written doc)).
Proof.
  intros Hraise. cbv zeta.
  split; [rewrite main_after_save, Hraise; reflexivity |].
  split; [rewrite main_after_save, Hraise; reflexivity |].
  split; [apply main_disk |].
  pose proof (save_report_outcome d (validate h) output) as Hout.
  rewrite Hraise in Hout.
  remember (fst (save_report d (validate h) output)) as d1 eqn:Hd1.
  remember (dumps (asdict (validate h))) as doc eqn:Hdoc.
  clear Hd1 Hdoc Hraise.
  inversion Hout as [Hin Hd | | d2 n Hnot Hb Hlt Hfiles Hd He]; subst.
  - split; [reflexivity |]. left. split; [exact Hin | reflexivity].
  - split.
    + intros q Hq. rewrite Hfiles. apply lookup_insert_ne. congruence.
    + right. split; [exact Hnot |].
      exists (string_take n doc). split.
      * rewrite Hfiles. apply lookup_insert_eq.
      * apply string_take_proper_prefix. exact Hlt.
Qed.

(** When nothing fails, the output path holds the whole document. *)
Lemma save_report_success (d : disk) (r : SystemReport.t) (p : string) :
  snd (save_report d r p) = Ok () ->
  files (fst (save_report d r p)) !! p = Some (dumps (asdict r)).
Proof.
  intros Hok. pose proof (save_report_outcome d r p) as Hout.
  rewrite Hok in Hout. inversion Hout as [| d1 Hnot Hfiles |]; subst.
  rewrite Hfiles. apply lookup_insert_eq.
Qed.

(** ** Reading back what was written *)

(** *** Strings *)

Lemma append_cons (c : ascii) (s t : string) :
  String c s +:+ t = String c (s +:+ t).
Proof. reflexivity. Qed.

Lemma append_nil_l (s : string) : "" +:+ s = s.
Proof. reflexivity. Qed.

Lemma append_nil_r (s : string) : s +:+ "" = s.
Proof. induction s as [|c s IH]; [reflexivity |]. rewrite append_cons, IH. reflexivity. Qed.

Lemma append_assoc (a b c : string) : (a +:+ b) +:+ c = a +:+ (b +:+ c).
Proof.
  induction a as [|x a IH]; [reflexivity |].
  rewrite !append_cons, IH. reflexivity.
Qed.

Lemma length_append (a b : string) :
  String.length (a +:+ b) = (String.length a + String.length b)%nat.
Proof.
  induction a as [|x a IH]; [reflexivity |].
  rewrite append_cons. simpl. rewrite IH. reflexivity.
Qed.

(** *** White space *)

Lemma skip_ws_spaces (n : nat) (s : string) : skip_ws (spaces n +:+ s) = skip_ws s.
Proof. induction n as [|n IH]; [reflexivity |]. exact IH. Qed.

Lemma skip_ws_newline_indent (level : nat) (s : string) :
  skip_ws (newline_indent level +:+ s) = skip_ws s.
Proof. unfold newline_indent. rewrite append_cons. apply skip_ws_spaces. Qed.

(** *** Literals *)

Lemma strip_prefix_app (lit s rest : string) :
  plain lit = true -> value_end rest = true ->
  strip_prefix lit (s +:+ rest) = (fun r => r +:+ rest) <$> strip_prefix lit s.
Proof.
  revert s. induction lit as [|a lit IH]; intros s Hplain Hend; [reflexivity |].
  simpl in Hplain. apply andb_prop in Hplain as [Ha Hlit].
  destruct s as [|b s].
  - rewrite append_nil_l. destruct rest as [|c rest]; [reflexivity |].
    simpl. destruct (Ascii.eqb_spec a c) as [->|]; [| reflexivity].
    simpl in Hend. rewrite Hend in Ha. discriminate.
  - rewrite append_cons. simpl. destruct (Ascii.eqb a b); [| reflexivity].
    apply IH; assumption.
Qed.

(** *** Strings of the document *)

Lemma scanstring_escape_char (c : ascii) (tail : string) :
  scanstring (escape_char c +:+ tail) =
  '(body, after) ← scanstring tail; Some (String c body, after).
Proof.
  destruct c as [[] [] [] [] [] [] [] []]; reflexivity.
Qed.

Lemma scanstring_escape (s rest : string) :
  scanstring (escape s +:+ String quote rest) = Some (s, rest).
Proof.
  induction s as [|c s IH]; [reflexivity |].
  cbn [escape]. rewrite append_assoc, scanstring_escape_char, IH. reflexivity.
Qed.

Lemma scan_once_string (fuel : nat) (s rest : string) :
  scan_once (S fuel) (encode_string s +:+ rest) = Some (JString s, rest).
Proof.
  unfold encode_string. rewrite append_cons, append_assoc, append_cons, append_nil_l.
  cbn [scan_once]. change (N_of_ascii quote =? 34)%N with true. cbn iota.
  rewrite scanstring_escape. reflexivity.
Qed.

(** *** Numbers *)

Lemma value_end_not_digit (c : ascii) (s : string) :
  value_end (String c s) = true -> is_digit c = false.
Proof.
  unfold value_end, is_digit. intros H.
  apply orb_prop in H as [H|H]; apply N.eqb_eq in H; rewrite H; reflexivity.
Qed.

Lemma span_digits_end (rest : string) :
  value_end rest = true -> span_digits rest = (EmptyString, rest).
Proof.
  destruct rest as [|c rest]; [reflexivity |]. intros H. simpl.
  rewrite (value_end_not_digit c rest H). reflexivity.
Qed.

Lemma span_digits_app (s rest : string) :
  value_end rest = true ->
  span_digits (s +:+ rest) = let '(ds, r) := span_digits s in (ds, r +:+ rest).
Proof.
  intros Hend. induction s as [|c s IH].
  - rewrite append_nil_l. apply span_digits_end. exact Hend.
  - rewrite append_cons. simpl. destruct (is_digit c); [| reflexivity].
    rewrite IH. destruct (span_digits s). reflexivity.
Qed.

Lemma lex_integer_app (s rest : string) :
  value_end rest = true ->
  lex_integer (s +:+ rest) =
  (fun '(tok, r) => (tok, r +:+ rest)) <$> lex_integer s.
Proof.
  intros Hend. unfold lex_integer.
  rewrite (strip_prefix_app "-" s rest eq_refl Hend).
  destruct (strip_prefix "-" s) as [s'|]; cbn [fmap option_fmap option_map].
  - rewrite (strip_prefix_app "0" s' rest eq_refl Hend).
    destruct (strip_prefix "0" s'); [reflexivity |]. cbn [fmap option_fmap option_map].
    rewrite span_digits_app by exact Hend.
    destruct (span_digits s') as [ds r]. destruct (is_empty ds); reflexivity.
  - rewrite (strip_prefix_app "0" s rest eq_refl Hend).
    destruct (strip_prefix "0" s); [reflexivity |]. cbn [fmap option_fmap option_map].
    rewrite span_digits_app by exact Hend.
    destruct (span_digits s) as [ds r]. destruct (is_empty ds); reflexivity.
Qed.

Lemma lex_frac_app (s rest : string) :
  value_end rest = true ->
  lex_frac (s +:+ rest) = let '(tok, r) := lex_frac s in (tok, r +:+ rest).
Proof.
  intros Hend. unfold lex_frac.
  rewrite (strip_prefix_app "." s rest eq_refl Hend).
  destruct (strip_prefix "." s) as [s'|]; cbn [fmap option_fmap option_map];
    [| reflexivity].
  rewrite span_digits_app by exact Hend.
  destruct (span_digits s') as [ds r]. destruct (is_empty ds); reflexivity.
Qed.

Lemma lex_exp_app (s rest : string) :
  value_end rest = true ->
  lex_exp (s +:+ rest) = let '(tok, r) := lex_exp s in (tok, r +:+ rest).
Proof.
  intros Hend. unfold lex_exp.
  rewrite (strip_prefix_app "e" s rest eq_refl Hend).
  rewrite (strip_prefix_app "E" s rest eq_refl Hend).
  assert (Hsign : forall mark s',
    (let '(sign, s'') :=
       match strip_prefix "+" (s' +:+ rest) with
       | Some t => ("+", t)
       | None =>
           match strip_prefix "-" (s' +:+ rest) with
           | Some t => ("-", t)
           | None => (EmptyString, s' +:+ rest)
           end
       end in
     let '(ds, r) := span_digits s'' in
     if is_empty ds then (EmptyString, s +:+ rest)
     else (mark +:+ sign +:+ ds, r)) =
    (let '(tok, r) :=
       (let '(sign, s'') :=
          match strip_prefix "+" s' with
          | Some t => ("+", t)
          | None =>
              match strip_prefix "-" s' with
              | Some t => ("-", t)
              | None => (EmptyString, s')
              end
          end in
        let '(ds, r) := span_digits s'' in
        if is_empty ds then (EmptyString, s) else (mark +:+ sign +:+ ds, r)) in
     (tok, r +:+ rest))).
  { intros mark s'.
    rewrite (strip_prefix_app "+" s' rest eq_refl Hend).
    rewrite (strip_prefix_app "-" s' rest eq_refl Hend).
    destruct (strip_prefix "+" s') as [t|]; cbn [fmap option_fmap option_map].
    - rewrite span_digits_app by exact Hend.
      destruct (span_digits t) as [ds r]. destruct (is_empty ds); reflexivity.
    - destruct (strip_prefix "-" s') as [t|]; cbn [fmap option_fmap option_map].
      + rewrite span_digits_app by exact Hend.
        destruct (span_digits t) as [ds r]. destruct (is_empty ds); reflexivity.
      + rewrite span_digits_app by exact Hend.
        destruct (span_digits s') as [ds r]. destruct (is_empty ds); reflexivity. }
  destruct (strip_prefix "e" s) as [s'|]; cbn [fmap option_fmap option_map].
  - apply Hsign.
  - destruct (strip_prefix "E" s) as [s'|]; cbn [fmap option_fmap option_map].
    + apply Hsign.
    + reflexivity.
Qed.

Lemma match_number_app (s rest : string) :
  value_end rest = true ->
  match_number (s +:+ rest) =
  (fun '(j, r) => (j, r +:+ rest)) <$> match_number s.
Proof.
  intros Hend. unfold match_number.
  rewrite lex_integer_app by exact Hend.
  destruct (lex_integer s) as [[integer s1]|]; [| reflexivity].
  cbn [fmap option_fmap option_map mbind option_bind].
  rewrite lex_frac_app by exact Hend. destruct (lex_frac s1) as [frac s2].
  rewrite lex_exp_app by exact Hend. destruct (lex_exp s2) as [exp s3].
  destruct (is_empty frac && is_empty exp); reflexivity.
Qed.

Lemma scan_constant_app (s rest : string) :
  value_end rest = true ->
  scan_constant (s +:+ rest) =
  (fun '(j, r) => (j, r +:+ rest)) <$> scan_constant s.
Proof.
  intros Hend. unfold scan_constant.
  rewrite (strip_prefix_app "NaN" s rest eq_refl Hend).
  rewrite (strip_prefix_app "Infinity" s rest eq_refl Hend).
  rewrite (strip_prefix_app "-Infinity" s rest eq_refl Hend).
  destruct (strip_prefix "NaN" s); [reflexivity |].
  destruct (strip_prefix "Infinity" s); [reflexivity |].
  destruct (strip_prefix "-Infinity" s); reflexivity.
Qed.

Lemma scan_number_app (s rest : string) :
  value_end rest = true ->
  scan_number (s +:+ rest) =
  (fun '(j, r) => (j, r +:+ rest)) <$> scan_number s.
Proof.
  intros Hend. unfold scan_number.
  rewrite match_number_app by exact Hend.
  destruct (match_number s) as [[j r]|]; [reflexivity |].
  apply scan_constant_app. exact Hend.
Qed.

(** *** Integers: the decimal text and its value *)

Lemma all_digits_app (a b : string) :
  all_digits (a +:+ b) = all_digits a && all_digits b.
Proof.
  induction a as [|c a IH]; [reflexivity |].
  rewrite append_cons. simpl. rewrite IH, andb_assoc. reflexivity.
Qed.

Lemma digits_value_app (acc : Z) (a b : string) :
  digits_value acc (a +:+ b) = digits_value (digits_value acc a) b.
Proof.
  revert acc. induction a as [|c a IH]; intros acc; [reflexivity |].
  rewrite append_cons. simpl. apply IH.
Qed.

Lemma span_digits_all (ds rest : string) :
  all_digits ds = true -> value_end rest = true ->
  span_digits (ds +:+ rest) = (ds, rest).
Proof.
  intros Hds Hend. induction ds as [|c ds IH].
  - rewrite append_nil_l. apply span_digits_end. exact Hend.
  - simpl in Hds. apply andb_prop in Hds as [Hc Hds].
    rewrite append_cons. simpl. rewrite Hc, (IH Hds). reflexivity.
Qed.

Lemma pretty_N_char_digit (x : N) :
  (x < 10)%N ->
  is_digit (pretty_N_char x) = true /\
  digit_value (pretty_N_char x) = Z.of_N x /\
  ((0 < x)%N -> Ascii.eqb "0" (pretty_N_char x) = false).
Proof.
  intros Hx.
  assert (x = 0 \/ x = 1 \/ x = 2 \/ x = 3 \/ x = 4 \/ x = 5 \/ x = 6 \/
          x = 7 \/ x = 8 \/ x = 9)%N as Hcases by lia.
  repeat (destruct Hcases as [-> | Hcases]); try subst x;
    (split; [reflexivity | split; [reflexivity | intros; first [reflexivity | lia]]]).
Qed.

(** The digits [pretty_N_go] puts in front of [s]: a first digit that is not
    zero, then digits, with the value of the number. *)
Lemma pretty_N_go_digits (x : N) :
  (0 < x)%N ->
  forall s : string, exists (c : ascii) (ds : string),
    pretty_N_go x s = String c ds +:+ s /\
    is_digit c = true /\ Ascii.eqb "0" c = false /\
    all_digits ds = true /\
    digits_value 0 (String c ds) = Z.of_N x.
Proof.
  induction (N.lt_wf_0 x) as [x _ IH]. intros Hpos s.
  rewrite pretty_N_go_step by exact Hpos.
  destruct (pretty_N_char_digit (x `mod` 10)%N) as (Hd & Hv & Hnz);
    [apply N.mod_lt; lia |].
  destruct (N.eq_dec (x `div` 10) 0)%N as [Hz|Hnz'].
  - rewrite Hz, pretty_N_go_0.
    exists (pretty_N_char (x `mod` 10)), EmptyString.
    assert (x `mod` 10 = x)%N as Hmod.
    { pose proof (N.div_mod x 10 ltac:(lia)). lia. }
    repeat split; try assumption.
    + apply Hnz. lia.
    + simpl. rewrite Hv, Hmod. lia.
  - destruct (IH (x `div` 10)%N) with (s := String (pretty_N_char (x `mod` 10)) s)
      as (c & ds & Heq & Hc & Hc0 & Hds & Hval).
    { apply N.div_lt; lia. }
    { apply N.neq_0_lt_0. exact Hnz'. }
    exists c, (ds +:+ String (pretty_N_char (x `mod` 10)) EmptyString).
    repeat split; try assumption.
    + rewrite Heq, !append_cons, append_assoc. reflexivity.
    + rewrite all_digits_app, Hds. simpl. rewrite Hd. reflexivity.
    + change (String c (ds +:+ String (pretty_N_char (x `mod` 10)) ""))
        with (String c ds +:+ String (pretty_N_char (x `mod` 10)) "").
      rewrite digits_value_app, Hval. simpl. rewrite Hv.
      pose proof (N.div_mod x 10 ltac:(lia)). lia.
Qed.

(** The text of a non-negative integer, as the decoder sees it. *)
Lemma pretty_N_shape (x : N) :
  pretty x = "0" /\ x = 0%N \/
  exists (c : ascii) (ds : string),
    pretty x = String c ds /\
    is_digit c = true /\ Ascii.eqb "0" c = false /\
    all_digits ds = true /\ digits_value 0 (String c ds) = Z.of_N x.
Proof.
  destruct (N.eq_dec x 0%N) as [->|Hx]; [left; split; reflexivity | right].
  destruct (pretty_N_go_digits x) with (s := EmptyString)
    as (c & ds & Heq & H); [lia |].
  exists c, ds. split; [| exact H].
  unfold pretty, pretty_N. destruct (decide (x = 0%N)); [contradiction |].
  rewrite Heq, append_nil_r. reflexivity.
Qed.

Lemma digit_not_minus (c : ascii) : is_digit c = true -> Ascii.eqb "-" c = false.
Proof.
  intros H. destruct (Ascii.eqb_spec "-" c) as [<-|]; [discriminate H | reflexivity].
Qed.

Lemma match_number_digits (sign : bool) (c : ascii) (ds : string) :
  is_digit c = true -> Ascii.eqb "0" c = false -> all_digits ds = true ->
  match_number ((if sign then "-" else "") +:+ String c ds) =
  Some (JInt (if sign then - digits_value 0 (String c ds)
              else digits_value 0 (String c ds)), EmptyString).
Proof.
  intros Hc Hc0 Hds.
  assert (Hspan : span_digits (String c ds) = (String c ds, EmptyString)).
  { rewrite <- (append_nil_r (String c ds)) at 1.
    apply span_digits_all; [simpl; rewrite Hc, Hds |]; reflexivity. }
  assert (Hint : lex_integer ((if sign then "-" else "") +:+ String c ds) =
                 Some ((if sign then "-" else "") +:+ String c ds, EmptyString)).
  { unfold lex_integer. destruct sign.
    - change (strip_prefix "-" ("-" +:+ String c ds)) with (Some (String c ds)).
      cbn [strip_prefix]. rewrite Hc0, Hspan. reflexivity.
    - rewrite append_nil_l. cbn [strip_prefix].
      rewrite (digit_not_minus c Hc), Hc0, Hspan. reflexivity. }
  unfold match_number. rewrite Hint.
  cbn [mbind option_bind lex_frac lex_exp strip_prefix is_empty andb].
  f_equal. f_equal. f_equal. unfold int_of_str. destruct sign.
  - reflexivity.
  - rewrite append_nil_l. cbn [strip_prefix].
    rewrite (digit_not_minus c Hc). reflexivity.
Qed.

Lemma match_number_str_int (z : Z) :
  match_number (str_int z) = Some (JInt z, EmptyString).
Proof.
  unfold str_int. destruct z as [|p|p].
  - reflexivity.
  - change (pretty (Z.pos p)) with (pretty (N.pos p)).
    destruct (pretty_N_shape (N.pos p)) as [[_ H]|(c & ds & -> & Hc & Hc0 & Hds & Hval)];
      [discriminate H |].
    rewrite <- (append_nil_l (String c ds)).
    rewrite (match_number_digits false c ds Hc Hc0 Hds), Hval. reflexivity.
  - change (pretty (Z.neg p)) with ("-" +:+ pretty (N.pos p)).
    destruct (pretty_N_shape (N.pos p)) as [[_ H]|(c & ds & -> & Hc & Hc0 & Hds & Hval)];
      [discriminate H |].
    rewrite (match_number_digits true c ds Hc Hc0 Hds), Hval. reflexivity.
Qed.

Lemma scan_number_start (s : string) (r : json * string) :
  scan_number s = Some r -> number_start s = true.
Proof.
  destruct s as [|c s]; [discriminate |].
  destruct c as [[] [] [] [] [] [] [] []]; try reflexivity;
    intros H; unfold scan_number, match_number, lex_integer, scan_constant in H;
    simpl in H; discriminate H.
Qed.

Lemma scan_once_number (fuel : nat) (s : string) :
  number_start s = true -> scan_once (S fuel) s = scan_number s.
Proof.
  destruct s as [|c s]; [discriminate |].
  destruct c as [[] [] [] [] [] [] [] []]; try discriminate; reflexivity.
Qed.

Lemma number_start_app (s rest : string) :
  number_start s = true -> number_start (s +:+ rest) = true.
Proof. destruct s as [|c s]; [discriminate |]. intros H. exact H. Qed.

(** A value that reads back on its own reads back in front of what may
    follow a value. *)
Lemma scan_once_scalar (fuel : nat) (s rest : string) (j : json) :
  scan_number s = Some (j, EmptyString) -> value_end rest = true ->
  scan_once (S fuel) (s +:+ rest) = Some (j, rest).
Proof.
  intros Hs Hend.
  rewrite scan_once_number
    by (apply number_start_app; eapply scan_number_start; exact Hs).
  rewrite scan_number_app by exact Hend. rewrite Hs. reflexivity.
Qed.

Lemma scan_number_str_int (z : Z) :
  scan_number (str_int z) = Some (JInt z, EmptyString).
Proof. unfold scan_number. rewrite match_number_str_int. reflexivity. Qed.

(** *** Values *)

Section json_induction.

Variable P : json -> Prop.
Hypothesis P_null : P JNull.
Hypothesis P_bool : forall b, P (JBool b).
Hypothesis P_int : forall z, P (JInt z).
Hypothesis P_float : forall x, P (JFloat x).
Hypothesis P_string : forall s, P (JString s).
Hypothesis P_list : forall items, Forall P items -> P (JList items).
Hypothesis P_dict :
  forall fields, Forall (fun kv => P (snd kv)) fields -> P (JDict fields).

Fixpoint json_nested_ind (j : json) : P j :=
  match j with
  | JNull => P_null
  | JBool b => P_bool b
  | JInt z => P_int z
  | JFloat x => P_float x
  | JString s => P_string s
  | JList items =>
      P_list items
        ((fix go (l : list json) : Forall P l :=
            match l with
            | [] => @List.Forall_nil _ P
            | x :: l' => @List.Forall_cons _ P x l' (json_nested_ind x) (go l')
            end) items)
  | JDict fields =>
      P_dict fields
        ((fix go (l : list (string * json)) : Forall (fun kv => P (snd kv)) l :=
            match l with
            | [] => @List.Forall_nil _ _
            | (k, v) :: l' =>
                @List.Forall_cons _ (fun kv => P (snd kv)) (k, v) l'
                  (json_nested_ind v) (go l')
            end) fields)
  end.

End json_induction.

Lemma number_start_value_start (s : string) :
  number_start s = true -> value_start s = true.
Proof.
  destruct s as [|c s]; [discriminate |].
  destruct c as [[] [] [] [] [] [] [] []]; try discriminate; reflexivity.
Qed.

Lemma value_start_skip_ws (s : string) : value_start s = true -> skip_ws s = s.
Proof.
  destruct s as [|c s]; [discriminate |]. unfold value_start. cbn [skip_ws].
  destruct (is_ws c); cbn [negb andb]; [discriminate | reflexivity].
Qed.

Lemma value_start_not_closed (s : string) :
  value_start s = true ->
  strip_prefix "]" s = None /\ strip_prefix "}" s = None.
Proof.
  destruct s as [|c s]; [discriminate |]. unfold value_start. cbn [strip_prefix].
  destruct (is_ws c), (Ascii.eqb "]" c), (Ascii.eqb "}" c); cbn [negb andb];
    try discriminate; split; reflexivity.
Qed.

Lemma encode_value_start (j : json) (level : nat) (rest : string) :
  reads_back j -> value_start (encode level j +:+ rest) = true.
Proof.
  intros Hj. destruct j as [|[]|z|x|s|[|y items]|[|[k v] fields]]; try reflexivity.
  - apply number_start_value_start, number_start_app.
    eapply scan_number_start, scan_number_str_int.
  - apply number_start_value_start, number_start_app.
    eapply scan_number_start. exact Hj.
Qed.

Lemma scan_items_encode (level : nat) (rest : string) (xs : list json) :
  forall (x : json) (fuel : nat),
    Forall decodes (x :: xs) ->
    reads_back x -> items_read_back xs ->
    (items_size (x :: xs) <= fuel)%nat ->
    scan_items fuel
      (encode (S level) x +:+
       encode_items (encode (S level)) (newline_indent (S level)) xs +:+
       newline_indent level +:+ "]" +:+ rest) = Some (x :: xs, rest).
Proof.
  induction xs as [|y ys IH]; intros x fuel HF Hx Hxs Hfuel.
  - destruct fuel as [|f]; [cbn in Hfuel; lia |].
    cbn [scan_items encode_items].
    rewrite (Forall_inv HF);
      [| exact Hx | cbn [items_size] in Hfuel; lia | reflexivity].
    cbn [mbind option_bind].
    rewrite append_nil_l, skip_ws_newline_indent. reflexivity.
  - destruct fuel as [|f]; [cbn in Hfuel; lia |].
    destruct Hxs as [Hy Hys].
    cbn [scan_items encode_items].
    rewrite !append_assoc.
    rewrite (Forall_inv HF);
      [| exact Hx | cbn [items_size] in Hfuel; lia | reflexivity].
    cbn [mbind option_bind].
    change (skip_ws ("," +:+ ?s)) with (String "," s).
    cbn [strip_prefix Ascii.eqb Bool.eqb].
    rewrite skip_ws_newline_indent.
    rewrite value_start_skip_ws by (apply encode_value_start; exact Hy).
    rewrite (IH y f (Forall_inv_tail HF) Hy Hys);
      [reflexivity | cbn [items_size] in Hfuel |- *; lia].
Qed.

Lemma encode_string_app (k t : string) :
  encode_string k +:+ t = String quote (escape k +:+ String quote t).
Proof.
  unfold encode_string. rewrite append_cons, append_assoc. reflexivity.
Qed.

Lemma strip_quote (s : string) :
  strip_prefix (String quote EmptyString) (String quote s) = Some s.
Proof. reflexivity. Qed.

Lemma scan_fields_encode (level : nat) (rest : string)
    (kvs : list (string * json)) :
  forall (k : string) (v : json) (fuel : nat),
    Forall (fun kv => decodes (snd kv)) ((k, v) :: kvs) ->
    reads_back v -> fields_read_back kvs ->
    (fields_size ((k, v) :: kvs) <= fuel)%nat ->
    scan_fields fuel
      (encode_string k +:+ ": " +:+ encode (S level) v +:+
       encode_fields (encode (S level)) (newline_indent (S level)) kvs +:+
       newline_indent level +:+ "}" +:+ rest) = Some ((k, v) :: kvs, rest).
Proof.
  induction kvs as [|[k' v'] kvs IH]; intros k v fuel HF Hv Hkvs Hfuel.
  - destruct fuel as [|f]; [cbn in Hfuel; lia |].
    cbn [scan_fields encode_fields].
    rewrite encode_string_app, strip_quote, scanstring_escape.
    cbn [mbind option_bind].
    change (skip_ws (": " +:+ ?s)) with (String ":" (String " " s)).
    cbn [strip_prefix Ascii.eqb Bool.eqb].
    change (skip_ws (String " " ?s)) with (skip_ws s).
    rewrite value_start_skip_ws by (apply encode_value_start; exact Hv).
    rewrite (Forall_inv HF : decodes v);
      [| exact Hv | simpl in Hfuel |- *; lia | reflexivity].
    cbn [mbind option_bind].
    rewrite append_nil_l, skip_ws_newline_indent. reflexivity.
  - destruct fuel as [|f]; [cbn in Hfuel; lia |].
    destruct Hkvs as [Hv' Hkvs].
    cbn [scan_fields encode_fields].
    rewrite !append_assoc.
    rewrite encode_string_app, strip_quote, scanstring_escape.
    cbn [mbind option_bind].
    change (skip_ws (": " +:+ ?s)) with (String ":" (String " " s)).
    cbn [strip_prefix Ascii.eqb Bool.eqb].
    change (skip_ws (String " " ?s)) with (skip_ws s).
    rewrite value_start_skip_ws by (apply encode_value_start; exact Hv).
    rewrite (Forall_inv HF : decodes v);
      [| exact Hv | simpl in Hfuel |- *; lia | reflexivity].
    cbn [mbind option_bind].
    change (skip_ws ("," +:+ ?s)) with (String "," s).
    cbn [strip_prefix Ascii.eqb Bool.eqb].
    rewrite skip_ws_newline_indent.
    change (skip_ws (encode_string k' +:+ ?s))
      with (encode_string k' +:+ s).
    rewrite (IH k' v' f (Forall_inv_tail HF) Hv' Hkvs);
      [reflexivity | simpl in Hfuel |- *; lia].
Qed.

Lemma size_pos (j : json) : (1 <= size j)%nat.
Proof. destruct j; simpl; lia. Qed.

Lemma scan_once_encode (j : json) : decodes j.
Proof.
  induction j as [|b|z|x|s|items IH|fields IH] using json_nested_ind;
    intros level rest fuel Hj Hfuel Hend;
    (destruct fuel as [|f];
     [match type of Hfuel with
      | (size ?t <= _)%nat => pose proof (size_pos t)
      end; lia |]).
  - reflexivity.
  - destruct b; reflexivity.
  - apply scan_once_scalar; [apply scan_number_str_int | exact Hend].
  - apply scan_once_scalar; [exact Hj | exact Hend].
  - apply scan_once_string.
  - destruct items as [|x xs]; [reflexivity |].
    destruct Hj as [Hx Hxs].
    cbn [encode]. rewrite !append_assoc.
    change ("[" +:+ ?s) with (String "[" s).
    cbn [scan_once]. change (N_of_ascii "[" =? 34)%N with false.
    change (N_of_ascii "[" =? 123)%N with false.
    change (N_of_ascii "[" =? 91)%N with true. cbn iota.
    rewrite skip_ws_newline_indent.
    rewrite value_start_skip_ws by (apply encode_value_start; exact Hx).
    rewrite (proj1 (value_start_not_closed _ (encode_value_start x _ _ Hx))).
    rewrite (scan_items_encode level rest xs x f IH Hx Hxs);
      [reflexivity |].
    change (S (items_size (x :: xs)) <= S f)%nat in Hfuel. lia.
  - destruct fields as [|[k v] kvs]; [reflexivity |].
    destruct Hj as [Hv Hkvs].
    cbn [encode]. rewrite !append_assoc.
    change ("{" +:+ ?s) with (String "{" s).
    cbn [scan_once]. change (N_of_ascii "{" =? 34)%N with false.
    change (N_of_ascii "{" =? 123)%N with true. cbn iota.
    rewrite skip_ws_newline_indent.
    change (skip_ws (encode_string k +:+ ?s)) with (encode_string k +:+ s).
    change (strip_prefix "}" (encode_string k +:+ ?s)) with (@None string).
    rewrite (scan_fields_encode level rest kvs k v f IH Hv Hkvs);
      [reflexivity |].
    change (S (fields_size ((k, v) :: kvs)) <= S f)%nat in Hfuel. lia.
Qed.

(** *** The fuel *)

Lemma number_start_length (s : string) :
  number_start s = true -> (1 <= String.length s)%nat.
Proof. destruct s; [discriminate |]. simpl. lia. Qed.

Lemma newline_indent_length (level : nat) :
  (1 <= String.length (newline_indent level))%nat.
Proof. unfold newline_indent. simpl. lia. Qed.

Lemma encode_items_length (level : nat) (xs : list json) :
  Forall fits xs -> items_read_back xs ->
  (items_size xs <=
   String.length (encode_items (encode level) (newline_indent level) xs))%nat.
Proof.
  induction xs as [|y ys IH]; intros HF Hxs; [simpl; lia |].
  destruct Hxs as [Hy Hys].
  cbn [encode_items items_size]. rewrite !length_append.
  pose proof (Forall_inv HF level Hy).
  pose proof (IH (Forall_inv_tail HF) Hys).
  pose proof (newline_indent_length level).
  change (String.length ",") with 1%nat. lia.
Qed.

Lemma encode_fields_length (level : nat) (kvs : list (string * json)) :
  Forall (fun kv => fits (snd kv)) kvs -> fields_read_back kvs ->
  (fields_size kvs <=
   String.length (encode_fields (encode level) (newline_indent level) kvs))%nat.
Proof.
  induction kvs as [|[k v] kvs IH]; intros HF Hkvs; [simpl; lia |].
  destruct Hkvs as [Hv Hkvs].
  cbn [encode_fields fields_size]. rewrite !length_append.
  pose proof (Forall_inv HF level Hv) as Hfit. cbn [snd] in Hfit.
  pose proof (IH (Forall_inv_tail HF) Hkvs).
  pose proof (newline_indent_length level).
  change (String.length ",") with 1%nat. lia.
Qed.

Lemma size_le_length (j : json) : fits j.
Proof.
  induction j as [|b|z|x|s|items IH|fields IH] using json_nested_ind;
    intros level Hj.
  - simpl. lia.
  - destruct b; simpl; lia.
  - apply number_start_length. eapply scan_number_start, scan_number_str_int.
  - apply number_start_length. eapply scan_number_start. exact Hj.
  - simpl. lia.
  - destruct items as [|x xs]; [simpl; lia |].
    destruct Hj as [Hx Hxs].
    change (size (JList (x :: xs))) with (S (S (size x + items_size xs))).
    cbn [encode]. rewrite !length_append.
    pose proof (Forall_inv IH (S level) Hx).
    pose proof (encode_items_length (S level) xs (Forall_inv_tail IH) Hxs).
    pose proof (newline_indent_length (S level)).
    change (String.length "[") with 1%nat. lia.
  - destruct fields as [|[k v] kvs]; [simpl; lia |].
    destruct Hj as [Hv Hkvs].
    change (size (JDict ((k, v) :: kvs))) with (S (S (size v + fields_size kvs))).
    cbn [encode]. rewrite !length_append.
    pose proof (Forall_inv IH (S level) Hv) as Hfit. cbn [snd] in Hfit.
    pose proof (encode_fields_length (S level) kvs (Forall_inv_tail IH) Hkvs).
    pose proof (newline_indent_length (S level)).
    change (String.length "{") with 1%nat. lia.
Qed.

(** *** The document *)

(** A value all of whose floats read back is read back from its document. *)
Lemma loads_dumps (j : json) : reads_back j -> loads (dumps j) = Some j.
Proof.
  intros Hj. unfold loads, dumps.
  pose proof (encode_value_start j 0%nat EmptyString Hj) as Hstart.
  rewrite append_nil_r in Hstart.
  rewrite (value_start_skip_ws _ Hstart).
  rewrite <- (append_nil_r (encode 0 j)) at 2.
  rewrite (scan_once_encode j 0%nat EmptyString _ Hj);
    [reflexivity | | reflexivity].
  pose proof (size_le_length j 0%nat Hj). lia.
Qed.

(** *** The report *)

Lemma as_strings_of_strings (l : list string) :
  as_strings (JList (JString <$> l)) = Some l.
Proof.
  unfold as_strings. induction l as [|s l IH]; [reflexivity |].
  cbn [fmap list_fmap mapM as_string mbind option_bind mret option_ret] in *.
  rewrite IH. reflexivity.
Qed.

Lemma cpu_of_asdict (c : CPUInfo.t) : cpu_of_dict (asdict_cpu c) = Some c.
Proof. destruct c; reflexivity. Qed.

Lemma memory_of_asdict (m : MemoryInfo.t) : memory_of_dict (asdict_memory m) = Some m.
Proof. destruct m as [[] [] ? ?]; reflexivity. Qed.

Lemma gpu_of_asdict (g : GPUInfo.t) : gpu_of_dict (asdict_gpu g) = Some g.
Proof. destruct g; reflexivity. Qed.

Lemma storage_of_asdict (s : StorageInfo.t) :
  storage_of_dict (asdict_storage s) = Some s.
Proof. destruct s as [[] [] ? ?]; reflexivity. Qed.

(** Reading the dictionary of a report gives the report, field for field. *)
Lemma report_of_asdict (r : SystemReport.t) : report_of_dict (asdict r) = Some r.
Proof.
  destruct r as [cpu memory gpu storage status recs warns ts].
  unfold report_of_dict, asdict.
  cbn [get List.find fst snd String.eqb Ascii.eqb Bool.eqb fmap option_fmap
       option_map mbind option_bind SystemReport.cpu SystemReport.memory
       SystemReport.gpu SystemReport.storage SystemReport.overall_status
       SystemReport.recommendations SystemReport.warnings SystemReport.timestamp
       as_string].
  rewrite cpu_of_asdict, memory_of_asdict, storage_of_asdict,
    !as_strings_of_strings.
  cbn [mbind option_bind].
  destruct gpu as [g|]; cbn [from_option]; [| reflexivity].
  change (optional_gpu_of_dict (asdict_gpu g)) with (Some <$> gpu_of_dict (asdict_gpu g)).
  rewrite gpu_of_asdict. reflexivity.
Qed.

Lemma Forall_number_floats (n : Py.number) (l : list float) :
  Forall float_reads_back (number_floats n ++ l) ->
  reads_back (json_of_number n) /\ Forall float_reads_back l.
Proof.
  destruct n as [z|x]; cbn [number_floats json_of_number reads_back app].
  - intros H. split; [exact I | exact H].
  - intros H. split; [exact (Forall_inv H) | exact (Forall_inv_tail H)].
Qed.

Lemma items_read_back_strings (l : list string) :
  items_read_back (JString <$> l).
Proof. induction l as [|s l IH]; [exact I |]. split; [exact I | exact IH]. Qed.

Lemma asdict_reads_back (r : SystemReport.t) :
  Forall float_reads_back (report_floats r) -> reads_back (asdict r).
Proof.
  destruct r as [cpu memory gpu storage status recs warns ts].
  destruct memory as [mt ma ? ?], storage as [st sa ? ?].
  unfold report_floats.
  cbn [SystemReport.memory SystemReport.gpu SystemReport.storage
       MemoryInfo.total_gb MemoryInfo.available_gb
       StorageInfo.total_gb StorageInfo.available_gb].
  intros H.
  apply Forall_number_floats in H as [Hmt H].
  apply Forall_number_floats in H as [Hma H].
  assert (Hgpu : reads_back (from_option asdict_gpu JNull gpu) /\
                 Forall float_reads_back (number_floats st ++ number_floats sa ++ [])).
  { rewrite app_nil_r. destruct gpu as [g|]; cbn [from_option] in H |- *.
    - split; [| exact (Forall_inv_tail H)].
      cbn. repeat split. exact (Forall_inv H).
    - split; [exact I | exact H]. }
  destruct Hgpu as [Hgpu H'].
  apply Forall_number_floats in H' as [Hst H'].
  apply Forall_number_floats in H' as [Hsa _].
  cbn [asdict reads_back asdict_cpu asdict_memory asdict_storage
       SystemReport.cpu SystemReport.memory SystemReport.gpu SystemReport.storage
       SystemReport.overall_status SystemReport.recommendations
       SystemReport.warnings SystemReport.timestamp
       MemoryInfo.total_gb MemoryInfo.available_gb
       MemoryInfo.meets_minimum MemoryInfo.meets_recommended
       StorageInfo.total_gb StorageInfo.available_gb
       StorageInfo.meets_minimum StorageInfo.filesystem].
  repeat split; try assumption; apply items_read_back_strings.
Qed.

(** The floats that are no numbers read back whatever the runtime does: the
    encoder writes their names and the decoder knows them. *)
Lemma nonfinite_floats_read_back :
  float_reads_back nan /\ float_reads_back infinity /\
  float_reads_back neg_infinity.
Proof. repeat split; reflexivity. Qed.

(** *** Equality of the loaded dictionary *)

Lemma py_eq_strings (l : list string) :
  py_eq (JList (JString <$> l)) (JList (JString <$> l)) = true.
Proof.
  cbn [py_eq]. induction l as [|s l IH]; [reflexivity |].
  cbn [fmap list_fmap py_eq]. rewrite String.eqb_refl. exact IH.
Qed.

Lemma py_eq_number (n : Py.number) :
  py_eq (json_of_number n) (json_of_number n)
    = forallb equal_to_itself (number_floats n).
Proof.
  destruct n as [z|x]; cbn [json_of_number py_eq as_num num_eq number_floats forallb].
  - apply Z.eqb_refl.
  - unfold equal_to_itself. rewrite andb_true_r. reflexivity.
Qed.

Lemma py_eq_bool (b : bool) : py_eq (JBool b) (JBool b) = true.
Proof. destruct b; reflexivity. Qed.

Lemma py_eq_int (z : Z) : py_eq (JInt z) (JInt z) = true.
Proof. cbn. apply Z.eqb_refl. Qed.

Lemma py_eq_string (s : string) : py_eq (JString s) (JString s) = true.
Proof. cbn. apply String.eqb_refl. Qed.


Lemma py_eq_asdict_cpu (c : CPUInfo.t) : py_eq (asdict_cpu c) (asdict_cpu c) = true.
Proof.
  destruct c as [model cores threads arch mm mr].
  transitivity (own_values_equal
    [("model", JString model); ("cores", JInt cores); ("threads", JInt threads);
     ("architecture", JString arch); ("meets_minimum", JBool mm);
     ("meets_recommended", JBool mr)]).
  - unfold asdict_cpu.
    cbn [CPUInfo.model CPUInfo.cores CPUInfo.threads CPUInfo.architecture
         CPUInfo.meets_minimum CPUInfo.meets_recommended].
    generalize (JString model), (JInt cores), (JInt threads), (JString arch),
      (JBool mm), (JBool mr). intros. reflexivity.
  - cbn [own_values_equal].
    rewrite !py_eq_string, !py_eq_int, !py_eq_bool. reflexivity.
Qed.

Lemma py_eq_asdict_memory (m : MemoryInfo.t) :
  py_eq (asdict_memory m) (asdict_memory m)
    = forallb equal_to_itself
        (number_floats (MemoryInfo.total_gb m) ++
         number_floats (MemoryInfo.available_gb m)).
Proof.
  destruct m as [mt ma mm mr]. cbn [MemoryInfo.total_gb MemoryInfo.available_gb].
  transitivity (own_values_equal
    [("total_gb", json_of_number mt); ("available_gb", json_of_number ma);
     ("meets_minimum", JBool mm); ("meets_recommended", JBool mr)]).
  - unfold asdict_memory.
    cbn [MemoryInfo.total_gb MemoryInfo.available_gb MemoryInfo.meets_minimum
         MemoryInfo.meets_recommended].
    generalize (json_of_number mt), (json_of_number ma), (JBool mm), (JBool mr).
    intros. reflexivity.
  - cbn [own_values_equal].
    rewrite !py_eq_number, !py_eq_bool, forallb_app, !andb_true_r. reflexivity.
Qed.

Lemma py_eq_asdict_storage (s : StorageInfo.t) :
  py_eq (asdict_storage s) (asdict_storage s)
    = forallb equal_to_itself
        (number_floats (StorageInfo.total_gb s) ++
         number_floats (StorageInfo.available_gb s)).
Proof.
  destruct s as [st sa mm fs]. cbn [StorageInfo.total_gb StorageInfo.available_gb].
  transitivity (own_values_equal
    [("total_gb", json_of_number st); ("available_gb", json_of_number sa);
     ("meets_minimum", JBool mm); ("filesystem", JString fs)]).
  - unfold asdict_storage.
    cbn [StorageInfo.total_gb StorageInfo.available_gb StorageInfo.meets_minimum
         StorageInfo.filesystem].
    generalize (json_of_number st), (json_of_number sa), (JBool mm), (JString fs).
    intros. reflexivity.
  - cbn [own_values_equal].
    rewrite !py_eq_number, py_eq_bool, py_eq_string, forallb_app, !andb_true_r.
    reflexivity.
Qed.

Lemma py_eq_asdict_gpu (gpu : option GPUInfo.t) :
  py_eq (from_option asdict_gpu JNull gpu) (from_option asdict_gpu JNull gpu)
    = forallb equal_to_itself (from_option (fun g => [GPUInfo.vram_gb g]) [] gpu).
Proof.
  destruct gpu as [[name vram cuda driver cc avail quant]|]; [| reflexivity].
  cbn [from_option GPUInfo.vram_gb forallb].
  transitivity (own_values_equal
    [("name", JString name); ("vram_gb", JFloat vram); ("cuda_version", JString cuda);
     ("driver_version", JString driver); ("compute_capability", JString cc);
     ("is_available", JBool avail); ("recommended_quantization", JString quant)]).
  - unfold asdict_gpu.
    cbn [GPUInfo.name GPUInfo.vram_gb GPUInfo.cuda_version GPUInfo.driver_version
         GPUInfo.compute_capability GPUInfo.is_available
         GPUInfo.recommended_quantization].
    generalize (JString name), (JFloat vram), (JString cuda), (JString driver),
      (JString cc), (JBool avail), (JString quant). intros. reflexivity.
  - cbn [own_values_equal].
    rewrite !py_eq_string, py_eq_bool, !andb_true_r. reflexivity.
Qed.

Lemma py_eq_asdict (r : SystemReport.t) :
  py_eq (asdict r) (asdict r) = forallb equal_to_itself (report_floats r).
Proof.
  destruct r as [cpu memory gpu storage status recs warns ts].
  unfold report_floats.
  cbn [SystemReport.cpu SystemReport.memory SystemReport.gpu SystemReport.storage].
  transitivity (own_values_equal
    [("cpu", asdict_cpu cpu); ("memory", asdict_memory memory);
     ("gpu", from_option asdict_gpu JNull gpu); ("storage", asdict_storage storage);
     ("overall_status", JString status);
     ("recommendations", JList (JString <$> recs));
     ("warnings", JList (JString <$> warns)); ("timestamp", JString ts)]).
  - unfold asdict.
    cbn [SystemReport.cpu SystemReport.memory SystemReport.gpu SystemReport.storage
         SystemReport.overall_status SystemReport.recommendations
         SystemReport.warnings SystemReport.timestamp].
    generalize (asdict_cpu cpu), (asdict_memory memory),
      (from_option asdict_gpu JNull gpu), (asdict_storage storage),
      (JString status), (JList (JString <$> recs)), (JList (JString <$> warns)),
      (JString ts). intros. reflexivity.
  - cbn [own_values_equal].
    rewrite py_eq_asdict_cpu, py_eq_asdict_memory, py_eq_asdict_gpu,
      py_eq_asdict_storage, !py_eq_strings, !py_eq_string.
    rewrite !forallb_app, !andb_true_r. cbn [andb].
    rewrite <- !andb_assoc. reflexivity.
Qed.

Lemma equal_to_itself_nan (x : float) : equal_to_itself x = negb (is_nan x).
Proof. unfold equal_to_itself, is_nan. rewrite negb_involutive. reflexivity. Qed.

Lemma no_nan_equal_to_itself (l : list float) :
  forallb equal_to_itself l = true <-> Forall (fun x => is_nan x = false) l.
Proof.
  rewrite forallb_forall, List.Forall_forall.
  split; intros H x Hx; specialize (H x Hx);
    rewrite equal_to_itself_nan in *; destruct (is_nan x); (reflexivity || discriminate).
Qed.

(** The loaded dictionary is the dictionary of the report, value for value;
    [==] finds the two equal when no float of the report is NaN, and only
    then. *)
Lemma reproduced_without_nan (r : SystemReport.t) :
  loads (dumps (asdict r)) = Some (asdict r) ->
  reproduced r <-> Forall (fun x => is_nan x = false) (report_floats r).
Proof.
  intros Hload. rewrite <- no_nan_equal_to_itself, <- py_eq_asdict.
  unfold reproduced. rewrite Hload. split.
  - intros (j & Hj & Heq). injection Hj as <-. exact Heq.
  - intros Heq. exists (asdict r). split; [reflexivity | exact Heq].
Qed.

(** A report, with or without a GPU, is written as a JSON document and read
    back from it field for field, by any runtime that reads each float of
    the report back from its own text: the decoder returns the dictionary
    that was encoded, a NaN as NaN, and reading the fields off it gives the
    report.  The loaded dictionary is equal ([==]) to the dictionary of the
    report exactly when no float of the report is NaN. *)
Lemma report_round_trip (r : SystemReport.t) :
  Forall float_reads_back (report_floats r) ->
  loads (dumps (asdict r)) = Some (asdict r) /\
  (loads (dumps (asdict r)) ≫= report_of_dict) = Some r /\
  (forall (d : disk) (p : string),
     snd (save_report d r p) = Ok () ->
     ((files (fst (save_report d r p)) !! p ≫= loads) ≫= report_of_dict)
       = Some r) /\
  (reproduced r <-> Forall (fun x => is_nan x = false) (report_floats r)).
Proof.
  intros Hfloats.
  pose proof (loads_dumps (asdict r) (asdict_reads_back r Hfloats)) as Hload.
  split; [exact Hload |].
  split; [rewrite Hload; apply report_of_asdict |].
  split; [| exact (reproduced_without_nan r Hload)].
  intros d p Hok. rewrite (save_report_success d r p Hok).
  cbn [mbind option_bind]. rewrite Hload. apply report_of_asdict.
Qed.

(** ** What a report always satisfies *)

Ltac paired_cases :=
  unfold paired, emitted, warn, recommend; simpl;
  repeat match goal with
         | |- context [if ?b then _ else _] => destruct b
         end;
  simpl; lia.

Lemma evaluate_cpu_paired cpu : paired (evaluate_cpu cpu).
Proof. unfold evaluate_cpu. paired_cases. Qed.

Lemma evaluate_memory_paired memory : paired (evaluate_memory memory).
Proof. unfold evaluate_memory. paired_cases. Qed.

Lemma evaluate_gpu_paired gpu : paired (evaluate_gpu gpu).
Proof. unfold evaluate_gpu. destruct gpu as [g|]; paired_cases. Qed.

Lemma evaluate_storage_paired storage : paired (evaluate_storage storage).
Proof. unfold evaluate_storage. paired_cases. Qed.

(** X1. In every report [validate] builds there are at most four warnings
    and at most four recommendations, and never more warnings than
    recommendations: a rule that appends a warning appends a recommendation
    with it. *)
Theorem warnings_come_with_recommendations
    (cpu : CPUInfo.t) (memory : MemoryInfo.t) (gpu : option GPUInfo.t)
    (storage : StorageInfo.t) (now : string) :
  let r := validate_facts cpu memory gpu storage now in
  (length (SystemReport.warnings r) <=
   length (SystemReport.recommendations r) <= 4)%nat.
Proof.
  intros r. subst r.
  rewrite validate_facts_warnings, validate_facts_recommendations.
  rewrite !length_app.
  pose proof (evaluate_cpu_paired cpu).
  pose proof (evaluate_memory_paired memory).
  pose proof (evaluate_gpu_paired gpu).
  pose proof (evaluate_storage_paired storage).
  unfold paired in *. lia.
Qed.

(** The warnings of one rule on its own, by the flag it reads. *)
Lemma evaluate_cpu_warnings cpu :
  msg_warnings (emitted (evaluate_cpu cpu)) =
  if CPUInfo.meets_minimum cpu then []
  else ["CPU has only " +:+ str_int (CPUInfo.cores cpu) +:+ " cores (minimum: 8)"].
Proof.
  unfold emitted, evaluate_cpu.
  destruct (CPUInfo.meets_minimum cpu), (CPUInfo.meets_recommended cpu); reflexivity.
Qed.

Lemma evaluate_memory_warnings memory :
  msg_warnings (emitted (evaluate_memory memory)) =
  if MemoryInfo.meets_minimum memory then []
  else ["RAM is " +:+ str_number (MemoryInfo.total_gb memory)
        +:+ "GB (minimum: 32GB)"].
Proof.
  unfold emitted, evaluate_memory.
  destruct (MemoryInfo.meets_minimum memory), (MemoryInfo.meets_recommended memory);
    reflexivity.
Qed.

Lemma evaluate_gpu_warnings gpu :
  msg_warnings (emitted (evaluate_gpu gpu)) =
  match gpu with
  | None => ["No NVIDIA GPU detected - will use CPU-only inference (very slow)"]
  | Some g =>
      if (GPUInfo.vram_gb g <? 16)%float
      then ["GPU VRAM is " +:+ float_repr (GPUInfo.vram_gb g)
            +:+ "GB (recommended: 24GB+)"]
      else []
  end.
Proof.
  unfold emitted, evaluate_gpu. destruct gpu as [g|]; [| reflexivity].
  rewrite lt_int_16, ge_int_32.
  destruct (GPUInfo.vram_gb g <? 16)%float; [reflexivity |].
  destruct (32 <=? GPUInfo.vram_gb g)%float; reflexivity.
Qed.

Lemma evaluate_storage_warnings storage :
  msg_warnings (emitted (evaluate_storage storage)) =
  if StorageInfo.meets_minimum storage then []
  else ["Only " +:+ str_number (StorageInfo.available_gb storage)
        +:+ "GB available (minimum: 50GB)"].
Proof.
  unfold emitted, evaluate_storage.
  destruct (StorageInfo.meets_minimum storage); reflexivity.
Qed.

(** X2. A report is PASSED exactly when CPU, memory and storage meet their
    minimum flags and a GPU is present whose VRAM is not below 16 GB.  Without
    a GPU the best status is PASSED_WITH_WARNINGS. *)
Theorem passed_needs_minimums_and_a_gpu
    (cpu : CPUInfo.t) (memory : MemoryInfo.t) (gpu : option GPUInfo.t)
    (storage : StorageInfo.t) (now : string) :
  SystemReport.overall_status (validate_facts cpu memory gpu storage now) = "PASSED"
  <->
  CPUInfo.meets_minimum cpu = true /\
  MemoryInfo.meets_minimum memory = true /\
  StorageInfo.meets_minimum storage = true /\
  exists g : GPUInfo.t,
    gpu = Some g /\ (GPUInfo.vram_gb g <? 16)%float = false.
Proof.
  rewrite validate_facts_status, validate_facts_warnings.
  rewrite evaluate_cpu_warnings, evaluate_memory_warnings,
    evaluate_gpu_warnings, evaluate_storage_warnings.
  unfold any, critical_failures. cbn [existsb id].
  destruct (CPUInfo.meets_minimum cpu), (MemoryInfo.meets_minimum memory),
    (StorageInfo.meets_minimum storage); cbn [negb orb app];
    try (split; [discriminate | intros (? & ? & ? & _); discriminate]).
  destruct gpu as [g|].
  - destruct (GPUInfo.vram_gb g <? 16)%float eqn:E; cbn [app truthy].
    + split; [discriminate |].
      intros (_ & _ & _ & g' & Hg & Hv). inversion Hg; subst. congruence.
    + split; [| reflexivity]. intros _. repeat split.
      exists g. split; [reflexivity | exact E].
  - cbn [app truthy]. split; [discriminate |].
    intros (_ & _ & _ & g' & Hg & _). discriminate.
Qed.

(** X3. Every minimum that is missed is explained in the report: the
    warnings name the resource with the value found and the minimum, and the
    recommendations carry the advice of that rule.  A FAILED report therefore
    never has an empty warning list. *)
Theorem failures_are_explained
    (cpu : CPUInfo.t) (memory : MemoryInfo.t) (gpu : option GPUInfo.t)
    (storage : StorageInfo.t) (now : string) :
  let r := validate_facts cpu memory gpu storage now in
  (CPUInfo.meets_minimum cpu = false ->
     In ("CPU has only " +:+ str_int (CPUInfo.cores cpu) +:+ " cores (minimum: 8)")
        (SystemReport.warnings r) /\
     In "Upgrade to a CPU with at least 8 cores for acceptable performance"
        (SystemReport.recommendations r)) /\
  (MemoryInfo.meets_minimum memory = false ->
     In ("RAM is " +:+ str_number (MemoryInfo.total_gb memory)
         +:+ "GB (minimum: 32GB)") (SystemReport.warnings r) /\
     In "CRITICAL: Upgrade RAM to at least 32GB to run 70B model"
        (SystemReport.recommendations r)) /\
  (StorageInfo.meets_minimum storage = false ->
     In ("Only " +:+ str_number (StorageInfo.available_gb storage)
         +:+ "GB available (minimum: 50GB)") (SystemReport.warnings r) /\
     In "Free up disk space or use a larger drive"
        (SystemReport.recommendations r)) /\
  (SystemReport.overall_status r = "FAILED" -> SystemReport.warnings r <> []).
Proof.
  intros r. subst r.
  rewrite validate_facts_warnings, validate_facts_recommendations.
  rewrite evaluate_cpu_warnings, evaluate_memory_warnings, evaluate_storage_warnings.
  split; [| split; [| split]].
  - intros H. rewrite H. split; [left; reflexivity |].
    apply in_or_app; left. unfold emitted, evaluate_cpu. rewrite H.
    left. reflexivity.
  - intros H. rewrite H. split.
    + apply in_or_app; right. left. reflexivity.
    + apply in_or_app; right. apply in_or_app; left.
      unfold emitted, evaluate_memory. rewrite H. left. reflexivity.
  - intros H. rewrite H. split.
    + do 3 (apply in_or_app; right). left. reflexivity.
    + do 3 (apply in_or_app; right).
      unfold emitted, evaluate_storage. rewrite H. left. reflexivity.
  - intros H. apply validate_facts_failed in H.
    destruct H as [H|[H|H]]; rewrite H; intros E;
      repeat (apply app_eq_nil in E; destruct E as [? E]); discriminate.
Qed.

(** X4. The facts of the probes are consistent: a CPU or a memory that meets
    the recommended threshold meets the minimum, on every host.  So the
    rules of [validate] see one of three cases per resource: below the
    minimum, between the two thresholds, or at the recommended one. *)
Theorem recommended_implies_minimum (h : host) :
  (CPUInfo.meets_recommended (get_cpu_info h) = true ->
   CPUInfo.meets_minimum (get_cpu_info h) = true) /\
  (MemoryInfo.meets_recommended (get_memory_info h) = true ->
   MemoryInfo.meets_minimum (get_memory_info h) = true).
Proof.
  split.
  - destruct (get_cpu_info_flags h) as [-> ->].
    unfold MIN_CPU_CORES, RECOMMENDED_CPU_CORES. lia.
  - pose proof (get_memory_info_flags h) as H.
    destruct (memory_source h ≫= memory_gb) as [[total_gb available_gb]|];
      destruct H as [-> ->]; [| discriminate].
    apply float_le_trans. reflexivity.
Qed.

(** X5. A probe of CPU, memory or storage that raises does not stop the
    run: the fact is reported with zero capacity and false flags, and the
    report is FAILED. *)
Theorem failed_probe_fails_validation (h : host) :
  cpu_source h = None \/
  memory_source h ≫= memory_gb = None \/
  storage_source h ≫= storage_gb = None ->
  SystemReport.overall_status (validate h) = "FAILED" /\
  (cpu_source h = None ->
     get_cpu_info h = CPUInfo.mk "Unknown" 0 0 (platform_machine h) false false) /\
  (memory_source h ≫= memory_gb = None ->
     get_memory_info h = MemoryInfo.mk (Py.Int 0) (Py.Int 0) false false) /\
  (storage_source h ≫= storage_gb = None ->
     get_storage_info h = StorageInfo.mk (Py.Int 0) (Py.Int 0) false "Unknown").
Proof.
  intros H.
  assert (Hcpu : cpu_source h = None ->
    get_cpu_info h = CPUInfo.mk "Unknown" 0 0 (platform_machine h) false false)
    by (intros E; unfold get_cpu_info; rewrite E; reflexivity).
  assert (Hmem : memory_source h ≫= memory_gb = None ->
    get_memory_info h = MemoryInfo.mk (Py.Int 0) (Py.Int 0) false false)
    by (intros E; unfold get_memory_info; rewrite E; reflexivity).
  assert (Hsto : storage_source h ≫= storage_gb = None ->
    get_storage_info h = StorageInfo.mk (Py.Int 0) (Py.Int 0) false "Unknown")
    by (intros E; unfold get_storage_info; rewrite E; reflexivity).
  split; [| auto].
  apply validate_facts_failed. unfold below_minimum.
  destruct H as [E|[E|E]].
  - left. rewrite (Hcpu E). reflexivity.
  - right; left. rewrite (Hmem E). reflexivity.
  - right; right. rewrite (Hsto E). reflexivity.
Qed.

(** X6. The descriptive fields decide nothing.  Two sets of facts that agree
    on the core count, the total memory, the VRAM of the GPU (or its absence),
    the available storage and the flags give the same warnings, the same
    recommendations and the same status, whatever their model names, thread
    counts, architectures, available memory, driver and CUDA versions, total
    storage, filesystems and timestamps are. *)
Theorem descriptive_fields_are_inert
    (cpu cpu' : CPUInfo.t) (memory memory' : MemoryInfo.t)
    (gpu gpu' : option GPUInfo.t) (storage storage' : StorageInfo.t)
    (now now' : string) :
  decisive cpu memory gpu storage = decisive cpu' memory' gpu' storage' ->
  let r := validate_facts cpu memory gpu storage now in
  let r' := validate_facts cpu' memory' gpu' storage' now' in
  SystemReport.warnings r = SystemReport.warnings r' /\
  SystemReport.recommendations r = SystemReport.recommendations r' /\
  SystemReport.overall_status r = SystemReport.overall_status r'.
Proof.
  intros H. cbv zeta. unfold decisive in H.
  destruct cpu, cpu', memory, memory', storage, storage'.
  cbn [CPUInfo.cores CPUInfo.meets_minimum CPUInfo.meets_recommended
       MemoryInfo.total_gb MemoryInfo.meets_minimum MemoryInfo.meets_recommended
       StorageInfo.available_gb StorageInfo.meets_minimum] in H.
  inversion H as [[Hc Hcm Hcr Hmt Hmm Hmr Hg Hsa Hsm]]; subst; clear H.
  assert (Hgpu : forall s, evaluate_gpu gpu s = evaluate_gpu gpu' s).
  { intros s. destruct gpu as [g|], gpu' as [g'|]; try discriminate;
      [| reflexivity].
    cbn in Hg. inversion Hg as [Hv]. unfold evaluate_gpu. rewrite Hv.
    reflexivity. }
  unfold validate_facts.
  cbn [SystemReport.warnings SystemReport.recommendations
       SystemReport.overall_status].
  unfold evaluate_cpu, evaluate_memory, evaluate_storage, critical_failures.
  cbn [CPUInfo.cores CPUInfo.meets_minimum CPUInfo.meets_recommended
       MemoryInfo.total_gb MemoryInfo.meets_minimum MemoryInfo.meets_recommended
       StorageInfo.available_gb StorageInfo.meets_minimum].
  rewrite !Hgpu. repeat split; reflexivity.
Qed.

(** ** The exit status and the file, run after run *)

Lemma save_report_raises (d : disk) (r : SystemReport.t) (p : string) :
  (exists e : exn, snd (save_report d r p) = Raise e) <->
  save_fails d (dumps (asdict r)) p.
Proof.
  unfold save_fails, save_report, open_w. generalize (dumps (asdict r)). intros doc.
  destruct (decide (p ∈ unwritable d)) as [Hin|Hout]; cbn [snd].
  { split; [intros _; left; exact Hin | intros _; exists OSError; reflexivity]. }
  unfold write. cbn [write_budget].
  destruct (write_budget d) as [n|]; cbn [snd].
  - destruct (Nat.leb_spec (String.length doc) n) as [Hle|Hlt]; cbn [snd].
    + split; [intros [e He]; discriminate |].
      intros [Hin|(n' & Hn & Hlt)]; [contradiction |].
      inversion Hn; subst. lia.
    + split; [| intros _; exists OSError; reflexivity].
      intros _. right. exists n. split; [reflexivity | exact Hlt].
  - split; [intros [e He]; discriminate |].
    intros [Hin|(n' & Hn & _)]; [contradiction | discriminate].
Qed.


(** When nothing fails, the output path holds the document and every other
    path holds what it held. *)
Lemma save_report_files (d : disk) (r : SystemReport.t) (p : string) :
  snd (save_report d r p) = Ok () ->
  files (fst (save_report d r p)) = <[p := dumps (asdict r)]> (files d).
Proof.
  intros Hok. pose proof (save_report_outcome d r p) as Hout.
  rewrite Hok in Hout. inversion Hout as [| d1 Hnot Hfiles |]; subst.
  exact Hfiles.
Qed.

(** Whatever way [save_report] ends, it changes the output path at most. *)
Lemma save_report_frame (d : disk) (r : SystemReport.t) (p q : string) :
  q <> p -> files (fst (save_report d r p)) !! q = files d !! q.
Proof.
  intros Hq. pose proof (save_report_outcome d r p) as Hout.
  remember (fst (save_report d r p)) as d1 eqn:Hd1.
  remember (snd (save_report d r p)) as res eqn:Hres.
  clear Hd1 Hres.
  inversion Hout as [Hin Hd | d2 Hnot Hfiles | d2 n Hnot Hb Hlt Hfiles]; subst.
  - reflexivity.
  - rewrite Hfiles. apply lookup_insert_ne. congruence.
  - rewrite Hfiles. apply lookup_insert_ne. congruence.
Qed.

(** X8. Saving to a path that already holds a report replaces it.  The
    second [save_report] runs on a disk [d2] whose files are what the first
    call left; room and permissions are the environment's and may have
    changed in between.  When the second call succeeds, the path holds the
    second document alone, whether the first call wrote all of its document,
    a part of it or nothing, and every other path holds what it held before
    the first call. *)
Theorem save_report_overwrites
    (d d2 : disk) (r1 r2 : SystemReport.t) (p : string) :
  files d2 = files (fst (save_report d r1 p)) ->
  snd (save_report d2 r2 p) = Ok () ->
  files (fst (save_report d2 r2 p)) = <[p := dumps (asdict r2)]> (files d).
Proof.
  intros Hfiles Hok. rewrite (save_report_files _ _ _ Hok), Hfiles.
  apply map_eq. intros q. destruct (decide (q = p)) as [->|Hq].
  - rewrite !lookup_insert_eq. reflexivity.
  - rewrite !lookup_insert_ne by congruence.
    apply save_report_frame. exact Hq.
Qed.

(** ** Capacities: the thresholds in bytes

  The probes divide an integer count of kB or bytes by [2^20] or [2^30] and
  compare the quotient, a float, with the threshold.  The quotient is rounded
  to 53 bits, and the comparison still agrees with the one on the integers:
  a count small enough to be near a threshold is converted exactly, and one
  that has to be rounded is far above every threshold. *)

Lemma digits2_pos_bounds (n : positive) :
  2 ^ (Z.pos (digits2_pos n) - 1) <= Z.pos n < 2 ^ Z.pos (digits2_pos n).
Proof.
  induction n as [p IH|p IH|]; cbn [digits2_pos].
  - rewrite Pos2Z.inj_succ, Pos2Z.inj_xI.
    replace (Z.succ (Z.pos (digits2_pos p)) - 1) with (Z.succ (Z.pos (digits2_pos p) - 1)) by lia.
    rewrite !Z.pow_succ_r by lia.
    destruct IH as [IH1 IH2]. revert IH1 IH2.
    generalize (2 ^ (Z.pos (digits2_pos p) - 1)) (2 ^ Z.pos (digits2_pos p)).
    intros a b. lia.
  - rewrite Pos2Z.inj_succ. change (Z.pos p~0) with (2 * Z.pos p).
    replace (Z.succ (Z.pos (digits2_pos p)) - 1) with (Z.succ (Z.pos (digits2_pos p) - 1)) by lia.
    rewrite !Z.pow_succ_r by lia.
    destruct IH as [IH1 IH2]. revert IH1 IH2.
    generalize (2 ^ (Z.pos (digits2_pos p) - 1)) (2 ^ Z.pos (digits2_pos p)).
    intros a b. lia.
  - simpl. lia.
Qed.

Lemma digits2_pos_unique (n : positive) (d : Z) :
  2 ^ (d - 1) <= Z.pos n < 2 ^ d -> Z.pos (digits2_pos n) = d.
Proof.
  intros [Hlo Hhi]. pose proof (digits2_pos_bounds n) as [Blo Bhi].
  set (d' := Z.pos (digits2_pos n)) in *.
  destruct (Z.lt_trichotomy d' d) as [H|[H|H]]; [exfalso | exact H | exfalso].
  - assert (2 ^ d' <= 2 ^ (d - 1)) by (apply Z.pow_le_mono_r; lia). lia.
  - destruct (Z.le_gt_cases 0 d) as [Hd|Hd].
    + assert (2 ^ d <= 2 ^ (d' - 1)) by (apply Z.pow_le_mono_r; lia). lia.
    + rewrite (Z.pow_neg_r 2 d) in Hhi by lia. lia.
Qed.

Lemma iter_xO_value (n k : positive) :
  Z.pos (Pos.iter xO n k) = Z.pos n * 2 ^ Z.pos k.
Proof.
  induction k as [|k IH] using Pos.peano_ind.
  - simpl. lia.
  - rewrite Pos.iter_succ.
    change (Z.pos (Pos.iter xO n k)~0) with (2 * Z.pos (Pos.iter xO n k)).
    rewrite IH, Pos2Z.inj_succ, Z.pow_succ_r by lia. lia.
Qed.

Lemma shr_1_m (mrs : shr_record) :
  0 <= shr_m mrs -> shr_m (shr_1 mrs) = shr_m mrs / 2.
Proof.
  destruct mrs as [m r s]. cbn [shr_m]. intros H.
  destruct m as [|[p|p|]|p]; cbn [shr_1 shr_m]; try lia.
  - reflexivity.
  - rewrite Pos2Z.inj_xI. apply Z.div_unique with (r := 1); lia.
  - change (Z.pos p~0) with (2 * Z.pos p).
    apply Z.div_unique with (r := 0); lia.
  - reflexivity.
Qed.

Lemma shr_m_iter (p : positive) (mrs : shr_record) :
  0 <= shr_m mrs -> shr_m (SpecFloat.iter_pos shr_1 p mrs) = shr_m mrs / 2 ^ Z.pos p.
Proof.
  revert mrs. induction p as [p IH|p IH|]; intros mrs H; cbn [SpecFloat.iter_pos].
  - assert (H1 : 0 <= shr_m (shr_1 mrs)).
    { rewrite shr_1_m by exact H. apply Z.div_pos; lia. }
    assert (H2 : 0 <= shr_m (SpecFloat.iter_pos shr_1 p (shr_1 mrs))).
    { rewrite IH by exact H1. apply Z.div_pos; lia. }
    rewrite IH, IH, shr_1_m by assumption.
    rewrite !Z.div_div by lia. f_equal.
    rewrite Pos2Z.inj_xI.
    replace (2 * Z.pos p + 1) with (1 + Z.pos p + Z.pos p) by lia.
    rewrite !Z.pow_add_r by lia. lia.
  - assert (H2 : 0 <= shr_m (SpecFloat.iter_pos shr_1 p mrs)).
    { rewrite IH by exact H. apply Z.div_pos; lia. }
    rewrite IH, IH by assumption.
    rewrite !Z.div_div by lia. f_equal.
    change (Z.pos p~0) with (2 * Z.pos p).
    replace (2 * Z.pos p) with (Z.pos p + Z.pos p) by lia.
    rewrite !Z.pow_add_r by lia. lia.
  - rewrite shr_1_m by exact H. reflexivity.
Qed.

Lemma fexp_normal (x : Z) : -1021 <= x -> fexp prec emax x = x - 53.
Proof. unfold fexp, emin, prec, emax. lia. Qed.

(** A mantissa of 53 bits with an exponent in range goes through the
    rounding unchanged. *)
Lemma binary_round_aux_normal (s : bool) (m : positive) (e : Z) :
  Z.pos (digits2_pos m) = 53 -> -1074 <= e <= 971 ->
  binary_round_aux prec emax s (Z.pos m) e loc_Exact = S754_finite s m e.
Proof.
  intros Hd He. unfold binary_round_aux, shr_fexp. cbn [Zdigits2].
  rewrite Hd, fexp_normal by lia.
  replace (53 + e - 53 - e) with 0 by lia.
  cbn [shr shr_record_of_loc shr_m loc_of_shr_record round_nearest_even Zdigits2].
  rewrite Hd, fexp_normal by lia.
  replace (53 + e - 53 - e) with 0 by lia.
  cbn [shr shr_record_of_loc shr_m].
  replace (e <=? emax - prec) with true; [reflexivity |].
  symmetry. apply Z.leb_le. unfold emax, prec. lia.
Qed.

Lemma binary_round_exact (s : bool) (n : positive) (e : Z) :
  let d := Z.pos (digits2_pos n) in
  d <= 53 -> -1074 <= d + e - 53 -> d + e <= 1024 ->
  exists m : positive,
    Z.pos m = Z.pos n * 2 ^ (53 - d) /\ Z.pos (digits2_pos m) = 53 /\
    binary_round prec emax s n e = S754_finite s m (d + e - 53).
Proof.
  intros d Hd Hlo Hhi. unfold binary_round, shl_align.
  fold d. rewrite fexp_normal by lia.
  pose proof (digits2_pos_bounds n) as Hn. fold d in Hn.
  destruct (d + e - 53 - e) as [|k|k] eqn:Hk; try lia.
  - assert (d = 53) by lia. exists n.
    replace (53 - d) with 0 by lia. rewrite Z.mul_1_r.
    split; [reflexivity |]. split; [fold d; lia |].
    replace (d + e - 53) with e by lia.
    apply binary_round_aux_normal; [fold d; lia | lia].
  - assert (Hv : Z.pos (Pos.iter xO n k) = Z.pos n * 2 ^ (53 - d)).
    { rewrite iter_xO_value. f_equal. f_equal. lia. }
    assert (Hdig : Z.pos (digits2_pos (Pos.iter xO n k)) = 53).
    { apply digits2_pos_unique. rewrite Hv.
      replace (2 ^ 53) with (2 ^ d * 2 ^ (53 - d))
        by (rewrite <- Z.pow_add_r by lia; f_equal; lia).
      replace (2 ^ (53 - 1)) with (2 ^ (d - 1) * 2 ^ (53 - d))
        by (rewrite <- Z.pow_add_r by lia; f_equal; lia).
      assert (0 < 2 ^ (53 - d)) by (apply Z.pow_pos_nonneg; lia).
      split; [apply Z.mul_le_mono_nonneg_r; lia | apply Z.mul_lt_mono_pos_r; lia]. }
    exists (Pos.iter xO n k). split; [exact Hv |]. split; [exact Hdig |].
    apply binary_round_aux_normal; [exact Hdig | lia].
Qed.

Lemma round_nearest_even_range (m : Z) (l : location) :
  m <= round_nearest_even m l <= m + 1.
Proof.
  destruct l as [|[| |]]; cbn [round_nearest_even]; try lia.
  destruct (Z.even m); lia.
Qed.

(** A mantissa of more than 53 bits is shifted and rounded to one of 53
    bits; the exponent grows by the number of bits dropped, and by one more
    when the rounding carries. *)
Lemma binary_round_large (s : bool) (n : positive) (e : Z) :
  let d := Z.pos (digits2_pos n) in
  53 < d -> -1074 <= e ->
  exists (m : positive) (e' : Z),
    Z.pos (digits2_pos m) = 53 /\ e + d - 53 <= e' <= e + d - 52 /\
    binary_round prec emax s n e =
      if e' <=? 971 then S754_finite s m e' else S754_infinity s.
Proof.
  intros d Hd He. unfold binary_round, shl_align.
  fold d. rewrite fexp_normal by lia.
  pose proof (digits2_pos_bounds n) as Hn. fold d in Hn.
  destruct (d + e - 53 - e) as [|k|k] eqn:Hk; try lia.
  unfold binary_round_aux, shr_fexp. cbn [Zdigits2]. fold d.
  rewrite fexp_normal by lia. rewrite Hk.
  cbn [shr shr_record_of_loc].
  set (mrs := SpecFloat.iter_pos shr_1 k {| shr_m := Z.pos n; shr_r := false; shr_s := false |}).
  assert (Hm : shr_m mrs = Z.pos n / 2 ^ Z.pos k).
  { unfold mrs. rewrite shr_m_iter; cbn [shr_m]; [reflexivity | lia]. }
  assert (Hrange : 2 ^ 52 <= shr_m mrs < 2 ^ 53).
  { rewrite Hm. assert (Z.pos k = d - 53) as -> by lia.
    assert (0 < 2 ^ (d - 53)) by (apply Z.pow_pos_nonneg; lia).
    assert (E1 : 2 ^ (d - 1) = 2 ^ 52 * 2 ^ (d - 53))
      by (rewrite <- Z.pow_add_r by lia; f_equal; lia).
    assert (E2 : 2 ^ d = 2 ^ 53 * 2 ^ (d - 53))
      by (rewrite <- Z.pow_add_r by lia; f_equal; lia).
    split.
    - apply Z.div_le_lower_bound; [lia |]. rewrite Z.mul_comm. lia.
    - apply Z.div_lt_upper_bound; [lia |]. rewrite Z.mul_comm. lia. }
  pose proof (round_nearest_even_range (shr_m mrs) (loc_of_shr_record mrs)) as Hr.
  set (m1 := round_nearest_even (shr_m mrs) (loc_of_shr_record mrs)) in *.
  destruct m1 as [|p1|p1] eqn:Hm1; try lia.
  cbn [Zdigits2].
  destruct (Z.eq_dec (Z.pos p1) (2 ^ 53)) as [Hcarry|Hnocarry].
  - change (2 ^ 53) with 9007199254740992 in Hcarry.
    injection Hcarry as ->.
    change (Z.pos (digits2_pos 9007199254740992)) with 54.
    rewrite fexp_normal by lia.
    replace (54 + (e + Z.pos k) - 53 - (e + Z.pos k)) with 1 by lia.
    cbn [shr SpecFloat.iter_pos shr_1 shr_record_of_loc shr_m].
    exists 4503599627370496%positive, (e + Z.pos k + 1).
    split; [reflexivity |]. split; [lia |].
    unfold emax, prec. reflexivity.
  - assert (Hd1 : Z.pos (digits2_pos p1) = 53)
      by (apply digits2_pos_unique; lia).
    rewrite Hd1, fexp_normal by lia.
    replace (53 + (e + Z.pos k) - 53 - (e + Z.pos k)) with 0 by lia.
    cbn [shr shr_record_of_loc shr_m].
    exists p1, (e + Z.pos k).
    split; [exact Hd1 |]. split; [lia |].
    unfold emax, prec. reflexivity.
Qed.

Lemma valid_normal (s : bool) (m : positive) (e : Z) :
  Z.pos (digits2_pos m) = 53 -> -1074 <= e <= 971 ->
  valid_binary (S754_finite s m e) = true.
Proof.
  intros Hd He. cbn [valid_binary]. unfold bounded, canonical_mantissa.
  rewrite Hd, fexp_normal by lia. unfold emax, prec.
  apply andb_true_intro. split; [apply Z.eqb_eq | apply Z.leb_le]; lia.
Qed.

Lemma is_infinity_spec (x : float) :
  is_infinity x = match Prim2SF x with S754_infinity _ => true | _ => false end.
Proof.
  unfold is_infinity. rewrite FloatAxioms.eqb_spec, abs_spec.
  change (Prim2SF infinity) with (S754_infinity false).
  destruct (Prim2SF x) as [s|s| |s m e]; try destruct s; reflexivity.
Qed.


(** The float of a positive [int] below [2^53] is exact. *)
Lemma float_of_int_exact (c : positive) :
  let d := Z.pos (digits2_pos c) in
  Z.pos c < 2 ^ 53 ->
  exists m : positive,
    Z.pos m = Z.pos c * 2 ^ (53 - d) /\
    Prim2SF (Py.float_of_int (Z.pos c)) = S754_finite false m (d - 53).
Proof.
  intros d Hc. pose proof (digits2_pos_bounds c) as Hb. fold d in Hb.
  assert (Hd : d <= 53).
  { destruct (Z.le_gt_cases d 53) as [H|H]; [exact H | exfalso].
    assert (2 ^ 53 <= 2 ^ (d - 1)) by (apply Z.pow_le_mono_r; lia). lia. }
  destruct (binary_round_exact false c 0) as (m & Hm & Hdig & Hr); try (fold d; lia).
  fold d in Hm, Hr. exists m. split; [exact Hm |].
  unfold Py.float_of_int. cbn [binary_normalize]. rewrite Hr.
  rewrite Prim2SF_SF2Prim; [f_equal; lia |].
  apply valid_normal; [exact Hdig | lia].
Qed.

Lemma digits2_pos_le (n : positive) (b : Z) :
  Z.pos n < 2 ^ b -> Z.pos (digits2_pos n) <= b.
Proof.
  intros H. pose proof (digits2_pos_bounds n) as [Hlo _].
  destruct (Z.le_gt_cases (Z.pos (digits2_pos n)) b) as [Hle|Hgt]; [exact Hle | exfalso].
  assert (2 ^ b <= 2 ^ (Z.pos (digits2_pos n) - 1)) by (apply Z.pow_le_mono_r; lia).
  lia.
Qed.

(** [n / 2 ** k] for a positive [n] that is not astronomically large: a
    finite float of 53 bits; exact when [n] has at most 53 bits. *)
Lemma binary_round_finite (s : bool) (n : positive) (k : Z) :
  let d := Z.pos (digits2_pos n) in
  0 <= k <= 53 -> Z.pos n < 2 ^ 1000 ->
  exists (m : positive) (e : Z),
    Z.pos (digits2_pos m) = 53 /\ -1074 <= e <= 971 /\
    binary_round prec emax s n (- k) = S754_finite s m e /\
    ((d <= 53 /\ e = d - k - 53 /\ Z.pos m = Z.pos n * 2 ^ (53 - d)) \/
     (53 < d /\ d - k - 53 <= e)).
Proof.
  intros d Hk Hn. pose proof (digits2_pos_le n 1000 Hn) as Hd. fold d in Hd.
  assert (0 < d) by (unfold d; lia).
  destruct (Z.le_gt_cases d 53) as [Hsmall|Hlarge].
  - destruct (binary_round_exact s n (- k)) as (m & Hm & Hdig & Hr);
      try (fold d; lia).
    fold d in Hm, Hr. exists m, (d - k - 53).
    split; [exact Hdig |]. split; [lia |].
    split; [rewrite Hr; f_equal; lia |]. left. repeat split; [lia | exact Hm].
  - destruct (binary_round_large s n (- k)) as (m & e & Hdig & He & Hr);
      try (fold d; lia).
    fold d in He. exists m, e.
    split; [exact Hdig |]. split; [lia |].
    split; [| right; lia].
    rewrite Hr. replace (e <=? 971) with true; [reflexivity |].
    symmetry. apply Z.leb_le. lia.
Qed.

(** The quotient [n / 2 ** k] as a float, compared with an [int] [c]: the
    comparison of [c * 2 ** k] with [n] on the integers. *)
Lemma truediv_pow2_spec (n k : Z) :
  0 <= k <= 53 -> Z.abs n < 2 ^ 1000 ->
  exists q : float,
    Py.truediv_pow2 n k = Some q /\
    forall c : Z, 0 < c -> c * 2 ^ k < 2 ^ 53 ->
      Py.ge_int q c = (c * 2 ^ k <=? n).
Proof.
  intros Hk Hn.
  assert (Hpow : 0 < 2 ^ k) by (apply Z.pow_pos_nonneg; lia).
  assert (Hshape : exists sf : spec_float,
    binary_normalize prec emax n (- k) false = sf /\ valid_binary sf = true /\
    (forall s, sf <> S754_infinity s) /\
    forall (c : positive) (mc : positive),
      Z.pos c * 2 ^ k < 2 ^ 53 ->
      Z.pos mc = Z.pos c * 2 ^ (53 - Z.pos (digits2_pos c)) ->
      SFleb (S754_finite false mc (Z.pos (digits2_pos c) - 53)) sf
        = (Z.pos c * 2 ^ k <=? n)).
  { destruct n as [|pn|pn]; cbn [binary_normalize].
    - exists (S754_zero false). repeat split; try discriminate.
      intros c mc Hc Hmc. cbn. symmetry. apply Z.leb_gt. lia.
    - destruct (binary_round_finite false pn k) as (m & e & Hdig & He & Hr & Hcase);
        [lia | lia |].
      exists (S754_finite false m e). split; [exact Hr |].
      split; [apply valid_normal; assumption |]. split; [discriminate |].
      intros c mc Hc Hmc.
      pose proof (digits2_pos_bounds c) as Bc.
      pose proof (digits2_pos_bounds pn) as Bn.
      set (dc := Z.pos (digits2_pos c)) in *.
      set (d := Z.pos (digits2_pos pn)) in *.
      assert (0 < dc) by (unfold dc; lia).
      assert (0 < d) by (unfold d; lia).
      assert (Hdck : dc + k <= 53).
      { destruct (Z.le_gt_cases (dc + k) 53) as [Hle|Hgt]; [exact Hle | exfalso].
        assert (2 ^ 53 <= 2 ^ (dc - 1 + k)) by (apply Z.pow_le_mono_r; lia).
        rewrite Z.pow_add_r in * by lia. nia. }
      apply eq_true_iff_eq. rewrite SFleb_finite, Z.leb_le.
      destruct Hcase as [(Hd & -> & Hm)|(Hd & Hed)].
      + (* exact *)
        destruct (Z.lt_trichotomy dc (d - k)) as [Hlt|[Heq|Hgt]].
        * split; [intros _ | intros _; left; lia].
          assert (2 ^ (dc + k) <= 2 ^ (d - 1)) by (apply Z.pow_le_mono_r; lia).
          rewrite Z.pow_add_r in * by lia. nia.
        * assert (E : Z.pos mc = Z.pos c * 2 ^ k * 2 ^ (53 - d)).
          { rewrite Hmc, <- Z.mul_assoc, <- Z.pow_add_r by lia. do 2 f_equal. lia. }
          assert (0 < 2 ^ (53 - d)) by (apply Z.pow_pos_nonneg; lia).
          split.
          -- intros [Hl|[_ Hle]]; [lia |].
             assert (Z.pos mc <= Z.pos m) by lia.
             rewrite E, Hm in *. nia.
          -- intros Hle. right. split; [lia |].
             assert (Z.pos mc <= Z.pos m); [| lia].
             rewrite E, Hm. nia.
        * split; [intros [Hl|[He' _]]; lia |].
          intros Hle. exfalso.
          assert (2 ^ d <= 2 ^ (dc - 1 + k)) by (apply Z.pow_le_mono_r; lia).
          rewrite Z.pow_add_r in * by lia. nia.
      + (* rounded *)
        split; [intros _ | intros _; left; lia].
        assert (2 ^ 53 <= 2 ^ (d - 1)) by (apply Z.pow_le_mono_r; lia).
        lia.
    - destruct (binary_round_finite true pn k) as (m & e & Hdig & He & Hr & _);
        [lia | lia |].
      exists (S754_finite true m e). split; [exact Hr |].
      split; [apply valid_normal; assumption |]. split; [discriminate |].
      intros c mc Hc Hmc.
      apply eq_true_iff_eq. rewrite SFleb_finite, Z.leb_le.
      split; [intros [] | lia]. }
  destruct Hshape as (sf & Hsf & Hvalid & Hfin & Hcmp).
  exists (SF2Prim sf). split.
  - unfold Py.truediv_pow2. rewrite Hsf. cbv zeta.
    rewrite is_infinity_spec, Prim2SF_SF2Prim by exact Hvalid.
    destruct sf as [s|s| |s m e]; try reflexivity.
    exfalso. apply (Hfin s). reflexivity.
  - intros c Hc Hck. destruct c as [|pc|pc]; try lia.
    assert (Hpc : Z.pos pc < 2 ^ 53) by nia.
    destruct (float_of_int_exact pc Hpc) as (mc & Hmc & Hfc).
    unfold Py.ge_int. rewrite leb_spec, Hfc, Prim2SF_SF2Prim by exact Hvalid.
    apply Hcmp; assumption.
Qed.

(** The conversions of counters and of products of two counters succeed. *)
Lemma counter_small (z : Z) : counter z -> Z.abs z < 2 ^ 1000.
Proof.
  unfold counter. intros H.
  assert (2 ^ 64 <= 2 ^ 1000) by (apply Z.pow_le_mono_r; lia). lia.
Qed.

Lemma counter_mul_small (a b : Z) : counter a -> counter b -> Z.abs (a * b) < 2 ^ 1000.
Proof.
  unfold counter. intros Ha Hb.
  assert (2 ^ 64 * 2 ^ 64 <= 2 ^ 1000)
    by (rewrite <- Z.pow_add_r by lia; apply Z.pow_le_mono_r; lia).
  assert (a * b < 2 ^ 64 * 2 ^ 64) by nia.
  assert (0 <= a * b) by nia. lia.
Qed.

Lemma counter_kb_small (z : Z) : counter z -> Z.abs (z * 1024) < 2 ^ 1000.
Proof.
  intros H. apply counter_mul_small; [exact H |]. unfold counter.
  change (2 ^ 64) with 18446744073709551616. lia.
Qed.

(** X9. On every platform the memory flags are decided on the integers: the
    minimum is met exactly when the installed memory is at least 32 GiB
    (34359738368 bytes, 33554432 kB), the recommended threshold exactly when
    it is at least 40 GiB.  The division by [2^20] or [2^30] and its rounding
    to a float move no count across a threshold. *)
Theorem memory_flags_in_bytes (h : host) (r : memory_reading) :
  memory_source h = Some r -> memory_counters r ->
  MemoryInfo.meets_minimum (get_memory_info h)
    = (32 * 2 ^ 30 <=? memory_total_bytes r) /\
  MemoryInfo.meets_recommended (get_memory_info h)
    = (40 * 2 ^ 30 <=? memory_total_bytes r).
Proof.
  intros Hsrc Hr. unfold get_memory_info. rewrite Hsrc. cbn [mbind option_bind].
  destruct r as [total_kb available_kb|total_visible free_physical|memsize];
    cbn [memory_gb memory_counters memory_total_bytes] in *.
  - destruct Hr as [Ht Ha].
    destruct (truediv_pow2_spec total_kb 20) as (t & -> & Hcmp);
      [lia | apply counter_small; exact Ht |].
    destruct (truediv_pow2_spec available_kb 20) as (a & -> & _);
      [lia | apply counter_small; exact Ha |].
    cbn [mbind option_bind memory_info MemoryInfo.meets_minimum
         MemoryInfo.meets_recommended].
    unfold MIN_RAM_GB, RECOMMENDED_RAM_GB.
    rewrite !Hcmp by (vm_compute; reflexivity || lia).
    split; apply eq_true_iff_eq; rewrite !Z.leb_le;
      change (2 ^ 20) with 1048576; change (2 ^ 30) with 1073741824; lia.
  - destruct Hr as [Ht Ha].
    destruct (truediv_pow2_spec (total_visible * 1024) 30) as (t & -> & Hcmp);
      [lia | apply counter_kb_small; exact Ht |].
    destruct (truediv_pow2_spec (free_physical * 1024) 30) as (a & -> & _);
      [lia | apply counter_kb_small; exact Ha |].
    cbn [mbind option_bind memory_info MemoryInfo.meets_minimum
         MemoryInfo.meets_recommended].
    unfold MIN_RAM_GB, RECOMMENDED_RAM_GB.
    rewrite !Hcmp by (vm_compute; reflexivity || lia).
    split; reflexivity.
  - destruct (truediv_pow2_spec memsize 30) as (t & -> & Hcmp);
      [lia | apply counter_small; exact Hr |].
    cbn [mbind option_bind memory_info MemoryInfo.meets_minimum
         MemoryInfo.meets_recommended].
    unfold MIN_RAM_GB, RECOMMENDED_RAM_GB.
    rewrite !Hcmp by (vm_compute; reflexivity || lia).
    split; reflexivity.
Qed.

(** X10. On every platform the storage flag is decided on the integers: the
    minimum is met exactly when the space available to the user is at least
    50 GiB (53687091200 bytes); on the POSIX platforms that space is
    [f_bavail * f_frsize].  The total size and the filesystem type play no
    part. *)
Theorem storage_flag_in_bytes (h : host) (r : storage_reading) :
  storage_source h = Some r -> storage_counters r ->
  StorageInfo.meets_minimum (get_storage_info h)
    = (50 * 2 ^ 30 <=? storage_available_bytes r).
Proof.
  intros Hsrc Hr. unfold get_storage_info. rewrite Hsrc. cbn [mbind option_bind].
  destruct r as [total_bytes free_bytes|f_blocks f_frsize f_bavail df_type
                 |f_blocks f_frsize f_bavail];
    cbn [storage_gb storage_counters storage_available_bytes] in *.
  - destruct Hr as [Ht Hf].
    destruct (truediv_pow2_spec total_bytes 30) as (t & -> & _);
      [lia | apply counter_small; exact Ht |].
    destruct (truediv_pow2_spec free_bytes 30) as (a & -> & Hcmp);
      [lia | apply counter_small; exact Hf |].
    cbn [mbind option_bind storage_info StorageInfo.meets_minimum].
    unfold MIN_STORAGE_GB. rewrite Hcmp by (vm_compute; reflexivity || lia).
    reflexivity.
  - destruct Hr as (Hb & Hs & Ha).
    destruct (truediv_pow2_spec (f_blocks * f_frsize) 30) as (t & -> & _);
      [lia | apply counter_mul_small; assumption |].
    destruct (truediv_pow2_spec (f_bavail * f_frsize) 30) as (a & -> & Hcmp);
      [lia | apply counter_mul_small; assumption |].
    cbn [mbind option_bind storage_info StorageInfo.meets_minimum].
    unfold MIN_STORAGE_GB. rewrite Hcmp by (vm_compute; reflexivity || lia).
    reflexivity.
  - destruct Hr as (Hb & Hs & Ha).
    destruct (truediv_pow2_spec (f_blocks * f_frsize) 30) as (t & -> & _);
      [lia | apply counter_mul_small; assumption |].
    destruct (truediv_pow2_spec (f_bavail * f_frsize) 30) as (a & -> & Hcmp);
      [lia | apply counter_mul_small; assumption |].
    cbn [mbind option_bind storage_info StorageInfo.meets_minimum].
    unfold MIN_STORAGE_GB. rewrite Hcmp by (vm_compute; reflexivity || lia).
    reflexivity.
Qed.

(** ** The texts of the probes

    Facts about [split], [strip] and [in] that the probes rely on. *)

(** *** Prefixes *)

Lemma prefix_nil (s : string) : String.prefix "" s = true.
Proof. destruct s; reflexivity. Qed.

Lemma prefix_cons (a b : ascii) (p s : string) :
  String.prefix (String a p) (String b s) = Ascii.eqb a b && String.prefix p s.
Proof.
  cbn [String.prefix]. destruct (ascii_dec a b) as [->|Hne].
  - rewrite Ascii.eqb_refl. reflexivity.
  - apply Ascii.eqb_neq in Hne. rewrite Hne. reflexivity.
Qed.

Lemma prefix_app (k a r : string) :
  String.prefix k a = true -> String.prefix k (a +:+ r) = true.
Proof.
  revert a. induction k as [|c k IH]; intros a H; [apply prefix_nil |].
  destruct a as [|b a]; [discriminate |].
  change (String b a +:+ r) with (String b (a +:+ r)).
  rewrite prefix_cons in *. apply andb_true_iff in H as [-> H].
  rewrite (IH a H). reflexivity.
Qed.

Lemma prefix_self_app (k r : string) : String.prefix k (k +:+ r) = true.
Proof.
  induction k as [|c k IH]; [apply prefix_nil |].
  change (String c k +:+ r) with (String c (k +:+ r)).
  rewrite prefix_cons, Ascii.eqb_refl. exact IH.
Qed.

(** *** Occurrences *)

Lemma contains_cons (sub : string) (c : ascii) (s : string) :
  Str.contains sub (String c s) = String.prefix sub (String c s) || Str.contains sub s.
Proof. reflexivity. Qed.

Lemma contains_nil (sub : string) :
  Str.contains sub "" = String.prefix sub "".
Proof. cbn [Str.contains]. apply orb_false_r. Qed.

Lemma contains_tail (sub : string) (c : ascii) (s : string) :
  Str.contains sub (String c s) = false -> Str.contains sub s = false.
Proof.
  rewrite contains_cons. intros H. apply orb_false_iff in H as [_ H]. exact H.
Qed.

Lemma contains_not_prefix (sub s : string) :
  Str.contains sub s = false -> String.prefix sub s = false.
Proof.
  destruct s as [|c s]; [rewrite contains_nil; intros H; exact H |].
  rewrite contains_cons. intros H. apply orb_false_iff in H as [H _]. exact H.
Qed.

(** *** Pieces *)

(** The first piece is a beginning of the text, and a key that does not
    occur in the text occurs in no piece. *)
Lemma split_from_pieces (key sep : string) (s : string) :
  forall skip : nat,
    let '(piece, pieces) := Str.split_from sep skip s in
    (skip = 0%nat -> exists rest : string, s = piece +:+ rest) /\
    (Str.contains key s = false ->
     Str.contains key piece = false /\
     Forall (fun p => Str.contains key p = false) pieces).
Proof.
  induction s as [|c s IH]; intros skip; cbn [Str.split_from].
  - split; [intros _; exists ""; reflexivity |]. intros H. split; [exact H | constructor].
  - destruct skip as [|skip].
    + destruct (String.prefix sep (String c s)) eqn:Hsep.
      * specialize (IH (String.length sep - 1)%nat).
        destruct (Str.split_from sep (String.length sep - 1) s) as [piece pieces].
        destruct IH as [_ IH].
        split; [intros _; exists (String c s); reflexivity |].
        intros H. pose proof (contains_tail _ _ _ H) as Hs.
        destruct (IH Hs) as [Hp Hps].
        split; [| constructor; assumption].
        rewrite contains_nil. destruct key as [|k key]; [| reflexivity].
        rewrite contains_cons, prefix_nil in H. discriminate.
      * specialize (IH 0%nat).
        destruct (Str.split_from sep 0 s) as [piece pieces].
        destruct IH as [Hpre IH].
        destruct (Hpre eq_refl) as [rest Hrest].
        split; [intros _; exists rest; rewrite Hrest at 1; reflexivity |].
        intros H. pose proof (contains_tail _ _ _ H) as Hs.
        destruct (IH Hs) as [Hp Hps]. split; [| exact Hps].
        rewrite contains_cons, Hp, orb_false_r.
        destruct (String.prefix key (String c piece)) eqn:Hk; [| reflexivity].
        apply (prefix_app _ _ rest) in Hk.
        change (String c piece +:+ rest) with (String c (piece +:+ rest)) in Hk.
        rewrite <- Hrest in Hk.
        apply contains_not_prefix in H. congruence.
    + specialize (IH skip).
      destruct (Str.split_from sep skip s) as [piece pieces].
      destruct IH as [_ IH]. split; [discriminate |].
      intros H. apply IH. exact (contains_tail _ _ _ H).
Qed.

Lemma split_pieces_lack (key sep s : string) :
  Str.contains key s = false ->
  Forall (fun p => Str.contains key p = false) (Str.split sep s).
Proof.
  intros H. unfold Str.split.
  pose proof (split_from_pieces key sep s 0) as Hs.
  destruct (Str.split_from sep 0 s) as [piece pieces].
  destruct Hs as [_ Hs]. destruct (Hs H). constructor; assumption.
Qed.

(** No piece contains the separator. *)
Lemma split_from_no_sep (sep : string) (s : string) :
  sep <> "" ->
  forall skip : nat,
    let '(piece, pieces) := Str.split_from sep skip s in
    (skip = 0%nat -> exists rest : string, s = piece +:+ rest) /\
    Str.contains sep piece = false /\
    Forall (fun p => Str.contains sep p = false) pieces.
Proof.
  intros Hsep.
  assert (Hnil : Str.contains sep "" = false).
  { rewrite contains_nil. destruct sep; [congruence | reflexivity]. }
  induction s as [|c s IH]; intros skip; cbn [Str.split_from].
  - split; [intros _; exists ""; reflexivity |]. split; [exact Hnil | constructor].
  - destruct skip as [|skip].
    + destruct (String.prefix sep (String c s)) eqn:Hpre.
      * specialize (IH (String.length sep - 1)%nat).
        destruct (Str.split_from sep (String.length sep - 1) s) as [piece pieces].
        destruct IH as (_ & Hp & Hps).
        split; [intros _; exists (String c s); reflexivity |].
        split; [exact Hnil | constructor; assumption].
      * specialize (IH 0%nat).
        destruct (Str.split_from sep 0 s) as [piece pieces].
        destruct IH as (Hrest & Hp & Hps).
        destruct (Hrest eq_refl) as [rest Hs].
        split; [intros _; exists rest; rewrite Hs at 1; reflexivity |].
        split; [| exact Hps].
        rewrite contains_cons, Hp, orb_false_r.
        destruct (String.prefix sep (String c piece)) eqn:Hk; [| reflexivity].
        apply (prefix_app _ _ rest) in Hk.
        change (String c piece +:+ rest) with (String c (piece +:+ rest)) in Hk.
        rewrite <- Hs in Hk. congruence.
    + specialize (IH skip).
      destruct (Str.split_from sep skip s) as [piece pieces].
      destruct IH as (_ & Hp & Hps). split; [discriminate |]. split; assumption.
Qed.

Lemma split_pieces_no_sep (sep s : string) :
  sep <> "" -> Forall (fun p => Str.contains sep p = false) (Str.split sep s).
Proof.
  intros Hsep. unfold Str.split.
  pose proof (split_from_no_sep sep s Hsep 0) as Hs.
  destruct (Str.split_from sep 0 s) as [piece pieces].
  destruct Hs as (_ & Hp & Hps). constructor; assumption.
Qed.

(** *** Stripping *)

Lemma contains_app_l (key a r : string) :
  Str.contains key (a +:+ r) = false -> Str.contains key a = false.
Proof.
  induction a as [|c a IH].
  - change ("" +:+ r) with r. intros H. rewrite contains_nil.
    destruct key as [|k key]; [| reflexivity].
    apply contains_not_prefix in H. rewrite prefix_nil in H. discriminate.
  - change (String c a +:+ r) with (String c (a +:+ r)).
    rewrite !contains_cons. intros H. apply orb_false_iff in H as [Hp Hc].
    rewrite (IH Hc), orb_false_r.
    destruct (String.prefix key (String c a)) eqn:Hk; [| reflexivity].
    apply (prefix_app _ _ r) in Hk.
    change (String c a +:+ r) with (String c (a +:+ r)) in Hk. congruence.
Qed.

Lemma lstrip_lacks (key s : string) :
  Str.contains key s = false -> Str.contains key (Str.lstrip s) = false.
Proof.
  induction s as [|c s IH]; [intros H; exact H |]. intros H. cbn [Str.lstrip].
  destruct (Str.isspace c); [| exact H].
  apply IH. exact (contains_tail _ _ _ H).
Qed.

Lemma rstrip_cons (c : ascii) (s : string) :
  Str.rstrip (String c s) =
  match Str.rstrip s with
  | EmptyString => if Str.isspace c then EmptyString else String c EmptyString
  | r => String c r
  end.
Proof. reflexivity. Qed.

Lemma rstrip_prefix (s : string) : exists rest : string, s = Str.rstrip s +:+ rest.
Proof.
  induction s as [|c s [rest IH]]; [exists ""; reflexivity |].
  rewrite rstrip_cons. destruct (Str.rstrip s) as [|b r] eqn:Hr.
  - destruct (Str.isspace c).
    + exists (String c s). reflexivity.
    + exists s. reflexivity.
  - exists rest. rewrite IH at 1. reflexivity.
Qed.

Lemma rstrip_lacks (key s : string) :
  Str.contains key s = false -> Str.contains key (Str.rstrip s) = false.
Proof.
  intros H. destruct (rstrip_prefix s) as [rest Hs].
  rewrite Hs in H. exact (contains_app_l _ _ _ H).
Qed.

Lemma strip_lacks (key s : string) :
  Str.contains key s = false -> Str.contains key (Str.strip s) = false.
Proof. intros H. apply rstrip_lacks, lstrip_lacks, H. Qed.

Lemma rstrip_idempotent (s : string) : Str.rstrip (Str.rstrip s) = Str.rstrip s.
Proof.
  induction s as [|c s IH]; [reflexivity |].
  rewrite rstrip_cons. destruct (Str.rstrip s) as [|b r] eqn:Hr.
  - destruct (Str.isspace c) eqn:Hc; [reflexivity |].
    rewrite rstrip_cons. cbn [Str.rstrip]. rewrite Hc. reflexivity.
  - rewrite rstrip_cons, IH. reflexivity.
Qed.

(** A text that starts with no white space keeps its start when the white
    space at its end is removed. *)
Lemma lstrip_rstrip (s : string) :
  Str.lstrip s = s -> Str.lstrip (Str.rstrip s) = Str.rstrip s.
Proof.
  destruct s as [|c s]; [reflexivity |]. cbn [Str.lstrip].
  destruct (Str.isspace c) eqn:Hc.
  - intros H. exfalso.
    assert (String.length (Str.lstrip s) <= String.length s)%nat.
    { clear. induction s as [|a s IH]; [reflexivity |]. cbn [Str.lstrip].
      destruct (Str.isspace a); cbn [String.length]; lia. }
    rewrite H in *. cbn [String.length] in *. lia.
  - intros _. rewrite rstrip_cons.
    destruct (Str.rstrip s) as [|b r]; rewrite ?Hc; cbn [Str.lstrip];
      rewrite Hc; reflexivity.
Qed.

Lemma lstrip_idempotent (s : string) : Str.lstrip (Str.lstrip s) = Str.lstrip s.
Proof.
  induction s as [|c s IH]; [reflexivity |]. cbn [Str.lstrip].
  destruct (Str.isspace c) eqn:Hc; [exact IH |].
  cbn [Str.lstrip]. rewrite Hc. reflexivity.
Qed.

Lemma strip_idempotent (s : string) : Str.strip (Str.strip s) = Str.strip s.
Proof.
  unfold Str.strip.
  rewrite (lstrip_rstrip (Str.lstrip s) (lstrip_idempotent s)).
  apply rstrip_idempotent.
Qed.

(** *** Separators that are found where they are written *)

Lemma split_from_skip (sep p s : string) :
  Str.split_from sep (String.length p) (p +:+ s) = Str.split_from sep 0 s.
Proof.
  induction p as [|c p IH]; [reflexivity |].
  change (String c p +:+ s) with (String c (p +:+ s)).
  cbn [String.length Str.split_from]. exact IH.
Qed.

Lemma not_prefix_first (c1 c : ascii) (sep' a x : string) :
  Str.contains (String c1 "") (String c a) = false ->
  String.prefix (String c1 sep') (String c x) = false.
Proof.
  rewrite contains_cons, prefix_cons, prefix_nil, andb_true_r.
  intros H. apply orb_false_iff in H as [Hc _].
  rewrite prefix_cons, Hc. reflexivity.
Qed.

(** A piece without the first character of the separator, followed by the
    separator, is split off as it stands. *)
Lemma split_app (c1 : ascii) (sep' a b : string) :
  Str.contains (String c1 "") a = false ->
  Str.split (String c1 sep') (a +:+ String c1 sep' +:+ b)
    = a :: Str.split (String c1 sep') b.
Proof.
  unfold Str.split. induction a as [|c a IH]; intros H.
  - change ("" +:+ String c1 sep' +:+ b) with (String c1 (sep' +:+ b)).
    cbn [Str.split_from].
    replace (String.prefix (String c1 sep') (String c1 (sep' +:+ b))) with true
      by (symmetry; apply (prefix_self_app (String c1 sep') b)).
    replace (String.length (String c1 sep') - 1)%nat with (String.length sep')
      by (cbn [String.length]; lia).
    rewrite split_from_skip.
    destruct (Str.split_from (String c1 sep') 0 b); reflexivity.
  - change (String c a +:+ String c1 sep' +:+ b)
      with (String c (a +:+ String c1 sep' +:+ b)).
    cbn [Str.split_from].
    rewrite (not_prefix_first c1 c sep' a _ H).
    specialize (IH (contains_tail _ _ _ H)).
    destruct (Str.split_from (String c1 sep') 0 (a +:+ String c1 sep' +:+ b))
      as [piece pieces].
    destruct (Str.split_from (String c1 sep') 0 b) as [piece' pieces'].
    inversion IH; subst. reflexivity.
Qed.

Lemma split_whole (c1 : ascii) (sep' a : string) :
  Str.contains (String c1 "") a = false ->
  Str.split (String c1 sep') a = [a].
Proof.
  unfold Str.split. induction a as [|c a IH]; intros H; [reflexivity |].
  cbn [Str.split_from].
  rewrite (not_prefix_first c1 c sep' a _ H).
  specialize (IH (contains_tail _ _ _ H)).
  destruct (Str.split_from (String c1 sep') 0 a) as [piece pieces].
  inversion IH; subst. reflexivity.
Qed.

(** The first line that mentions a key is a line of the text. *)
Lemma first_filtered (f : string -> bool) (l : list string) (x : string)
    (rest : list string) :
  List.filter f l = x :: rest -> In x l /\ f x = true.
Proof.
  intros H. apply List.filter_In. rewrite H. left. reflexivity.
Qed.

Lemma lines_lack_newline (text line : string) :
  In line (lines text) -> Str.contains (String "010"%char "") line = false.
Proof.
  intros H. unfold lines in H.
  pose proof (split_pieces_no_sep (String "010"%char "") text) as Hall.
  rewrite List.Forall_forall in Hall. apply Hall; [discriminate | exact H].
Qed.

Lemma lines_lack (key text line : string) :
  Str.contains key text = false -> In line (lines text) ->
  Str.contains key line = false.
Proof.
  intros Hkey H. unfold lines in H.
  pose proof (split_pieces_lack key (String "010"%char "") text Hkey) as Hall.
  rewrite List.Forall_forall in Hall. apply Hall. exact H.
Qed.

Lemma lookup_In {A} (l : list A) (i : nat) (x : A) : l !! i = Some x -> In x l.
Proof.
  revert i. induction l as [|a l IH]; intros [|i] H; try discriminate.
  - inversion H. left. reflexivity.
  - right. exact (IH i H).
Qed.

(** The model name a text gives, when it gives one. *)
Lemma cpu_model_name_clean (cpuinfo m : string) :
  cpu_model_name cpuinfo = Some (Some m) ->
  Str.contains ":" m = false /\
  Str.contains (String "010"%char "") m = false /\
  Str.strip m = m.
Proof.
  unfold cpu_model_name.
  destruct (List.filter (Str.contains "model name") (lines cpuinfo))
    as [|line rest] eqn:Hlines; [discriminate |].
  destruct (first_filtered _ _ _ _ Hlines) as [Hline _].
  destruct (Str.split ":" line !! 1%nat) as [piece|] eqn:Hpiece; [| discriminate].
  cbn [mbind option_bind]. intros H. inversion H; subst m.
  apply lookup_In in Hpiece.
  split; [| split].
  - apply strip_lacks.
    pose proof (split_pieces_no_sep ":" line) as Hall.
    rewrite List.Forall_forall in Hall. apply Hall; [discriminate | exact Hpiece].
  - apply strip_lacks.
    pose proof (split_pieces_lack (String "010"%char "") ":" line
                  (lines_lack_newline _ _ Hline)) as Hall.
    rewrite List.Forall_forall in Hall. apply Hall. exact Hpiece.
  - apply strip_idempotent.
Qed.


(** A text that holds the character splits into more than one piece. *)
Lemma contains_char_split (c : ascii) (s : string) :
  Str.contains (String c "") s = true ->
  exists a b : string,
    s = a +:+ String c b /\ Str.contains (String c "") a = false.
Proof.
  induction s as [|x s IH]; intros H.
  - discriminate H.
  - rewrite contains_cons, prefix_cons, prefix_nil, andb_true_r in H.
    destruct (Ascii.eqb_spec c x) as [->|Hne].
    + exists "", s. split; reflexivity.
    + cbn [orb] in H. destruct (IH H) as (a & b & -> & Ha).
      exists (String x a), b. split; [reflexivity |].
      rewrite contains_cons, prefix_cons, prefix_nil, andb_true_r, Ha.
      destruct (Ascii.eqb_spec c x) as [->|_]; [contradiction | reflexivity].
Qed.

Lemma split_with_separator (c : ascii) (line : string) :
  Str.contains (String c "") line = true ->
  exists piece : string, Str.split (String c "") line !! 1%nat = Some piece.
Proof.
  intros H. destruct (contains_char_split c line H) as (a & b & -> & Ha).
  change (a +:+ String c b) with (a +:+ String c "" +:+ b).
  rewrite (split_app c "" a b Ha). unfold Str.split.
  destruct (Str.split_from (String c "") 0 b) as [piece pieces].
  exists piece. reflexivity.
Qed.

(** The model name is read when the first line that mentions [model name],
    if there is one, has a colon. *)
Lemma cpu_model_name_read (cpuinfo : string) :
  (forall (line : string) (rest : list string),
     List.filter (Str.contains "model name") (lines cpuinfo) = line :: rest ->
     Str.contains ":" line = true) ->
  exists model : option string, cpu_model_name cpuinfo = Some model.
Proof.
  intros H. unfold cpu_model_name.
  destruct (List.filter (Str.contains "model name") (lines cpuinfo))
    as [|line rest] eqn:Hlines.
  - exists None. reflexivity.
  - destruct (split_with_separator ":" line (H line rest eq_refl)) as [piece ->].
    exists (Some (Str.strip piece)). reflexivity.
Qed.

(** X12. On Linux the core count and the thread count of the CPU fact are
    both the number [nproc --all] prints, the count of logical CPUs; the
    halved estimate of the physical cores is not used.  The minimum is met
    when eight logical CPUs are present.  This holds when [/proc/cpuinfo] is
    read, the first of its lines that mentions [model name], if there is
    one, has a colon, and [nproc --all] prints an integer; without the colon
    the probe raises and the fact has zero cores. *)
Theorem linux_cores_are_logical_cpus
    (t : linux_texts) (cpuinfo out : string) (n : Z) :
  proc_cpuinfo t = Some cpuinfo ->
  (forall (line : string) (rest : list string),
     List.filter (Str.contains "model name") (lines cpuinfo) = line :: rest ->
     Str.contains ":" line = true) ->
  nproc_all t = Some out ->
  py_int (Str.strip out) = Some n ->
  let cpu := get_cpu_info (linux_host t) in
  CPUInfo.cores cpu = n /\ CPUInfo.threads cpu = n /\
  CPUInfo.meets_minimum cpu = (8 <=? n) /\
  CPUInfo.meets_recommended cpu = (12 <=? n).
Proof.
  intros Hinfo Hcolon Hout Hint. cbv zeta.
  unfold get_cpu_info, linux_host. cbn [cpu_source platform_machine].
  unfold read_cpu_linux. rewrite Hinfo. cbn [mbind option_bind].
  destruct (cpu_model_name_read cpuinfo Hcolon) as [model ->].
  cbn [mbind option_bind]. rewrite Hout. cbn [mbind option_bind].
  rewrite Hint. cbn [mbind option_bind]. repeat split; reflexivity.
Qed.

Lemma split_without_separator (c1 : ascii) (sep' line : string) :
  Str.contains (String c1 "") line = false ->
  Str.split (String c1 sep') line !! 1%nat = None.
Proof. intros H. rewrite (split_whole c1 sep' line H). reflexivity. Qed.

(** X13. The CPU probe of a Linux machine gives up, and the validation
    fails, when [/proc/cpuinfo] cannot be read, when the first line that
    mentions [model name] has no colon, when [nproc] cannot be run, or when
    what it prints is no integer.  The fact then reports the model [Unknown]
    and zero cores, also when [nproc] answered. *)
Theorem cpu_probe_gives_up (t : linux_texts) :
  proc_cpuinfo t = None \/
  (exists (cpuinfo line : string) (rest : list string),
     proc_cpuinfo t = Some cpuinfo /\
     List.filter (Str.contains "model name") (lines cpuinfo) = line :: rest /\
     Str.contains ":" line = false) \/
  nproc_all t = None \/
  (exists out : string, nproc_all t = Some out /\ py_int (Str.strip out) = None) ->
  get_cpu_info (linux_host t) = unknown_cpu (machine t) /\
  SystemReport.overall_status (validate (linux_host t)) = "FAILED".
Proof.
  intros H.
  assert (Hread : read_cpu_linux t = None).
  { unfold read_cpu_linux.
    destruct H as [H|[(cpuinfo & line & rest & Hinfo & Hlines & Hcolon)|[H|(out & Hout & Hint)]]].
    - rewrite H. reflexivity.
    - rewrite Hinfo. cbn [mbind option_bind]. unfold cpu_model_name.
      rewrite Hlines, (split_without_separator ":" "" line Hcolon). reflexivity.
    - destruct (proc_cpuinfo t) as [cpuinfo|]; [| reflexivity].
      cbn [mbind option_bind].
      destruct (cpu_model_name cpuinfo); [| reflexivity]. cbn [mbind option_bind].
      rewrite H. reflexivity.
    - destruct (proc_cpuinfo t) as [cpuinfo|]; [| reflexivity].
      cbn [mbind option_bind].
      destruct (cpu_model_name cpuinfo); [| reflexivity]. cbn [mbind option_bind].
      rewrite Hout. cbn [mbind option_bind]. rewrite Hint. reflexivity. }
  assert (Hcpu : get_cpu_info (linux_host t) = unknown_cpu (machine t)).
  { unfold get_cpu_info, linux_host. cbn [cpu_source platform_machine].
    rewrite Hread. reflexivity. }
  split; [exact Hcpu |].
  apply validate_facts_failed. left. rewrite Hcpu. reflexivity.
Qed.

Lemma filter_none (f : string -> bool) (l : list string) :
  Forall (fun x => f x = false) l -> List.filter f l = [].
Proof.
  induction 1 as [|x l Hx _ IH]; [reflexivity |].
  cbn [List.filter]. rewrite Hx. exact IH.
Qed.

(** A key that the text does not mention has no field. *)
Lemma meminfo_field_absent (key meminfo : string) :
  Str.contains key meminfo = false -> meminfo_field key meminfo = None.
Proof.
  intros H. unfold meminfo_field, lines.
  rewrite (filter_none _ _ (split_pieces_lack key _ meminfo H)). reflexivity.
Qed.

(** X14. The memory probe of a Linux machine gives up, and the validation
    fails, when [/proc/meminfo] cannot be read or mentions no [MemTotal] or
    no [MemAvailable]: a text without the line of the available memory makes
    the fact report zero total memory, whatever its [MemTotal] line says. *)
Theorem meminfo_without_a_key_fails_validation (t : linux_texts) :
  proc_meminfo t = None \/
  (exists meminfo : string,
     proc_meminfo t = Some meminfo /\
     (Str.contains "MemTotal" meminfo = false \/
      Str.contains "MemAvailable" meminfo = false)) ->
  get_memory_info (linux_host t) = unknown_memory /\
  SystemReport.overall_status (validate (linux_host t)) = "FAILED".
Proof.
  intros H.
  assert (Hread : read_memory_linux t = None).
  { unfold read_memory_linux.
    destruct H as [H|(meminfo & Hinfo & [H|H])].
    - rewrite H. reflexivity.
    - rewrite Hinfo. cbn [mbind option_bind].
      rewrite (meminfo_field_absent _ _ H). reflexivity.
    - rewrite Hinfo. cbn [mbind option_bind].
      rewrite (meminfo_field_absent _ _ H).
      destruct (meminfo_field "MemTotal" meminfo); reflexivity. }
  assert (Hmem : get_memory_info (linux_host t) = unknown_memory).
  { unfold get_memory_info, linux_host. cbn [memory_source].
    rewrite Hread. reflexivity. }
  split; [exact Hmem |].
  apply validate_facts_failed. right; left. rewrite Hmem. reflexivity.
Qed.

(** X15. An answer of [nvidia-smi] that cannot be parsed counts as no GPU:
    when the first answer has fewer than three fields separated by a comma
    and a space, or its second field is no number, the GPU fact is absent and
    the report carries the warning that no NVIDIA GPU was detected. *)
Theorem unparsed_gpu_answer_means_no_gpu (t : linux_texts) (stdout : string) :
  nvidia_smi_query t = Some stdout ->
  let gpu_data := Str.split ", " (Str.strip stdout) in
  (length gpu_data < 3)%nat \/
  (exists text : string, gpu_data !! 1%nat = Some text /\ py_float text = None) ->
  get_gpu_info (linux_host t) = None /\
  In "No NVIDIA GPU detected - will use CPU-only inference (very slow)"
     (SystemReport.warnings (validate (linux_host t))).
Proof.
  intros Hout gpu_data H.
  assert (Hread : read_gpu t = None).
  { unfold read_gpu. rewrite Hout. cbn [mbind option_bind]. fold gpu_data.
    destruct (gpu_data !! 0%nat) as [name|]; [| reflexivity].
    cbn [mbind option_bind].
    destruct H as [Hlen|(text & Htext & Hfloat)].
    - destruct (gpu_data !! 1%nat ≫= py_float); [| reflexivity].
      cbn [mbind option_bind].
      rewrite (proj2 (lookup_ge_None gpu_data 2)) by lia. reflexivity.
    - rewrite Htext. cbn [mbind option_bind]. rewrite Hfloat. reflexivity. }
  assert (Hgpu : get_gpu_info (linux_host t) = None).
  { unfold get_gpu_info, linux_host. cbn [gpu_source]. rewrite Hread. reflexivity. }
  split; [exact Hgpu |].
  unfold validate. rewrite validate_facts_warnings, Hgpu, evaluate_gpu_warnings.
  apply in_or_app; right. apply in_or_app; right. apply in_or_app; left.
  left. reflexivity.
Qed.

Lemma contains_char_app (c : ascii) (a b : string) :
  Str.contains (String c "") (a +:+ b)
    = Str.contains (String c "") a || Str.contains (String c "") b.
Proof.
  induction a as [|x a IH]; [reflexivity |].
  change (String x a +:+ b) with (String x (a +:+ b)).
  rewrite !contains_cons, !prefix_cons, !prefix_nil, IH. apply orb_assoc.
Qed.

(** X16. With more than one GPU [nvidia-smi] answers one line per card, and
    the probe splits the whole answer at commas: the fact describes the first
    card (its name, and its memory alone), and its driver version is the
    version of the first line, a line break and the name of the second card. *)
Theorem second_card_leaks_into_driver_version
    (t : linux_texts) (stdout out name mem drv name2 rest : string)
    (vram_mb : float) (cuda : option string) :
  nvidia_smi_query t = Some stdout ->
  Str.strip stdout =
    name +:+ ", " +:+ mem +:+ ", " +:+ drv +:+
    String newline (name2 +:+ ", " +:+ rest) ->
  no_comma name -> no_comma mem -> no_comma drv -> no_comma name2 ->
  py_float mem = Some vram_mb ->
  nvidia_smi t = Some out -> cuda_version_of out = Some cuda ->
  exists g : GPUInfo.t,
    get_gpu_info (linux_host t) = Some g /\
    GPUInfo.name g = name /\
    GPUInfo.vram_gb g = round2 (vram_mb / Py.float_of_int 1024)%float /\
    GPUInfo.driver_version g = drv +:+ String newline name2.
Proof.
  unfold no_comma. intros Hout Hstrip Hname Hmem Hdrv Hname2 Hfloat Hsmi Hcuda.
  assert (Hlast : Str.contains "," (drv +:+ String newline name2) = false).
  { rewrite contains_char_app, Hdrv, contains_cons, Hname2. reflexivity. }
  assert (Hdata : exists more : list string,
    Str.split ", " (Str.strip stdout)
      = name :: mem :: (drv +:+ String newline name2) :: more).
  { exists (Str.split ", " rest). rewrite Hstrip.
    rewrite (split_app "," " " name _ Hname), (split_app "," " " mem _ Hmem).
    replace (drv +:+ String newline (name2 +:+ ", " +:+ rest))
      with ((drv +:+ String newline name2) +:+ ", " +:+ rest)
      by (rewrite append_assoc; reflexivity).
    rewrite (split_app "," " " _ _ Hlast). reflexivity. }
  destruct Hdata as [more Hdata].
  unfold get_gpu_info, linux_host. cbn [gpu_source].
  unfold read_gpu. rewrite Hout. cbn [mbind option_bind]. rewrite Hdata.
  cbn [lookup list_lookup mbind option_bind]. rewrite Hfloat.
  cbn [mbind option_bind]. rewrite Hsmi. cbn [mbind option_bind]. rewrite Hcuda.
  cbn [mbind option_bind fmap option_fmap option_map].
  eexists. split; [reflexivity |]. repeat split; reflexivity.
Qed.

(** ** The GPU fact and the GPU rule *)

(** X17. The advice stored in the GPU fact and the GPU rule of [validate]
    agree, for every answer of [nvidia-smi]: the recommendation that praises
    the card is emitted exactly when the advice is the one for 32 GB and
    more, and the warning about the VRAM is emitted only for a card whose
    advice is the CPU-heavy fallback.  Both read the rounded capacity. *)
Theorem gpu_advice_agrees_with_gpu_rule (r : gpu_reading) :
  let g := gpu_info r in
  let m := emitted (evaluate_gpu (Some g)) in
  (msg_recommendations m =
     ["Excellent! " +:+ float_repr (GPUInfo.vram_gb g)
      +:+ "GB VRAM enables Q6_K or Q8_0 quantization"]
   <-> GPUInfo.recommended_quantization g = "Q6_K or Q8_0 (full GPU offload)") /\
  (msg_warnings m <> [] ->
   GPUInfo.recommended_quantization g = "Q4_K_M (CPU-heavy, limited GPU)" /\
   msg_recommendations m =
     ["GPU will be underutilized. Consider hybrid CPU/GPU inference"]).
Proof.
  cbv zeta. unfold gpu_info. cbn [GPUInfo.vram_gb GPUInfo.recommended_quantization].
  set (v := round2 (memory_total r / Py.float_of_int 1024)).
  unfold emitted, evaluate_gpu. cbn [GPUInfo.vram_gb].
  rewrite lt_int_16, ge_int_32.
  destruct (recommended_quant_cases v)
    as [[H32 ->]|[(H32 & H24 & ->)|[(H24 & H16 & ->)|[H16 ->]]]].
  - pose proof (ge_24_ge_16 v (ge_32_ge_24 v H32)) as H16.
    rewrite (float_ge_not_lt _ _ H16), H32. cbn.
    split; [split; reflexivity | congruence].
  - pose proof (ge_24_ge_16 v H24) as H16.
    rewrite (float_ge_not_lt _ _ H16), H32. cbn.
    split; [split; discriminate | congruence].
  - rewrite (float_ge_not_lt _ _ H16).
    assert (H32 : (32 <=? v)%float = false).
    { destruct (32 <=? v)%float eqn:E; [| reflexivity].
      rewrite (ge_32_ge_24 v E) in H24. discriminate. }
    rewrite H32. cbn. split; [split; discriminate | congruence].
  - assert (H32 : (32 <=? v)%float = false).
    { destruct (32 <=? v)%float eqn:E; [| reflexivity].
      rewrite (ge_24_ge_16 v (ge_32_ge_24 v E)) in H16. discriminate. }
    destruct (v <? 16)%float; [| rewrite H32]; cbn.
    + split; [split; intros H; discriminate H | intros _; split; reflexivity].
    + split; [split; discriminate | congruence].
Qed.

(** ** The storage probe and [df] *)

(** X18. On Linux [df] names the filesystem and nothing else.  The
    capacities and the flag of the storage fact are those of [statvfs],
    whatever [df] answers and whether it runs; and the filesystem is
    [Unknown] when [df] cannot be run, prints nothing, or prints a single
    line. *)
Theorem df_only_names_the_filesystem (t t' : linux_texts) :
  statvfs t' = statvfs t ->
  let s := get_storage_info (linux_host t) in
  let s' := get_storage_info (linux_host t') in
  (StorageInfo.total_gb s' = StorageInfo.total_gb s /\
   StorageInfo.available_gb s' = StorageInfo.available_gb s /\
   StorageInfo.meets_minimum s' = StorageInfo.meets_minimum s) /\
  (df_T t = None \/
   (exists stdout : string,
      df_T t = Some stdout /\
      Str.contains (String "010"%char "") stdout = false) ->
   StorageInfo.filesystem s = "Unknown").
Proof.
  intros Hstat. cbv zeta.
  unfold get_storage_info, linux_host. cbn [storage_source].
  unfold read_storage_linux. rewrite Hstat.
  destruct (statvfs t) as [[[f_blocks f_frsize] f_bavail]|];
    cbn [mbind option_bind storage_gb]; [| split; [repeat split | reflexivity]].
  destruct (Py.truediv_pow2 (f_blocks * f_frsize) 30) as [total|];
    cbn [mbind option_bind]; [| split; [repeat split | reflexivity]].
  destruct (Py.truediv_pow2 (f_bavail * f_frsize) 30) as [available|];
    cbn [mbind option_bind]; [| split; [repeat split | reflexivity]].
  split; [repeat split |].
  cbn [storage_info StorageInfo.filesystem].
  intros [Hdf|(stdout & Hdf & Hone)]; rewrite Hdf; [reflexivity |].
  cbn [df_filesystem mbind option_bind].
  destruct stdout as [|c stdout]; [reflexivity |].
  unfold lines. rewrite (split_whole _ _ _ Hone). reflexivity.
Qed.

(** ** The console *)

(** [main_io] is [main] with the console added. *)
Lemma main_io_main (h : host) (d : disk) (output : string) (quiet : bool) :
  (fst (fst (main_io h d output quiet)), snd (main_io h d output quiet))
    = main h d output quiet.
Proof.
  unfold main_io, main.
  destruct (save_report d (validate h) output) as [d' [u|e]]; [| reflexivity].
  destruct (String.eqb _ "FAILED"); [reflexivity |].
  destruct (String.eqb _ "PASSED_WITH_WARNINGS"); reflexivity.
Qed.

(** What is printed: the report unless the run is quiet, then the line of
    [save_report] unless it raised. *)
Lemma main_io_printed (h : host) (d : disk) (output : string) (quiet : bool) :
  printed (main_io h d output quiet) =
  (if negb quiet then print_report (validate h) else []) ++
  match snd (save_report d (validate h) output) with
  | Ok _ => [saved_line output]
  | Raise _ => []
  end.
Proof.
  unfold main_io, printed.
  destruct (save_report d (validate h) output) as [d' [u|e]]; cbn [fst snd].
  - destruct (String.eqb _ "FAILED"); [reflexivity |].
    destruct (String.eqb _ "PASSED_WITH_WARNINGS"); reflexivity.
  - rewrite app_nil_r. reflexivity.
Qed.

Lemma print_report_parts (r : SystemReport.t) :
  print_report r = print_body r ++ print_verdict (SystemReport.overall_status r).
Proof. unfold print_report, print_body. rewrite <- !app_assoc. reflexivity. Qed.

(** Every text before the verdict starts with a character of ASCII. *)
Lemma print_messages_plain (heading : text) (l : list string) :
  Forall (fun t => starts_plain t = true) (print_messages heading l).
Proof.
  unfold print_messages. destruct (truthy l); [| constructor].
  constructor; [reflexivity |].
  induction l as [|m l IH]; constructor; [reflexivity | exact IH].
Qed.

Lemma print_body_plain (r : SystemReport.t) :
  Forall (fun t => starts_plain t = true) (print_body r).
Proof.
  unfold print_body.
  repeat (apply Forall_app; split); try apply print_messages_plain.
  - repeat constructor.
  - repeat constructor.
  - repeat constructor.
  - unfold print_gpu. destruct (SystemReport.gpu r); repeat constructor.
  - repeat constructor.
Qed.

Lemma not_in_body (r : SystemReport.t) (banner : text) :
  starts_plain banner = false -> ~ In banner (print_body r).
Proof.
  intros Hb Hin. pose proof (print_body_plain r) as Hall.
  rewrite List.Forall_forall in Hall. rewrite (Hall _ Hin) in Hb. discriminate.
Qed.

Lemma validate_status_cases (h : host) :
  SystemReport.overall_status (validate h) = "FAILED" \/
  SystemReport.overall_status (validate h) = "PASSED_WITH_WARNINGS" \/
  SystemReport.overall_status (validate h) = "PASSED".
Proof.
  unfold validate. rewrite validate_facts_status. cbv zeta.
  destruct (any _); [left; reflexivity |].
  destruct (truthy _); [right; left | right; right]; reflexivity.
Qed.

(** Settles whether a banner is among the texts of the verdict of a given
    status. *)
Ltac banner_in_verdict :=
  split;
  [ intros H; first
      [ reflexivity
      | exfalso; vm_compute in H;
        repeat (destruct H as [H|H]; [discriminate H |]); contradiction ]
  | intros H; first
      [ discriminate H | right; left; reflexivity ] ].

Lemma verdict_banners (status : string) :
  status = "FAILED" \/ status = "PASSED_WITH_WARNINGS" \/ status = "PASSED" ->
  (In failed_banner (print_verdict status) <-> status = "FAILED") /\
  (In warnings_banner (print_verdict status) <-> status = "PASSED_WITH_WARNINGS") /\
  (In passed_banner (print_verdict status) <-> status = "PASSED").
Proof.
  intros [-> | [-> | ->]]; (split; [| split]); banner_in_verdict.
Qed.

(** A banner in what a run that is not quiet printed is the banner of the
    verdict. *)
Lemma banner_printed (h : host) (d : disk) (output : string) (banner : text) :
  starts_plain banner = false ->
  In banner (printed (main_io h d output false)) <->
  In banner (print_verdict (SystemReport.overall_status (validate h))).
Proof.
  intros Hb. rewrite main_io_printed, print_report_parts. cbn [negb].
  rewrite !in_app_iff. split.
  - intros [[H|H]|H]; [destruct (not_in_body _ _ Hb H) | exact H | exfalso].
    destruct (snd (save_report d (validate h) output)); [| exact H].
    destruct H as [H|H]; [| destruct H]. rewrite <- H in Hb. discriminate Hb.
  - intros H. left. right. exact H.
Qed.



Lemma message_line_printed (heading : text) (l : list string) (m : string) :
  In m l -> In (message_line m) (print_messages heading l).
Proof.
  intros H. unfold print_messages.
  destruct l as [|x l]; [destruct H |]. cbn [truthy]. right.
  change (In (message_line m) (message_line <$> x :: l)).
  apply in_map. exact H.
Qed.


(** ** More hardware is never worse *)

(** The rank of the status, from the flags. *)
Lemma validate_facts_rank cpu memory gpu storage now :
  status_rank (SystemReport.overall_status
                 (validate_facts cpu memory gpu storage now)) =
  if CPUInfo.meets_minimum cpu && MemoryInfo.meets_minimum memory &&
     StorageInfo.meets_minimum storage
  then (if gpu_without_warning gpu then 2 else 1)%nat
  else 0%nat.
Proof.
  assert (Hwarn :
    truthy (msg_warnings (emitted (evaluate_gpu gpu))) = negb (gpu_without_warning gpu)).
  { destruct gpu as [g|]; rewrite evaluate_gpu_warnings; [| reflexivity].
    unfold gpu_without_warning. rewrite lt_int_16.
    destruct (GPUInfo.vram_gb g <? 16)%float; reflexivity. }
  rewrite validate_facts_status. cbv zeta.
  rewrite validate_facts_warnings, evaluate_cpu_warnings,
    evaluate_memory_warnings, evaluate_storage_warnings.
  unfold any, critical_failures. cbn [existsb id].
  destruct (CPUInfo.meets_minimum cpu), (MemoryInfo.meets_minimum memory),
    (StorageInfo.meets_minimum storage); cbn [negb orb andb]; try reflexivity.
  cbn [app]. rewrite app_nil_r, Hwarn.
  destruct (gpu_without_warning gpu); reflexivity.
Qed.

(** X22. The status is monotone in the facts: when every minimum that the
    first machine meets is met by the second, and the second has a GPU
    without a warning whenever the first has one, the status of the second is
    at least the status of the first in the order FAILED, PASSED_WITH_WARNINGS,
    PASSED.  Meeting one more minimum or adding a card never lowers the
    verdict. *)
Theorem status_is_monotone
    (cpu cpu' : CPUInfo.t) (memory memory' : MemoryInfo.t)
    (gpu gpu' : option GPUInfo.t) (storage storage' : StorageInfo.t)
    (now now' : string) :
  (CPUInfo.meets_minimum cpu = true -> CPUInfo.meets_minimum cpu' = true) ->
  (MemoryInfo.meets_minimum memory = true ->
   MemoryInfo.meets_minimum memory' = true) ->
  (StorageInfo.meets_minimum storage = true ->
   StorageInfo.meets_minimum storage' = true) ->
  (gpu_without_warning gpu = true -> gpu_without_warning gpu' = true) ->
  (status_rank (SystemReport.overall_status
                  (validate_facts cpu memory gpu storage now)) <=
   status_rank (SystemReport.overall_status
                  (validate_facts cpu' memory' gpu' storage' now')))%nat.
Proof.
  intros Hcpu Hmem Hsto Hgpu. rewrite !validate_facts_rank.
  destruct (CPUInfo.meets_minimum cpu); [rewrite (Hcpu eq_refl) | cbn; lia].
  destruct (MemoryInfo.meets_minimum memory); [rewrite (Hmem eq_refl) | cbn; lia].
  destruct (StorageInfo.meets_minimum storage); [rewrite (Hsto eq_refl) | cbn; lia].
  cbn [andb].
  destruct (gpu_without_warning gpu); [rewrite (Hgpu eq_refl); lia |].
  destruct (gpu_without_warning gpu'); lia.
Qed.

End SystemValidator.

(** * The floats of the reference runtime

  [repr] writes the shortest decimal that lies in the rounding interval of
  the float, and [float] returns the float nearest to a decimal: what is
  written is read back as the float it was written for. *)

(** ** Rounding a ratio *)
Lemma scaled_pos (n m e : Z) :
  0 < n -> 0 < m -> 0 < fst (Ref.scaled n m e) /\ 0 < snd (Ref.scaled n m e).
Proof.
  intros Hn Hm. unfold Ref.scaled. destruct (Z.leb_spec 0 e) as [He|He]; cbn [fst snd].
  - split; [exact Hn |]. apply Z.mul_pos_pos; [exact Hm |]. apply Z.pow_pos_nonneg; lia.
  - split; [| exact Hm]. apply Z.mul_pos_pos; [exact Hn |]. apply Z.pow_pos_nonneg; lia.
Qed.

(** [n / (m * 2^e)] and [n / (m * 2^(e + d))] differ by the factor [2^d]. *)
Lemma scaled_shift (n m e d : Z) :
  0 <= d ->
  fst (Ref.scaled n m e) * snd (Ref.scaled n m (e + d))
    = fst (Ref.scaled n m (e + d)) * snd (Ref.scaled n m e) * 2 ^ d.
Proof.
  intros Hd. unfold Ref.scaled.
  destruct (Z.leb_spec 0 e) as [He|He], (Z.leb_spec 0 (e + d)) as [Hed|Hed];
    cbn [fst snd]; try lia.
  - rewrite Z.pow_add_r by lia. ring.
  - replace (2 ^ d) with (2 ^ (- e) * 2 ^ (e + d))
      by (rewrite <- Z.pow_add_r by lia; f_equal; lia). ring.
  - replace (- e) with (- (e + d) + d) by lia. rewrite Z.pow_add_r by lia. ring.
Qed.

Lemma round_half_even_nearest (a b t : Z) :
  0 < b ->
  (2 * t - 1) * b <= 2 * a <= (2 * t + 1) * b ->
  (Z.even t = true \/ (2 * t - 1) * b < 2 * a < (2 * t + 1) * b) ->
  Ref.round_half_even a b = t.
Proof.
  intros Hb Hrange Htie. unfold Ref.round_half_even.
  pose proof (Z.div_mod a b ltac:(lia)) as Hdiv.
  pose proof (Z.mod_pos_bound a b Hb) as Hmod.
  set (q := a / b) in *. set (r := a mod b) in *.
  assert (Hq : q = t \/ q = t - 1) by nia.
  destruct (Z.compare_spec (2 * r) b) as [Heq|Hlt|Hgt].
  - destruct Hq as [->| ->].
    + destruct Htie as [He|Hs]; [rewrite He; reflexivity | nia].
    + destruct Htie as [He|Hs]; [| nia].
      replace (Z.even (t - 1)) with false; [lia |].
      rewrite Z.even_sub, He. reflexivity.
  - destruct Hq as [->| ->]; [reflexivity | nia].
  - destruct Hq as [->| ->]; [nia | lia].
Qed.


Lemma pow2_lt_exponent (x y : Z) : 0 <= y -> 2 ^ x < 2 ^ y -> x < y.
Proof. intros Hy H. apply (Z.pow_lt_mono_r_iff 2 x y); [lia | exact Hy | exact H]. Qed.

(** The difference of the binary logarithms against the ratio. *)
Lemma log2_difference_lower (n m t : Z) :
  0 < n -> 0 < m ->
  snd (Ref.scaled n m t) <= fst (Ref.scaled n m t) -> t <= Z.log2 n - Z.log2 m.
Proof.
  intros Hn Hm. unfold Ref.scaled.
  pose proof (Z.log2_spec n Hn) as [Hn1 Hn2].
  pose proof (Z.log2_spec m Hm) as [Hm1 Hm2].
  pose proof (Z.log2_nonneg n) as Hln. pose proof (Z.log2_nonneg m) as Hlm.
  destruct (Z.leb_spec 0 t) as [Ht|Ht]; cbn [fst snd]; intros H.
  - assert (2 ^ (Z.log2 m + t) < 2 ^ Z.succ (Z.log2 n)).
    { rewrite Z.pow_add_r by lia.
      assert (0 < 2 ^ t) by (apply Z.pow_pos_nonneg; lia). nia. }
    apply pow2_lt_exponent in H0; lia.
  - assert (2 ^ Z.log2 m < 2 ^ (Z.succ (Z.log2 n) + - t)).
    { rewrite Z.pow_add_r by lia.
      assert (0 < 2 ^ (- t)) by (apply Z.pow_pos_nonneg; lia). nia. }
    apply pow2_lt_exponent in H0; lia.
Qed.

Lemma log2_difference_upper (n m t : Z) :
  0 < n -> 0 < m ->
  fst (Ref.scaled n m t) < snd (Ref.scaled n m t) -> Z.log2 n - Z.log2 m <= t.
Proof.
  intros Hn Hm. unfold Ref.scaled.
  pose proof (Z.log2_spec n Hn) as [Hn1 Hn2].
  pose proof (Z.log2_spec m Hm) as [Hm1 Hm2].
  pose proof (Z.log2_nonneg n) as Hln. pose proof (Z.log2_nonneg m) as Hlm.
  destruct (Z.leb_spec 0 t) as [Ht|Ht]; cbn [fst snd]; intros H.
  - assert (2 ^ Z.log2 n < 2 ^ (Z.succ (Z.log2 m) + t)).
    { rewrite Z.pow_add_r by lia.
      assert (0 < 2 ^ t) by (apply Z.pow_pos_nonneg; lia). nia. }
    apply pow2_lt_exponent in H0; lia.
  - assert (2 ^ (Z.log2 n + - t) < 2 ^ Z.succ (Z.log2 m)).
    { rewrite Z.pow_add_r by lia.
      assert (0 < 2 ^ (- t)) by (apply Z.pow_pos_nonneg; lia). nia. }
    apply pow2_lt_exponent in H0; lia.
Qed.

Lemma floor_log2_lower (n m t : Z) :
  0 < n -> 0 < m ->
  snd (Ref.scaled n m t) <= fst (Ref.scaled n m t) -> t <= Ref.floor_log2 n m.
Proof.
  intros Hn Hm H. pose proof (log2_difference_lower n m t Hn Hm H) as Hl.
  unfold Ref.floor_log2.
  destruct (Ref.scaled n m (Z.log2 n - Z.log2 m)) as [a b] eqn:Hs.
  destruct (Z.ltb_spec a b) as [Hlt|Hge]; [| exact Hl].
  destruct (Z.eq_dec t (Z.log2 n - Z.log2 m)) as [->|Hne]; [| lia].
  rewrite Hs in H. cbn [fst snd] in H. lia.
Qed.

Lemma floor_log2_upper (n m t : Z) :
  0 < n -> 0 < m ->
  fst (Ref.scaled n m t) < snd (Ref.scaled n m t) -> Ref.floor_log2 n m < t.
Proof.
  intros Hn Hm H. pose proof (log2_difference_upper n m t Hn Hm H) as Hl.
  unfold Ref.floor_log2.
  destruct (Ref.scaled n m (Z.log2 n - Z.log2 m)) as [a b] eqn:Hs.
  destruct (Z.ltb_spec a b) as [Hlt|Hge]; [lia |].
  destruct (Z.eq_dec t (Z.log2 n - Z.log2 m)) as [->|Hne]; [| lia].
  rewrite Hs in H. cbn [fst snd] in H. lia.
Qed.

Lemma nearest_rounds (s : bool) (n m e c : Z) :
  0 < n ->
  Z.max (Ref.floor_log2 n m - 52) (-1074) = e ->
  Ref.round_half_even (fst (Ref.scaled n m e)) (snd (Ref.scaled n m e)) = c ->
  Ref.nearest s n m =
    let '(c, e) := if c =? 2 ^ 53 then (2 ^ 52, e + 1) else (c, e) in
    if c =? 0 then S754_zero s
    else if 971 <? e then S754_infinity s
    else S754_finite s (Z.to_pos c) e.
Proof.
  intros Hn He Hc. unfold Ref.nearest.
  destruct (Z.eqb_spec n 0) as [->|_]; [lia |].
  rewrite He. destruct (Ref.scaled n m e) as [a b]. cbn [fst snd] in Hc.
  rewrite Hc. reflexivity.
Qed.

Theorem nearest_within (s : bool) (mx : positive) (ex n m : Z) :
  canonical mx ex -> 0 < n -> 0 < m -> within mx ex n m ->
  Ref.nearest s n m = S754_finite s mx ex.
Proof.
  intros Hcan Hn Hm Hin. unfold within in Hin. cbv zeta in Hin.
  pose proof (scaled_pos n m (ex - 2) Hn Hm) as [Ha Hb].
  set (a := fst (Ref.scaled n m (ex - 2))) in *.
  set (b := snd (Ref.scaled n m (ex - 2))) in *.
  assert (P52 : 2 ^ 52 = 4503599627370496) by reflexivity.
  assert (P53 : 2 ^ 53 = 9007199254740992) by reflexivity.
  (* the ratio at the scales that matter *)
  pose proof (scaled_shift n m (ex - 2) 2 ltac:(lia)) as S2.
  pose proof (scaled_shift n m (ex - 2) 1 ltac:(lia)) as S1.
  pose proof (scaled_shift n m (ex - 2) 53 ltac:(lia)) as S53.
  pose proof (scaled_shift n m (ex - 2) 54 ltac:(lia)) as S54.
  pose proof (scaled_shift n m (ex - 2) 55 ltac:(lia)) as S55.
  replace (ex - 2 + 2) with ex in S2 by lia.
  replace (ex - 2 + 1) with (ex - 1) in S1 by lia.
  replace (ex - 2 + 53) with (ex + 51) in S53 by lia.
  replace (ex - 2 + 54) with (ex + 52) in S54 by lia.
  replace (ex - 2 + 55) with (ex + 53) in S55 by lia.
  fold a b in S1, S2, S53, S54, S55.
  pose proof (scaled_pos n m ex Hn Hm) as [Ha2 Hb2].
  pose proof (scaled_pos n m (ex - 1) Hn Hm) as [Ha1 Hb1].
  pose proof (scaled_pos n m (ex + 51) Hn Hm) as [Ha53 Hb53].
  pose proof (scaled_pos n m (ex + 52) Hn Hm) as [Ha54 Hb54].
  pose proof (scaled_pos n m (ex + 53) Hn Hm) as [Ha55 Hb55].
  change (2 ^ 2) with 4 in S2. change (2 ^ 1) with 2 in S1.
  change (2 ^ 53) with 9007199254740992 in S53.
  change (2 ^ 54) with 18014398509481984 in S54.
  change (2 ^ 55) with 36028797018963968 in S55.
  destruct Hin as [Hrange Htie].
  set (a2 := fst (Ref.scaled n m ex)) in *. set (b2 := snd (Ref.scaled n m ex)) in *.
  set (a1 := fst (Ref.scaled n m (ex - 1))) in *. set (b1 := snd (Ref.scaled n m (ex - 1))) in *.
  set (a53 := fst (Ref.scaled n m (ex + 51))) in *.
  set (b53 := snd (Ref.scaled n m (ex + 51))) in *.
  set (a54 := fst (Ref.scaled n m (ex + 52))) in *.
  set (b54 := snd (Ref.scaled n m (ex + 52))) in *.
  set (a55 := fst (Ref.scaled n m (ex + 53))) in *.
  set (b55 := snd (Ref.scaled n m (ex + 53))) in *.
  set (L := if (Z.pos mx =? 2 ^ 52) && negb (ex =? -1074)
            then 4 * Z.pos mx - 1 else 4 * Z.pos mx - 2) in *.
  assert (HL : 4 * Z.pos mx - 2 <= L <= 4 * Z.pos mx - 1)
    by (subst L; destruct ((Z.pos mx =? 2 ^ 52) && negb (ex =? -1074)); lia).
  assert (Hbb2 : 0 < b * b2) by (apply Z.mul_pos_pos; assumption).
  (* at the scale of the float the ratio rounds to its mantissa *)
  assert (Hmx : Ref.round_half_even a2 b2 = Z.pos mx).
  { apply round_half_even_nearest; [exact Hb2 | |].
    - split.
      + apply (Z.mul_le_mono_pos_l _ _ (2 * b)); [lia |].
        transitivity (L * b * b2); [nia |].
        transitivity (a * b2); [nia | lia].
      + apply (Z.mul_le_mono_pos_l _ _ (2 * b)); [lia |].
        transitivity (a * b2); [lia |]. nia.
    - destruct Htie as [He|Hs]; [left; exact He | right].
      split.
      + apply (Z.mul_lt_mono_pos_l (2 * b)); [lia |].
        apply Z.le_lt_trans with (L * b * b2); [nia |].
        apply Z.lt_le_trans with (a * b2); [nia | lia].
      + apply (Z.mul_lt_mono_pos_l (2 * b)); [lia |].
        apply Z.le_lt_trans with (a * b2); [lia |]. nia. }
  assert (Hfinal : forall fl, Z.max (fl - 52) (-1074) = ex -> Ref.floor_log2 n m = fl ->
            Ref.nearest s n m = S754_finite s mx ex).
  { intros fl He Hfl. rewrite (nearest_rounds s n m ex (Z.pos mx) Hn);
      [| rewrite Hfl; exact He | exact Hmx].
    destruct (Z.eqb_spec (Z.pos mx) (2 ^ 53)) as [H53|_]; [destruct Hcan; lia |].
    destruct (Z.eqb_spec (Z.pos mx) 0) as [H0|_]; [lia |].
    destruct (Z.ltb_spec 971 ex) as [Hex|_]; [destruct Hcan; lia |].
    reflexivity. }
  assert (H54 : a < 18014398509481984 * b -> a54 < b54).
  { intros Hlt. apply (Z.mul_lt_mono_pos_l (b * 18014398509481984)); [lia |].
    replace (b * 18014398509481984 * a54) with (a * b54) by lia.
    replace (b * 18014398509481984 * b54) with (18014398509481984 * b * b54) by ring.
    apply Z.mul_lt_mono_pos_r; assumption. }
  destruct Hcan as [[Hnorm Hex]|[Hsub Hex]].
  - destruct (Z.le_gt_cases (18014398509481984 * b) a) as [Hbig|Hsmall].
    + (* the ratio is at least 2^52 units *)
      apply (Hfinal (ex + 52)); [lia |].
      apply Z.le_antisymm.
      * assert (Ref.floor_log2 n m < ex + 53); [| lia].
        apply floor_log2_upper; [assumption .. |]. fold a55 b55.
        apply (Z.mul_lt_mono_pos_l (b * 36028797018963968)); [lia |].
        replace (b * 36028797018963968 * a55) with (a * b55) by lia.
        replace (b * 36028797018963968 * b55) with (36028797018963968 * b * b55) by ring.
        apply Z.mul_lt_mono_pos_r; [assumption | nia].
      * apply floor_log2_lower; [assumption .. |]. fold a54 b54.
        apply (Z.mul_le_mono_pos_l _ _ (b * 18014398509481984)); [lia |].
        replace (b * 18014398509481984 * a54) with (a * b54) by lia.
        replace (b * 18014398509481984 * b54) with (18014398509481984 * b * b54) by ring.
        apply Z.mul_le_mono_nonneg_r; lia.
    + (* just below a power of two *)
      assert (Hpow : Z.pos mx = 2 ^ 52) by nia.
      assert (Hfl : Ref.floor_log2 n m = ex + 51).
      { apply Z.le_antisymm.
        - assert (Ref.floor_log2 n m < ex + 52); [| lia].
          apply floor_log2_upper; [assumption .. |]. apply H54. exact Hsmall.
        - apply floor_log2_lower; [assumption .. |]. fold a53 b53.
          apply (Z.mul_le_mono_pos_l _ _ (b * 9007199254740992)); [lia |].
          replace (b * 9007199254740992 * a53) with (a * b53) by lia.
          replace (b * 9007199254740992 * b53) with (9007199254740992 * b * b53) by ring.
          apply Z.mul_le_mono_nonneg_r; [lia | nia]. }
      destruct (Z.eq_dec ex (-1074)) as [Hmin|Hmin].
      * apply (Hfinal (ex + 51)); [lia | exact Hfl].
      * assert (HLv : L = 4 * Z.pos mx - 1).
        { subst L. rewrite Hpow. change (2 ^ 52 =? 2 ^ 52) with true.
          destruct (Z.eqb_spec ex (-1074)); [contradiction | reflexivity]. }
        rewrite (nearest_rounds s n m (ex - 1) (2 ^ 53) Hn); [| rewrite Hfl; lia |].
        -- change (2 ^ 53 =? 2 ^ 53) with true. cbv iota beta.
           change (2 ^ 52 =? 0) with false. cbv iota.
           replace (ex - 1 + 1) with ex by lia.
           destruct (Z.ltb_spec 971 ex) as [Hbad|_]; [lia |].
           f_equal. apply Pos2Z.inj. rewrite Hpow. reflexivity.
        -- fold a1 b1. apply round_half_even_nearest; [exact Hb1 | | left; reflexivity].
           rewrite P53. split.
           ++ apply (Z.mul_le_mono_pos_l _ _ b); [lia |].
              transitivity (L * b * b1); [nia |].
              transitivity (a * b1); [nia | lia].
           ++ apply (Z.mul_le_mono_pos_l _ _ b); [lia |].
              transitivity (a * b1); [lia |]. nia.
  - (* a subnormal float *)
    assert (Hfl : Ref.floor_log2 n m < ex + 52).
    { apply floor_log2_upper; [assumption .. |]. apply H54. nia. }
    apply (Hfinal (Ref.floor_log2 n m)); [lia | reflexivity].
Qed.

(** ** The shortest decimal *)

Lemma grid_pos (s2 q : Z) : 0 < Ref.grid_A s2 q /\ 0 < Ref.grid_B s2 q.
Proof.
  unfold Ref.grid_A, Ref.grid_B.
  split; apply Z.mul_pos_pos; apply Z.pow_pos_nonneg; lia.
Qed.

Lemma lowest_spec (L s2 : Z) (closed : bool) (q : Z) :
  let A := Ref.grid_A s2 q in
  let B := Ref.grid_B s2 q in
  L * A <= Ref.lowest L s2 closed q * B <= L * A + B /\
  (closed = false -> L * A < Ref.lowest L s2 closed q * B).
Proof.
  intros A B. pose proof (grid_pos s2 q) as [HA HB]. fold A B in HA, HB.
  unfold Ref.lowest. fold A B.
  pose proof (Z.div_mod (L * A) B ltac:(lia)) as Hdm.
  pose proof (Z.mod_pos_bound (L * A) B HB) as Hmod.
  pose proof (Z.div_mod (L * A + B - 1) B ltac:(lia)) as Hdm'.
  pose proof (Z.mod_pos_bound (L * A + B - 1) B HB) as Hmod'.
  set (c := (L * A + B - 1) / B) in *. set (f := (L * A) / B) in *.
  set (r := (L * A) mod B) in *. set (r' := (L * A + B - 1) mod B) in *.
  assert (Hc : r = 0 /\ c = f \/ 0 < r /\ c = f + 1) by nia.
  destruct closed.
  - split; [nia | discriminate].
  - destruct (Z.eqb_spec r 0) as [Hr|Hr]; split; try nia; intros _; nia.
Qed.

Lemma highest_spec (H s2 : Z) (closed : bool) (q : Z) :
  let A := Ref.grid_A s2 q in
  let B := Ref.grid_B s2 q in
  H * A - B <= Ref.highest H s2 closed q * B <= H * A /\
  (closed = false -> Ref.highest H s2 closed q * B < H * A).
Proof.
  intros A B. pose proof (grid_pos s2 q) as [HA HB]. fold A B in HA, HB.
  unfold Ref.highest. fold A B.
  pose proof (Z.div_mod (H * A) B ltac:(lia)) as Hdm.
  pose proof (Z.mod_pos_bound (H * A) B HB) as Hmod.
  set (f := (H * A) / B) in *. set (r := (H * A) mod B) in *.
  destruct closed.
  - split; [nia | discriminate].
  - destruct (Z.eqb_spec r 0) as [Hr|Hr]; split; try nia; intros _; nia.
Qed.

(** What the search returns lies in the interval, when it returns
    something. *)
Lemma shortest_search_sound (fuel : nat) (L V H s2 : Z) (closed : bool) (q d q' : Z) :
  0 < L ->
  Ref.shortest_search fuel L V H s2 closed q = (d, q') -> d <> 0 ->
  0 < d /\
  L * Ref.grid_A s2 q' <= d * Ref.grid_B s2 q' <= H * Ref.grid_A s2 q' /\
  (closed = true \/
   L * Ref.grid_A s2 q' < d * Ref.grid_B s2 q' < H * Ref.grid_A s2 q').
Proof.
  intros HL. revert q. induction fuel as [|fuel IH]; intros q Hs Hd;
    cbn [Ref.shortest_search] in Hs; cbv zeta in Hs;
    (destruct (Z.leb_spec (Ref.lowest L s2 closed q) (Ref.highest H s2 closed q)) as [Hle|Hgt];
     [| first [ injection Hs as <- <-; contradiction | exact (IH _ Hs Hd) ] ]).
  all: injection Hs as <- <-.
  all: pose proof (grid_pos s2 q) as [HA HB].
  all: pose proof (lowest_spec L s2 closed q) as [Hlo Hlo'].
  all: pose proof (highest_spec H s2 closed q) as [Hhi Hhi'].
  all: cbv zeta in Hlo, Hlo', Hhi, Hhi'.
  all: set (c := Ref.round_half_even (V * Ref.grid_A s2 q) (Ref.grid_B s2 q)) in *.
  all: set (lo := Ref.lowest L s2 closed q) in *; set (hi := Ref.highest H s2 closed q) in *.
  all: assert (Hr : lo <= Z.min hi (Z.max lo c) <= hi) by lia.
  all: set (d := Z.min hi (Z.max lo c)) in *.
  all: assert (Hlo1 : 0 < lo) by nia.
  all: split; [lia |]; split; [nia |].
  all: destruct closed; [left; reflexivity | right];
       specialize (Hlo' eq_refl); specialize (Hhi' eq_refl); nia.
Qed.

(** The search succeeds once the grid is as fine as the unit. *)
Lemma shortest_search_finds (fuel : nat) (L V H s2 : Z) (closed : bool) (q : Z) :
  0 < L -> L + 3 <= H ->
  Ref.grid_B s2 (q - Z.of_nat fuel) <= Ref.grid_A s2 (q - Z.of_nat fuel) ->
  fst (Ref.shortest_search fuel L V H s2 closed q) <> 0.
Proof.
  intros HL HH. revert q. induction fuel as [|fuel IH]; intros q Hfine;
    cbn [Ref.shortest_search]; cbv zeta;
    destruct (Z.leb_spec (Ref.lowest L s2 closed q) (Ref.highest H s2 closed q)) as [Hle|Hgt].
  1,3: cbn [fst];
       pose proof (grid_pos s2 q) as [HA HB];
       pose proof (lowest_spec L s2 closed q) as [Hlo _]; cbv zeta in Hlo;
       assert (0 < Ref.lowest L s2 closed q) by nia; lia.
  - exfalso. replace (q - Z.of_nat 0) with q in Hfine by lia.
    pose proof (grid_pos s2 q) as [HA HB].
    pose proof (lowest_spec L s2 closed q) as [Hlo _].
    pose proof (highest_spec H s2 closed q) as [Hhi _].
    cbv zeta in Hlo, Hhi. nia.
  - apply IH. replace (q - 1 - Z.of_nat fuel) with (q - Z.of_nat (S fuel)) by lia.
    exact Hfine.
Qed.

Lemma all_from_spec (f : Z -> bool) (n : nat) (z k : Z) :
  all_from f n z = true -> z <= k < z + Z.of_nat n -> f k = true.
Proof.
  revert z. induction n as [|n IH]; intros z H Hk; [lia |].
  cbn [all_from] in H. apply andb_prop in H as [Hz H].
  destruct (Z.eq_dec k z) as [->|Hne]; [exact Hz |].
  apply (IH (z + 1) H). lia.
Qed.

Lemma fine_everywhere : all_from fine_enough 2046 (-1076) = true.
Proof. vm_compute. reflexivity. Qed.

Lemma grid_finer (s2 q1 q2 : Z) :
  q1 <= q2 -> Ref.grid_B s2 q2 <= Ref.grid_A s2 q2 -> Ref.grid_B s2 q1 <= Ref.grid_A s2 q1.
Proof.
  intros Hq H. unfold Ref.grid_A, Ref.grid_B in *.
  assert (HA : 10 ^ Z.max (- q2) 0 <= 10 ^ Z.max (- q1) 0)
    by (apply Z.pow_le_mono_r; lia).
  assert (HB : 10 ^ Z.max q1 0 <= 10 ^ Z.max q2 0)
    by (apply Z.pow_le_mono_r; lia).
  assert (0 < 2 ^ Z.max s2 0) by (apply Z.pow_pos_nonneg; lia).
  assert (0 < 2 ^ Z.max (- s2) 0) by (apply Z.pow_pos_nonneg; lia).
  nia.
Qed.

Lemma fine_enough_canonical (s2 : Z) :
  -1076 <= s2 <= 969 -> fine_enough s2 = true.
Proof.
  intros Hs2. apply (all_from_spec fine_enough 2046 (-1076) s2 fine_everywhere).
  lia.
Qed.

Lemma shortest_found (m : positive) (e : Z) :
  canonical m e -> fst (Ref.shortest m e) <> 0.
Proof.
  intros Hcan. unfold Ref.shortest.
  set (L := if (Z.pos m =? 2 ^ 52) && negb (e =? -1074)
            then 4 * Z.pos m - 1 else 4 * Z.pos m - 2).
  assert (HL : 4 * Z.pos m - 2 <= L <= 4 * Z.pos m - 1)
    by (subst L; destruct ((Z.pos m =? 2 ^ 52) && negb (e =? -1074)); lia).
  apply shortest_search_finds; [lia | lia |].
  assert (Hlog : Z.log2 (4 * Z.pos m + 2) <= 54).
  { assert (Z.log2 (4 * Z.pos m + 2) < 55); [| lia].
    apply Z.log2_lt_pow2; [lia |].
    change (2 ^ 55) with 36028797018963968.
    assert (Z.pos m < 2 ^ 53) by (destruct Hcan as [[? ?]|[? ?]]; lia).
    change (2 ^ 53) with 9007199254740992 in *. lia. }
  assert (He : -1076 <= e - 2 <= 969) by (destruct Hcan as [[? ?]|[? ?]]; lia).
  pose proof (fine_enough_canonical _ He) as Hfine.
  unfold fine_enough in Hfine. apply Z.leb_le in Hfine.
  refine (grid_finer _ _ _ _ Hfine).
  change (Z.of_nat 40) with 40. unfold first_exponent.
  assert ((Z.log2 (4 * Z.pos m + 2) + (e - 2) + 1) * 30103 / 100000
          <= (54 + (e - 2) + 1) * 30103 / 100000); [| lia].
  apply Z.div_le_mono; lia.
Qed.

(** ** Texts of numbers *)

(** *** Digits *)

Lemma decimal_value_digits (acc : Z) (s : string) :
  Ref.decimal_value acc s = digits_value acc s.
Proof. revert acc. induction s as [|c s IH]; intros acc; [reflexivity | apply IH]. Qed.

Lemma digits_value_zeros (acc : Z) (n : nat) :
  digits_value acc (Ref.zeros n) = acc * 10 ^ Z.of_nat n.
Proof.
  revert acc. induction n as [|n IH]; intros acc.
  - cbn. lia.
  - cbn [Ref.zeros digits_value]. rewrite IH.
    change (digit_value "0") with 0.
    rewrite Nat2Z.inj_succ, Z.pow_succ_r by lia. ring.
Qed.

Lemma all_digits_zeros (n : nat) : all_digits (Ref.zeros n) = true.
Proof. induction n as [|n IH]; [reflexivity | exact IH]. Qed.

Lemma length_zeros (n : nat) : String.length (Ref.zeros n) = n.
Proof. induction n as [|n IH]; [reflexivity | cbn; rewrite IH; reflexivity]. Qed.

Lemma span_digits_stop (ds rest : string) :
  all_digits ds = true -> stops_digits rest = true ->
  span_digits (ds +:+ rest) = (ds, rest).
Proof.
  intros Hds Hrest. induction ds as [|c ds IH].
  - rewrite append_nil_l. destruct rest as [|c rest]; [reflexivity |].
    cbn [stops_digits] in Hrest. cbn [span_digits].
    destruct (is_digit c); [discriminate | reflexivity].
  - cbn in Hds. apply andb_prop in Hds as [Hc Hds].
    change (String c ds +:+ rest) with (String c (ds +:+ rest)).
    cbn [span_digits]. rewrite Hc, (IH Hds). reflexivity.
Qed.

Lemma substring_whole (s : string) : String.substring 0 (String.length s) s = s.
Proof. induction s as [|c s IH]; [reflexivity |]. cbn. rewrite IH. reflexivity. Qed.

(** Cutting a text in two. *)
Lemma take_drop (n : nat) (s : string) :
  (n <= String.length s)%nat ->
  Ref.str_take n s +:+ Ref.str_drop n s = s /\
  String.length (Ref.str_take n s) = n.
Proof.
  unfold Ref.str_take, Ref.str_drop. revert s.
  induction n as [|n IH]; intros s Hn.
  - rewrite Nat.sub_0_r, substring_whole.
    split; [| destruct s; reflexivity].
    destruct s; reflexivity.
  - destruct s as [|c s]; [cbn in Hn; lia |].
    cbn [String.length] in Hn |- *.
    destruct (IH s ltac:(lia)) as [Heq Hlen].
    cbn [String.substring]. replace (S (String.length s) - S n)%nat
      with (String.length s - n)%nat by lia.
    change (String c (String.substring 0 n s) +:+
            String.substring n (String.length s - n) s)
      with (String c (String.substring 0 n s +:+
                      String.substring n (String.length s - n) s)).
    rewrite Heq. cbn [String.length]. rewrite Hlen. split; reflexivity.
Qed.

Lemma lacks_app (sep1 sep2 : ascii) (a b : string) :
  lacks sep1 sep2 (a +:+ b) = lacks sep1 sep2 a && lacks sep1 sep2 b.
Proof.
  induction a as [|c a IH]; [reflexivity |].
  change (String c a +:+ b) with (String c (a +:+ b)).
  cbn [lacks]. rewrite IH, andb_assoc. reflexivity.
Qed.

Lemma digits_lack (sep1 sep2 : ascii) (s : string) :
  is_digit sep1 = false -> is_digit sep2 = false ->
  all_digits s = true -> lacks sep1 sep2 s = true.
Proof.
  intros H1 H2. induction s as [|c s IH]; intros Hs; [reflexivity |].
  cbn in Hs. apply andb_prop in Hs as [Hc Hs]. cbn [lacks]. rewrite (IH Hs), andb_true_r.
  destruct (Ascii.eqb_spec c sep1) as [->|_]; [congruence |].
  destruct (Ascii.eqb_spec c sep2) as [->|_]; [congruence | reflexivity].
Qed.

Lemma split_at_char_app (sep1 sep2 c : ascii) (a b : string) :
  lacks sep1 sep2 a = true -> Ascii.eqb c sep1 || Ascii.eqb c sep2 = true ->
  Ref.split_at_char sep1 sep2 (a +:+ String c b) = (a, b).
Proof.
  intros Ha Hc. induction a as [|x a IH].
  - rewrite append_nil_l.
    change (Ref.split_at_char sep1 sep2 (String c b))
      with (if Ascii.eqb c sep1 || Ascii.eqb c sep2 then (EmptyString, b)
            else let '(a, b') := Ref.split_at_char sep1 sep2 b in (String c a, b')).
    rewrite Hc. reflexivity.
  - cbn [lacks] in Ha. apply andb_prop in Ha as [Hx Ha].
    change (String x a +:+ String c b) with (String x (a +:+ String c b)).
    change (Ref.split_at_char sep1 sep2 (String x (a +:+ String c b)))
      with (if Ascii.eqb x sep1 || Ascii.eqb x sep2
            then (EmptyString, a +:+ String c b)
            else let '(a', b') := Ref.split_at_char sep1 sep2 (a +:+ String c b) in
                 (String x a', b')).
    apply negb_true_iff in Hx. rewrite Hx, (IH Ha). reflexivity.
Qed.

Lemma split_at_char_whole (sep1 sep2 : ascii) (a : string) :
  lacks sep1 sep2 a = true -> Ref.split_at_char sep1 sep2 a = (a, EmptyString).
Proof.
  intros Ha. induction a as [|x a IH]; [reflexivity |].
  cbn [lacks] in Ha. apply andb_prop in Ha as [Hx Ha].
  change (Ref.split_at_char sep1 sep2 (String x a))
    with (if Ascii.eqb x sep1 || Ascii.eqb x sep2 then (EmptyString, a)
          else let '(a', b') := Ref.split_at_char sep1 sep2 a in (String x a', b')).
  apply negb_true_iff in Hx. rewrite Hx, (IH Ha). reflexivity.
Qed.

(** *** The text of a number, read by [float] *)

Lemma digit_head_no_sign (c : ascii) (s : string) :
  is_digit c = true ->
  match String c s with
  | String "-" t => (true, t)
  | _ => (false, String c s)
  end = (false, String c s).
Proof.
  destruct c as [[] [] [] [] [] [] [] []]; try discriminate; reflexivity.
Qed.

Lemma digit_lacks_marks (c : ascii) :
  is_digit c = true ->
  Ascii.eqb c "e" = false /\ Ascii.eqb c "E" = false /\ Ascii.eqb c "." = false /\
  Ascii.eqb "-" c = false /\ Ascii.eqb "." c = false /\ Ascii.eqb "e" c = false /\
  Ascii.eqb "E" c = false /\ Ascii.eqb "+" c = false.
Proof.
  destruct c as [[] [] [] [] [] [] [] []]; try discriminate; repeat split; reflexivity.
Qed.

Lemma float_of_str_number (negative : bool) (ip fs : string)
    (ex : option (bool * string)) :
  all_digits ip = true -> ip <> "" -> all_digits fs = true ->
  Ref.float_of_str ((if negative then "-" else "") +:+ number_text ip fs ex) =
    let n := digits_value 0 (ip +:+ fs) in
    let q := exponent_value ex - Z.of_nat (String.length fs) in
    if 0 <=? q then Ref.float_of_ratio negative (n * 10 ^ q) 1
    else Ref.float_of_ratio negative n (10 ^ (- q)).
Proof.
  intros Hip Hne Hfs. unfold Ref.float_of_str.
  set (body := number_text ip fs ex).
  assert (Hsign :
    match (if negative then "-" else "") +:+ body with
    | String "-" t => (true, t)
    | _ => (false, (if negative then "-" else "") +:+ body)
    end = (negative, body)).
  { destruct negative; [reflexivity |]. rewrite append_nil_l.
    subst body. unfold number_text. destruct ip as [|c ip]; [contradiction |].
    cbn in Hip. apply andb_prop in Hip as [Hc _].
    change (String c ip +:+ ?x) with (String c (ip +:+ x)).
    apply digit_head_no_sign. exact Hc. }
  rewrite Hsign. clear Hsign.
  set (mant := ip +:+ (if is_empty fs then "" else "." +:+ fs)).
  assert (Hmant : lacks "e" "E" mant = true).
  { subst mant. rewrite lacks_app, (digits_lack "e" "E" ip eq_refl eq_refl Hip).
    destruct fs as [|f fs]; [reflexivity |]. cbn [is_empty].
    change ("." +:+ String f fs) with (String "." (String f fs)).
    cbn [lacks andb Ascii.eqb Bool.eqb orb negb].
    apply (digits_lack "e" "E" (String f fs) eq_refl eq_refl Hfs). }
  assert (Hsplit : Ref.split_at_char "e" "E" body
                   = (mant, match ex with
                            | None => ""
                            | Some (neg, es) => (if neg then "-" else "+") +:+ es
                            end)).
  { subst body. unfold number_text. rewrite <- append_assoc. fold mant.
    destruct ex as [[neg es]|].
    - change ("e" +:+ (if neg then "-" else "+") +:+ es)
        with (String "e" ((if neg then "-" else "+") +:+ es)).
      apply split_at_char_app; [exact Hmant | reflexivity].
    - rewrite append_nil_r. apply split_at_char_whole. exact Hmant. }
  rewrite Hsplit. clear Hsplit.
  assert (Hdot : Ref.split_at_char "." "." mant = (ip, fs)).
  { subst mant. destruct fs as [|f fs]; cbn [is_empty].
    - rewrite append_nil_r. apply split_at_char_whole.
      apply digits_lack; [reflexivity | reflexivity | exact Hip].
    - change ("." +:+ String f fs) with (String "." (String f fs)).
      apply split_at_char_app; [| reflexivity].
      apply digits_lack; [reflexivity | reflexivity | exact Hip]. }
  rewrite Hdot. clear Hdot.
  rewrite decimal_value_digits.
  assert (Hexp : Ref.signed_value
                   match ex with
                   | None => ""
                   | Some (neg, es) => (if neg then "-" else "+") +:+ es
                   end = exponent_value ex).
  { destruct ex as [[[] es]|]; cbn [exponent_value].
    - change ("-" +:+ es) with (String "-" es). cbn [Ref.signed_value].
      rewrite decimal_value_digits. reflexivity.
    - change ("+" +:+ es) with (String "+" es). cbn [Ref.signed_value].
      rewrite decimal_value_digits. reflexivity.
    - reflexivity. }
  rewrite Hexp. reflexivity.
Qed.

(** *** The text of a number, matched by the decoder *)

Lemma lex_integer_part (negative : bool) (ip tail : string) :
  integer_part ip -> stops_digits tail = true ->
  lex_integer ((if negative then "-" else "") +:+ ip +:+ tail)
    = Some ((if negative then "-" else "") +:+ ip, tail).
Proof.
  intros Hip Htail.
  assert (Hbody : forall sign : string,
            match strip_prefix "0" (ip +:+ tail) with
            | Some rest => Some (sign +:+ "0", rest)
            | None =>
                let '(ds, rest) := span_digits (ip +:+ tail) in
                if is_empty ds then None else Some (sign +:+ ds, rest)
            end = Some (sign +:+ ip, tail)).
  { intros sign. destruct Hip as [->|(c & ds & -> & Hc & Hc0 & Hds)].
    - reflexivity.
    - change (String c ds +:+ tail) with (String c (ds +:+ tail)).
      cbn [strip_prefix]. rewrite Hc0.
      change (String c (ds +:+ tail)) with (String c ds +:+ tail).
      rewrite span_digits_stop; [reflexivity | | exact Htail].
      cbn [all_digits]. rewrite Hc, Hds. reflexivity. }
  unfold lex_integer. destruct negative.
  - change (strip_prefix "-" ("-" +:+ ip +:+ tail)) with (Some (ip +:+ tail)).
    apply Hbody.
  - rewrite append_nil_l.
    assert (Hminus : strip_prefix "-" (ip +:+ tail) = None).
    { destruct Hip as [->|(c & ds & -> & Hc & _)]; [reflexivity |].
      change (String c ds +:+ tail) with (String c (ds +:+ tail)).
      cbn [strip_prefix].
      destruct (digit_lacks_marks c Hc) as (_ & _ & _ & -> & _). reflexivity. }
    rewrite Hminus. apply (Hbody "").
Qed.

Lemma match_number_text (float_of_str : string -> float) (negative : bool)
    (ip fs : string) (ex : option (bool * string)) :
  integer_part ip -> all_digits fs = true ->
  (forall (neg : bool) (es : string),
     ex = Some (neg, es) -> all_digits es = true /\ es <> "") ->
  fs <> "" \/ ex <> None ->
  let text := (if negative then "-" else "") +:+ number_text ip fs ex in
  match_number float_of_str text
    = Some (JFloat (float_of_str text), EmptyString).
Proof.
  intros Hip Hfs Hex Hfloat text. subst text. unfold match_number, number_text.
  set (sign := if negative then "-" else "").
  set (frac := if is_empty fs then "" else "." +:+ fs).
  set (exp := match ex with
              | None => ""
              | Some (neg, es) => "e" +:+ (if neg then "-" else "+") +:+ es
              end).
  assert (Hexp_stop : stops_digits exp = true)
    by (subst exp; destruct ex as [[neg es]|]; reflexivity).
  assert (Hfrac_stop : stops_digits (frac +:+ exp) = true).
  { subst frac. destruct fs; cbn [is_empty]; [rewrite append_nil_l; exact Hexp_stop |].
    reflexivity. }
  subst sign. rewrite (lex_integer_part negative ip (frac +:+ exp) Hip Hfrac_stop).
  cbn [mbind option_bind].
  assert (Hlex_frac : lex_frac (frac +:+ exp) = (frac, exp)).
  { unfold lex_frac. subst frac. destruct fs as [|f fs]; cbn [is_empty].
    - rewrite append_nil_l. subst exp. destruct ex as [[neg es]|]; reflexivity.
    - change (("." +:+ String f fs) +:+ exp) with (String "." (String f fs +:+ exp)).
      cbn [strip_prefix Ascii.eqb Bool.eqb].
      rewrite (span_digits_stop (String f fs) exp Hfs Hexp_stop). reflexivity. }
  rewrite Hlex_frac.
  assert (Hlex_exp : lex_exp exp = (exp, EmptyString)).
  { subst exp. destruct ex as [[neg es]|]; [| reflexivity].
    destruct (Hex neg es eq_refl) as [Hes Hne].
    assert (Hspan : span_digits es = (es, EmptyString)).
    { rewrite <- (append_nil_r es) at 1. apply span_digits_stop; [exact Hes | reflexivity]. }
    unfold lex_exp.
    change ("e" +:+ (if neg then "-" else "+") +:+ es)
      with (String "e" ((if neg then "-" else "+") +:+ es)).
    cbn [strip_prefix Ascii.eqb Bool.eqb].
    destruct neg.
    - change ("-" +:+ es) with (String "-" es).
      cbn [strip_prefix Ascii.eqb Bool.eqb]. rewrite Hspan.
      destruct es; [contradiction | reflexivity].
    - change ("+" +:+ es) with (String "+" es).
      cbn [strip_prefix Ascii.eqb Bool.eqb]. rewrite Hspan.
      destruct es; [contradiction | reflexivity]. }
  rewrite Hlex_exp.
  assert (Hnot : is_empty frac && is_empty exp = false).
  { destruct Hfloat as [Hf|He].
    - subst frac. destruct fs; [contradiction | reflexivity].
    - subst exp. destruct ex as [[neg es]|]; [| contradiction].
      apply andb_false_r. }
  rewrite Hnot, !append_assoc. reflexivity.
Qed.

(** *** The notations of [repr] *)

Lemma integer_part_digits (ip : string) :
  integer_part ip -> all_digits ip = true /\ ip <> "".
Proof.
  intros [->|(c & ds & -> & Hc & _ & Hds)]; [split; [reflexivity | discriminate] |].
  split; [| discriminate]. cbn [all_digits]. rewrite Hc, Hds. reflexivity.
Qed.

(** The decimal text of a positive integer. *)
Lemma pretty_positive (d : Z) :
  0 < d ->
  exists (c : ascii) (ds : string),
    pretty d = String c ds /\
    is_digit c = true /\ Ascii.eqb "0" c = false /\
    all_digits ds = true /\ digits_value 0 (String c ds) = d.
Proof.
  intros Hd. destruct d as [|p|p]; try lia.
  change (pretty (Z.pos p)) with (pretty (N.pos p)).
  destruct (pretty_N_shape (N.pos p)) as [[_ H]|H]; [discriminate H | exact H].
Qed.

Lemma pretty_nonnegative (z : Z) :
  0 <= z ->
  all_digits (pretty z) = true /\ pretty z <> "" /\ digits_value 0 (pretty z) = z.
Proof.
  intros Hz. destruct (Z.eq_dec z 0) as [->|Hne].
  - repeat split. discriminate.
  - destruct (pretty_positive z ltac:(lia)) as (c & ds & -> & Hc & _ & Hds & Hval).
    split; [cbn [all_digits]; rewrite Hc, Hds; reflexivity |].
    split; [discriminate | exact Hval].
Qed.

Lemma exponent_text_number (x : Z) :
  exists es : string,
    Ref.exponent_text x = (if x <? 0 then "-" else "+") +:+ es /\
    all_digits es = true /\ es <> "" /\
    exponent_value (Some (x <? 0, es)) = x.
Proof.
  destruct (pretty_nonnegative (Z.abs x) ltac:(lia)) as (Hds & Hne & Hval).
  exists ((if Z.abs x <? 10 then "0" else "") +:+ pretty (Z.abs x)).
  split; [reflexivity |]. split; [| split].
  - destruct (Z.abs x <? 10); [exact Hds | rewrite append_nil_l; exact Hds].
  - destruct (Z.abs x <? 10); [discriminate | rewrite append_nil_l; exact Hne].
  - cbn [exponent_value].
    assert (Hv : digits_value 0 ((if Z.abs x <? 10 then "0" else "") +:+ pretty (Z.abs x))
                 = Z.abs x).
    { destruct (Z.abs x <? 10); [exact Hval | rewrite append_nil_l; exact Hval]. }
    rewrite Hv. destruct (Z.ltb_spec x 0); lia.
Qed.

Lemma format_digits_number (d q : Z) :
  0 < d ->
  exists (ip fs : string) (ex : option (bool * string)),
    Ref.format_digits d q = number_text ip fs ex /\
    integer_part ip /\ all_digits fs = true /\
    (forall (neg : bool) (es : string),
       ex = Some (neg, es) -> all_digits es = true /\ es <> "") /\
    (fs <> "" \/ ex <> None) /\
    let n := digits_value 0 (ip +:+ fs) in
    let qq := exponent_value ex - Z.of_nat (String.length fs) in
    (n = d /\ qq = q) \/ (n = d * 10 ^ (q + 1) /\ qq = -1 /\ 0 <= q).
Proof.
  intros Hd. unfold Ref.format_digits.
  destruct (pretty_positive d Hd) as (c & ds & -> & Hc & Hc0 & Hds & Hval).
  set (k := Z.of_nat (String.length (String c ds))).
  assert (Hk : k = Z.of_nat (String.length ds) + 1)
    by (subst k; cbn [String.length]; lia).
  assert (Hall : all_digits (String c ds) = true)
    by (cbn [all_digits]; rewrite Hc, Hds; reflexivity).
  destruct ((k + q <=? -4) || (16 <? k + q)) eqn:Hsci.
  - (* one digit, the others behind the dot, and an exponent *)
    destruct (exponent_text_number (k + q - 1)) as (es & Hes & Hdig & Hne & Hev).
    exists (String c ""), ds, (Some (k + q - 1 <? 0, es)).
    assert (Htake : Ref.str_take 1 (String c ds) = String c "")
      by (unfold Ref.str_take; cbn [String.substring]; destruct ds; reflexivity).
    assert (Hdrop : Ref.str_drop 1 (String c ds) = ds).
    { unfold Ref.str_drop. cbn [String.length Nat.sub String.substring].
      rewrite Nat.sub_0_r. apply substring_whole. }
    split.
    { rewrite Htake, Hdrop, Hes. unfold number_text.
      destruct ds as [|x ds].
      - replace (k =? 1) with true by (symmetry; apply Z.eqb_eq; subst k; reflexivity).
        reflexivity.
      - replace (k =? 1) with false
          by (symmetry; apply Z.eqb_neq; subst k; cbn [String.length]; lia).
        cbn [is_empty]. rewrite !append_assoc. reflexivity. }
    split; [right; exists c, ""; repeat split; assumption |].
    split; [exact Hds |].
    split; [intros neg es' H; injection H as <- <-; split; assumption |].
    split; [right; discriminate |].
    left. split; [exact Hval |]. rewrite Hev. lia.
  - apply orb_false_iff in Hsci as [H1 H2].
    apply Z.leb_gt in H1. apply Z.ltb_ge in H2.
    destruct (Z.leb_spec (k + q) 0) as [Hneg|Hpos].
    + (* zeros behind the dot *)
      exists "0", (Ref.zeros (Z.to_nat (- (k + q))) +:+ String c ds), None.
      split.
      { unfold number_text.
        replace (is_empty (Ref.zeros (Z.to_nat (- (k + q))) +:+ String c ds)) with false
          by (destruct (Z.to_nat (- (k + q))); reflexivity).
        rewrite append_nil_r. reflexivity. }
      split; [left; reflexivity |].
      split; [rewrite all_digits_app, all_digits_zeros; exact Hall |].
      split; [discriminate |].
      split; [left; destruct (Z.to_nat (- (k + q))); discriminate |].
      left. split.
      * change ("0" +:+ ?x) with (String "0" x). cbn [digits_value].
        change (10 * 0 + digit_value "0") with 0.
        rewrite digits_value_app, digits_value_zeros. exact Hval.
      * cbn [exponent_value]. rewrite length_append, length_zeros.
        fold k. rewrite Nat2Z.inj_add, Z2Nat.id by lia.
        change (Z.of_nat (String.length (String c ds))) with k. lia.
    + destruct (Z.ltb_spec (k + q) k) as [Hin|Hout].
      * (* the dot inside the digits *)
        destruct (take_drop (Z.to_nat (k + q)) (String c ds)) as [Heq Hlen].
        { apply Nat2Z.inj_le. fold k. lia. }
        set (a := Ref.str_take (Z.to_nat (k + q)) (String c ds)) in *.
        set (b := Ref.str_drop (Z.to_nat (k + q)) (String c ds)) in *.
        assert (Hlenb : Z.of_nat (String.length b) = k - (k + q)).
        { subst k. rewrite <- Heq at 1. rewrite length_append, Hlen.
          rewrite Nat2Z.inj_add, Z2Nat.id by lia. lia. }
        assert (Hab : all_digits a = true /\ all_digits b = true).
        { apply andb_prop. rewrite <- all_digits_app, Heq. exact Hall. }
        destruct Hab as [Ha Hb].
        exists a, b, None.
        assert (Hbne : b <> "") by (intros E; rewrite E in Hlenb; cbn in Hlenb; lia).
        split.
        { unfold number_text. destruct b; [contradiction |].
          cbn [is_empty]. rewrite append_nil_r. reflexivity. }
        split.
        { right. destruct a as [|x a'].
          - cbn in Hlen. lia.
          - change (String x a' +:+ b) with (String x (a' +:+ b)) in Heq.
            injection Heq as -> Heq.
            exists c, a'. cbn [all_digits] in Ha. apply andb_prop in Ha as [_ Ha].
            repeat split; assumption. }
        split; [exact Hb |]. split; [discriminate |]. split; [left; exact Hbne |].
        left. split; [rewrite Heq; exact Hval |]. cbn [exponent_value]. lia.
      * (* zeros before the dot *)
        exists (String c ds +:+ Ref.zeros (Z.to_nat (k + q - k))), "0", None.
        split.
        { unfold number_text. cbn [is_empty]. rewrite append_nil_r, !append_assoc.
          reflexivity. }
        split.
        { right. exists c, (ds +:+ Ref.zeros (Z.to_nat (k + q - k))).
          split; [reflexivity |]. split; [exact Hc |]. split; [exact Hc0 |].
          rewrite all_digits_app, Hds, all_digits_zeros. reflexivity. }
        split; [reflexivity |]. split; [discriminate |]. split; [left; discriminate |].
        right. split; [| split; [reflexivity | lia]].
        rewrite !digits_value_app, Hval, digits_value_zeros.
        cbn [digits_value]. change (digit_value "0") with 0.
        rewrite Z2Nat.id by lia. replace (k + q - k) with q by lia.
        rewrite Z.pow_add_r by lia. change (10 ^ 1) with 10. ring.
Qed.

(** ** Every float reads back *)

Lemma valid_canonical (s : bool) (m : positive) (e : Z) :
  valid_binary (S754_finite s m e) = true -> canonical m e.
Proof.
  cbn [valid_binary]. unfold bounded, canonical_mantissa. intros H.
  apply andb_prop in H as [Hc He]. apply Z.eqb_eq in Hc. apply Z.leb_le in He.
  unfold fexp, emin, emax, prec in *.
  pose proof (digits2_pos_bounds m) as [Hlo Hhi].
  set (D := Z.pos (digits2_pos m)) in *.
  destruct (Z.le_gt_cases (3 - 1024 - 53) (D + e - 53)) as [Hn|Hs].
  - left. assert (HD : D = 53) by lia. rewrite HD in Hlo, Hhi.
    split; [split; [exact Hlo | exact Hhi] | lia].
  - right. split; [| lia].
    assert (2 ^ D <= 2 ^ 52) by (apply Z.pow_le_mono_r; lia). lia.
Qed.

Lemma scaled_grid (d q n m s2 : Z) :
  n * 10 ^ Z.max (- q) 0 = d * 10 ^ Z.max q 0 * m ->
  fst (Ref.scaled n m s2) * Ref.grid_A s2 q
    = d * Ref.grid_B s2 q * snd (Ref.scaled n m s2).
Proof.
  intros H. unfold Ref.scaled, Ref.grid_A, Ref.grid_B.
  destruct (Z.leb_spec 0 s2) as [Hs|Hs]; cbn [fst snd].
  - rewrite (Z.max_l s2 0), (Z.max_r (- s2) 0) by lia.
    change (2 ^ 0) with 1.
    transitivity (n * 10 ^ Z.max (- q) 0 * 2 ^ s2); [ring |]. rewrite H. ring.
  - rewrite (Z.max_r s2 0), (Z.max_l (- s2) 0) by lia.
    change (2 ^ 0) with 1.
    transitivity (n * 10 ^ Z.max (- q) 0 * 2 ^ (- s2)); [ring |]. rewrite H. ring.
Qed.

(** The decimal [repr] chooses lies in the interval of the float. *)
Lemma shortest_within (m : positive) (e d q n m' : Z) :
  canonical m e -> Ref.shortest m e = (d, q) -> decimal_ratio d q n m' ->
  0 < n /\ within m e n m'.
Proof.
  intros Hcan Hs [Hm' Hratio].
  pose proof (shortest_found m e Hcan) as Hfound. rewrite Hs in Hfound.
  cbn [fst] in Hfound. unfold Ref.shortest in Hs.
  set (L := if (Z.pos m =? 2 ^ 52) && negb (e =? -1074)
            then 4 * Z.pos m - 1 else 4 * Z.pos m - 2) in *.
  assert (HL : 4 * Z.pos m - 2 <= L <= 4 * Z.pos m - 1)
    by (subst L; destruct ((Z.pos m =? 2 ^ 52) && negb (e =? -1074)); lia).
  assert (HLpos : 0 < L) by lia.
  destruct (shortest_search_sound _ _ _ _ _ _ _ _ _ HLpos Hs Hfound)
    as (Hd & Hrange & Hstrict).
  pose proof (grid_pos (e - 2) q) as [HA HB].
  pose proof (scaled_grid d q n m' (e - 2) Hratio) as Hsg.
  assert (Hn : 0 < n).
  { assert (0 < 10 ^ Z.max (- q) 0) by (apply Z.pow_pos_nonneg; lia).
    assert (0 < 10 ^ Z.max q 0) by (apply Z.pow_pos_nonneg; lia).
    assert (0 < d * 10 ^ Z.max q 0 * m') by (repeat apply Z.mul_pos_pos; assumption).
    nia. }
  split; [exact Hn |].
  pose proof (scaled_pos n m' (e - 2) Hn Hm') as [Ha Hb].
  unfold within. cbv zeta. fold L.
  set (a := fst (Ref.scaled n m' (e - 2))) in *.
  set (b := snd (Ref.scaled n m' (e - 2))) in *.
  set (A := Ref.grid_A (e - 2) q) in *. set (B := Ref.grid_B (e - 2) q) in *.
  split.
  - split.
    + apply (Z.mul_le_mono_pos_r _ _ A); [exact HA |].
      rewrite Hsg. transitivity (L * A * b); [lia |].
      apply Z.mul_le_mono_nonneg_r; lia.
    + apply (Z.mul_le_mono_pos_r _ _ A); [exact HA |].
      rewrite Hsg. transitivity ((4 * Z.pos m + 2) * A * b); [| lia].
      apply Z.mul_le_mono_nonneg_r; lia.
  - destruct Hstrict as [He|Hs']; [left; exact He | right]. split.
    + apply (Z.mul_lt_mono_pos_r A); [exact HA |].
      rewrite Hsg. apply Z.le_lt_trans with (L * A * b); [lia |].
      apply Z.mul_lt_mono_pos_r; lia.
    + apply (Z.mul_lt_mono_pos_r A); [exact HA |].
      rewrite Hsg. apply Z.lt_le_trans with ((4 * Z.pos m + 2) * A * b); [| lia].
      apply Z.mul_lt_mono_pos_r; lia.
Qed.

Lemma within_float (x : float) (s : bool) (m : positive) (e n m' : Z) :
  Prim2SF x = S754_finite s m e -> 0 < n -> 0 < m' -> within m e n m' ->
  Ref.float_of_ratio s n m' = x.
Proof.
  intros Hx Hn Hm Hin.
  pose proof (Prim2SF_valid x) as Hvalid. rewrite Hx in Hvalid.
  unfold Ref.float_of_ratio.
  rewrite (nearest_within s m e n m' (valid_canonical s m e Hvalid) Hn Hm Hin).
  rewrite <- Hx. apply SF2Prim_Prim2SF.
Qed.

Lemma finite_not_named (x : float) (s : bool) (m : positive) (e : Z) :
  Prim2SF x = S754_finite s m e ->
  is_nan x = false /\ (x =? infinity)%float = false /\
  (x =? neg_infinity)%float = false.
Proof.
  intros Hx. unfold is_nan. rewrite !FloatAxioms.eqb_spec, Hx.
  change (Prim2SF infinity) with (S754_infinity false).
  change (Prim2SF neg_infinity) with (S754_infinity true).
  split; [| destruct s; split; reflexivity].
  unfold SFeqb, SFcompare.
  destruct s; rewrite Z.compare_refl, Pos.compare_cont_refl; reflexivity.
Qed.

(** A finite float that is not zero reads back from its [repr]. *)
Lemma finite_reads_back (x : float) (s : bool) (m : positive) (e : Z) :
  Prim2SF x = S754_finite s m e ->
  float_reads_back Ref.float_repr Ref.float_of_str x.
Proof.
  intros Hx. unfold float_reads_back, encode_float.
  destruct (finite_not_named x s m e Hx) as (-> & -> & ->).
  pose proof (Prim2SF_valid x) as Hvalid. rewrite Hx in Hvalid.
  pose proof (valid_canonical s m e Hvalid) as Hcan.
  unfold Ref.float_repr. rewrite Hx.
  destruct (Ref.shortest m e) as [d q] eqn:Hs.
  assert (Hd : 0 < d).
  { destruct (shortest_within m e d q (d * 10 ^ Z.max q 0) (10 ^ Z.max (- q) 0) Hcan Hs)
      as [Hn _].
    - split; [apply Z.pow_pos_nonneg; lia | ring].
    - assert (0 < 10 ^ Z.max q 0) by (apply Z.pow_pos_nonneg; lia). nia. }
  destruct (format_digits_number d q Hd)
    as (ip & fs & ex & -> & Hip & Hfs & Hex & Hfloat & Hvalue).
  destruct (integer_part_digits ip Hip) as [Hipd Hipne].
  unfold scan_number.
  rewrite (match_number_text Ref.float_of_str s ip fs ex Hip Hfs Hex Hfloat).
  f_equal. f_equal. f_equal.
  rewrite (float_of_str_number s ip fs ex Hipd Hipne Hfs). cbv zeta.
  cbv zeta in Hvalue.
  set (n := digits_value 0 (ip +:+ fs)) in *.
  set (qq := exponent_value ex - Z.of_nat (String.length fs)) in *.
  assert (H10 : forall z, 0 <= z -> 0 < 10 ^ z) by (intros; apply Z.pow_pos_nonneg; lia).
  destruct Hvalue as [[Hn Hq]|(Hn & Hq & Hq0)].
  - rewrite Hn, Hq. destruct (Z.leb_spec 0 q) as [Hpos|Hneg].
    + destruct (shortest_within m e d q (d * 10 ^ q) 1 Hcan Hs) as [Hn' Hin].
      { split; [lia |]. rewrite (Z.max_r (- q) 0), (Z.max_l q 0) by lia.
        change (10 ^ 0) with 1. ring. }
      exact (within_float x s m e (d * 10 ^ q) 1 Hx Hn' eq_refl Hin).
    + destruct (shortest_within m e d q d (10 ^ (- q)) Hcan Hs) as [Hn' Hin].
      { split; [apply H10; lia |].
        rewrite (Z.max_l (- q) 0), (Z.max_r q 0) by lia.
        change (10 ^ 0) with 1. ring. }
      assert (Hq' : 0 <= - q) by lia.
      exact (within_float x s m e d (10 ^ (- q)) Hx Hn' (H10 _ Hq') Hin).
  - rewrite Hn, Hq. change (0 <=? -1) with false. cbv iota.
    change (10 ^ (- -1)) with 10.
    destruct (shortest_within m e d q (d * 10 ^ (q + 1)) 10 Hcan Hs) as [Hn' Hin].
    { split; [lia |]. rewrite (Z.max_r (- q) 0), (Z.max_l q 0) by lia.
      change (10 ^ 0) with 1. rewrite Z.pow_add_r by lia. change (10 ^ 1) with 10. ring. }
    exact (within_float x s m e (d * 10 ^ (q + 1)) 10 Hx Hn' eq_refl Hin).
Qed.

(** Every float reads back: the three that are no numbers by their names,
    the zeros with their sign, every other float from the shortest decimal
    that rounds to it. *)
Theorem every_float_reads_back (x : float) :
  float_reads_back Ref.float_repr Ref.float_of_str x.
Proof.
  destruct (Prim2SF x) as [s|s| |s m e] eqn:Hx.
  - assert (Hz : x = SF2Prim (S754_zero s)) by (rewrite <- Hx, SF2Prim_Prim2SF; reflexivity).
    rewrite Hz. destruct s; vm_compute; reflexivity.
  - assert (Hz : x = SF2Prim (S754_infinity s))
      by (rewrite <- Hx, SF2Prim_Prim2SF; reflexivity).
    rewrite Hz. destruct s; vm_compute; reflexivity.
  - assert (Hz : x = SF2Prim S754_nan) by (rewrite <- Hx, SF2Prim_Prim2SF; reflexivity).
    rewrite Hz. vm_compute. reflexivity.
  - exact (finite_reads_back x s m e Hx).
Qed.

(** * The report and its document *)


(** * Concrete runs *)

(** The scenario of the specification: 8 cores, 32 GB of RAM, no GPU,
    200 GB free. *)
Lemma gpu_absent_passes_with_warnings_witness :
  CPUInfo.meets_minimum test_cpu = true /\
  MemoryInfo.meets_minimum test_memory = true /\
  StorageInfo.meets_minimum test_storage = true /\
  let r := validate_facts Ref.float_repr test_cpu test_memory None test_storage
             "2025-01-01T00:00:00" in
  SystemReport.overall_status r = "PASSED_WITH_WARNINGS" /\
  In "No NVIDIA GPU detected - will use CPU-only inference (very slow)"
     (SystemReport.warnings r) /\
  In "Add NVIDIA GPU with 24GB+ VRAM for 10-20x speedup"
     (SystemReport.recommendations r).
Proof.
  do 3 (split; [reflexivity |]).
  apply (gpu_absent_passes_with_warnings Ref.float_repr
           test_cpu test_memory test_storage "2025-01-01T00:00:00");
    reflexivity.
Defined.

(** A 24 GB card: at the recommended tier, below the optimal one. *)
Lemma gpu_between_minimum_and_optimal_is_silent_witness :
  (16 <=? GPUInfo.vram_gb test_gpu)%float = true /\
  (GPUInfo.vram_gb test_gpu <? 32)%float = true /\
  let r := validate_facts Ref.float_repr test_cpu test_memory (Some test_gpu)
             test_storage "2025-01-01T00:00:00" in
  emitted (evaluate_gpu Ref.float_repr (Some test_gpu)) = no_messages /\
  SystemReport.warnings r = [] /\
  SystemReport.overall_status r = "PASSED".
Proof.
  do 2 (split; [reflexivity |]). cbv zeta.
  pose proof (gpu_between_minimum_and_optimal_is_silent Ref.float_repr
                test_cpu test_memory test_gpu test_storage "2025-01-01T00:00:00"
                eq_refl eq_refl) as (Hsilent & Hwarn & _).
  split; [exact Hsilent |]. split; [rewrite Hwarn |]; reflexivity.
Defined.

(** A run on the test machine with a healthy disk: the RAM is below 32 GB,
    the status is FAILED and the exit code is 1. *)
Lemma exit_status_nonzero_iff_failed_witness :
  snd (save_report Ref.float_repr roomy_disk
         (validate Ref.round2 Ref.float_repr test_host) default_output) = Ok () /\
  exists code : Z,
    snd (main Ref.round2 Ref.float_repr test_host roomy_disk default_output false)
      = Exit code /\
    exit_status
      (snd (main Ref.round2 Ref.float_repr test_host roomy_disk default_output false))
      = code /\
    (code <> 0 <->
     SystemReport.overall_status (validate Ref.round2 Ref.float_repr test_host)
       = "FAILED") /\
    (SystemReport.overall_status (validate Ref.round2 Ref.float_repr test_host)
       = "PASSED_WITH_WARNINGS" -> code = 0).
Proof.
  split; [vm_compute; reflexivity |].
  apply (exit_status_nonzero_iff_failed Ref.round2 Ref.float_repr
           test_host roomy_disk default_output false).
  vm_compute. reflexivity.
Defined.

(** C8 as stated fails.  The test suite's report is saved over an earlier
    report on a device that accepts one more character: [save_report] raises,
    and the output path holds the single character [{], which is neither the
    earlier report nor the document. *)
Lemma write_is_not_atomic :
  files full_disk !! default_output = Some "previous report" /\
  snd (save_report Ref.float_repr full_disk test_report default_output)
    = Raise OSError /\
  files (fst (save_report Ref.float_repr full_disk test_report default_output))
    !! default_output = Some "{" /\
  ~ atomic_on_failure Ref.float_repr full_disk test_report default_output.
Proof.
  split; [vm_compute; reflexivity |].
  split; [vm_compute; reflexivity |].
  split; [vm_compute; reflexivity |].
  intros Hatomic.
  destruct (Hatomic OSError) as [H|H]; [vm_compute; reflexivity | |];
    vm_compute in H; discriminate H.
Qed.

(** The same failed write on the test machine, seen from [main]. *)
Lemma write_failure_is_fatal_and_truncating_witness :
  snd (save_report Ref.float_repr full_disk
         (validate Ref.round2 Ref.float_repr test_host) default_output)
    = Raise OSError /\
  snd (main Ref.round2 Ref.float_repr test_host full_disk default_output false)
    = Uncaught OSError /\
  exit_status
    (snd (main Ref.round2 Ref.float_repr test_host full_disk default_output false))
    = 1.
Proof.
  split; [vm_compute; reflexivity |].
  pose proof (write_failure_is_fatal_and_truncating Ref.round2 Ref.float_repr
                test_host full_disk default_output false OSError) as H.
  destruct H as (Hmain & Hexit & _); [vm_compute; reflexivity |].
  split; [exact Hmain | exact Hexit].
Defined.


(** The report of the test suite, whose GPU is absent: the dictionary says
    [null], and the report is read back from the document. *)
Example absent_gpu_survives_json :
  get (asdict test_report) "gpu" = Some JNull /\
  (loads Ref.float_of_str (dumps Ref.float_repr (asdict test_report))
     ≫= report_of_dict) = Some test_report.
Proof. split; vm_compute; reflexivity. Qed.

(** The same for the report of the test machine, which has a GPU. *)
Example host_report_survives_json :
  let r := validate Ref.round2 Ref.float_repr test_host in
  (loads Ref.float_of_str (dumps Ref.float_repr (asdict r)) ≫= report_of_dict)
    = Some r.
Proof. vm_compute. reflexivity. Qed.

(** ** Further runs *)

(** Without [/proc/meminfo] the run goes on and fails the validation. *)
Lemma failed_probe_fails_validation_witness :
  memory_source blind_host ≫= memory_gb = None /\
  SystemReport.overall_status (validate Ref.round2 Ref.float_repr blind_host)
    = "FAILED" /\
  get_memory_info Ref.round2 blind_host
    = MemoryInfo.mk (Py.Int 0) (Py.Int 0) false false.
Proof.
  split; [reflexivity |].
  destruct (failed_probe_fails_validation Ref.round2 Ref.float_repr blind_host)
    as (Hstatus & _ & Hmem & _); [right; left; reflexivity |].
  split; [exact Hstatus | apply Hmem; reflexivity].
Defined.

(** Renaming the CPU and moving from a present 24 GB card to the same card
    with other version strings changes no message. *)
Lemma descriptive_fields_are_inert_witness :
  let gpu' := GPUInfo.mk "Other GPU" 24 "11.8" "470.0" "7.5" true "Q5_K_M" in
  decisive test_cpu test_memory (Some test_gpu) test_storage
    = decisive renamed_cpu test_memory (Some gpu') test_storage /\
  SystemReport.warnings
    (validate_facts Ref.float_repr test_cpu test_memory (Some test_gpu)
       test_storage "2025-01-01T00:00:00")
  = SystemReport.warnings
      (validate_facts Ref.float_repr renamed_cpu test_memory (Some gpu')
         test_storage "2026-01-01T00:00:00").
Proof.
  intros gpu'. split; [reflexivity |].
  apply (descriptive_fields_are_inert Ref.float_repr
           test_cpu renamed_cpu test_memory test_memory
           (Some test_gpu) (Some gpu') test_storage test_storage
           "2025-01-01T00:00:00" "2026-01-01T00:00:00").
  reflexivity.
Defined.

(** The first save stops after one character on the full disk; room is
    made, and the report of the test machine is saved over what is left. *)
Lemma save_report_overwrites_witness :
  let r2 := validate Ref.round2 Ref.float_repr test_host in
  let d1 := fst (save_report Ref.float_repr full_disk test_report default_output) in
  let d2 := {| files := files d1; unwritable := ∅; write_budget := None |} in
  snd (save_report Ref.float_repr full_disk test_report default_output)
    = Raise OSError /\
  files d1 !! default_output = Some "{" /\
  files d2 = files d1 /\
  snd (save_report Ref.float_repr d2 r2 default_output) = Ok () /\
  files (fst (save_report Ref.float_repr d2 r2 default_output))
    = <[default_output := dumps Ref.float_repr (asdict r2)]> (files full_disk).
Proof.
  intros r2 d1 d2.
  split; [vm_compute; reflexivity |].
  split; [vm_compute; reflexivity |].
  split; [reflexivity |].
  split; [vm_compute; reflexivity |].
  apply (save_report_overwrites Ref.float_repr full_disk d2 test_report r2
           default_output).
  - reflexivity.
  - vm_compute. reflexivity.
Defined.

(** The test machine reports 32000000 kB, which is below 32 GiB, and
    200 GiB of free space. *)
Lemma memory_flags_in_bytes_witness :
  memory_source test_host = Some (memory_linux 32000000 28000000) /\
  memory_counters (memory_linux 32000000 28000000) /\
  MemoryInfo.meets_minimum (get_memory_info Ref.round2 test_host) = false /\
  MemoryInfo.meets_recommended (get_memory_info Ref.round2 test_host) = false.
Proof.
  assert (H : memory_counters (memory_linux 32000000 28000000)).
  { cbv [memory_counters counter]. change (2 ^ 64) with 18446744073709551616. lia. }
  split; [reflexivity |]. split; [exact H |].
  destruct (memory_flags_in_bytes Ref.round2 test_host
              (memory_linux 32000000 28000000) eq_refl H) as [Hmin Hrec].
  rewrite Hmin, Hrec. split; reflexivity.
Defined.

Lemma storage_flag_in_bytes_witness :
  storage_source test_host
    = Some (storage_linux 131072000 4096 52428800 (Some "ext4")) /\
  storage_counters (storage_linux 131072000 4096 52428800 (Some "ext4")) /\
  StorageInfo.meets_minimum (get_storage_info Ref.round2 test_host) = true.
Proof.
  assert (H : storage_counters (storage_linux 131072000 4096 52428800 (Some "ext4"))).
  { cbv [storage_counters counter]. change (2 ^ 64) with 18446744073709551616. lia. }
  split; [reflexivity |]. split; [exact H |].
  rewrite (storage_flag_in_bytes Ref.round2 test_host
             (storage_linux 131072000 4096 52428800 (Some "ext4")) eq_refl H).
  reflexivity.
Defined.

(** ** Runs from the texts *)

(** The texts of the probe tests give the readings of the test machine. *)
Example linux_host_of_test_texts :
  linux_host Ref.py_int Ref.py_float test_texts = test_host.
Proof. vm_compute. reflexivity. Qed.

(** Sixteen logical CPUs are sixteen cores. *)
Lemma linux_cores_are_logical_cpus_witness :
  proc_cpuinfo test_texts = Some test_cpuinfo /\
  (forall (line : string) (rest : list string),
     List.filter (Str.contains "model name") (lines test_cpuinfo) = line :: rest ->
     Str.contains ":" line = true) /\
  nproc_all test_texts = Some ("16" +:+ nl) /\
  Ref.py_int (Str.strip ("16" +:+ nl)) = Some 16 /\
  let cpu := get_cpu_info (linux_host Ref.py_int Ref.py_float test_texts) in
  CPUInfo.cores cpu = 16 /\ CPUInfo.threads cpu = 16 /\
  CPUInfo.meets_minimum cpu = (8 <=? 16) /\
  CPUInfo.meets_recommended cpu = (12 <=? 16).
Proof.
  assert (Hcolon : forall (line : string) (rest : list string),
            List.filter (Str.contains "model name") (lines test_cpuinfo)
              = line :: rest ->
            Str.contains ":" line = true).
  { intros line rest H. vm_compute in H. injection H as <- _. reflexivity. }
  split; [reflexivity |]. split; [exact Hcolon |].
  split; [reflexivity |]. split; [vm_compute; reflexivity |].
  exact (linux_cores_are_logical_cpus Ref.py_int Ref.py_float test_texts
           test_cpuinfo ("16" +:+ nl) 16 eq_refl Hcolon eq_refl eq_refl).
Defined.

(** A model line written with an equals sign: the probe gives up although
    [nproc] answers 16. *)
Lemma cpu_probe_gives_up_witness :
  (exists (cpuinfo line : string) (rest : list string),
     proc_cpuinfo odd_cpuinfo_texts = Some cpuinfo /\
     List.filter (Str.contains "model name") (lines cpuinfo) = line :: rest /\
     Str.contains ":" line = false) /\
  get_cpu_info (linux_host Ref.py_int Ref.py_float odd_cpuinfo_texts)
    = unknown_cpu "x86_64" /\
  SystemReport.overall_status
    (validate Ref.round2 Ref.float_repr
       (linux_host Ref.py_int Ref.py_float odd_cpuinfo_texts)) = "FAILED".
Proof.
  assert (H : exists (cpuinfo line : string) (rest : list string),
     proc_cpuinfo odd_cpuinfo_texts = Some cpuinfo /\
     List.filter (Str.contains "model name") (lines cpuinfo) = line :: rest /\
     Str.contains ":" line = false).
  { exists ("model name = AMD Ryzen 7 7700X" +:+ nl),
      "model name = AMD Ryzen 7 7700X", [].
    split; [reflexivity |]. split; vm_compute; reflexivity. }
  split; [exact H |].
  apply (cpu_probe_gives_up Ref.round2 Ref.float_repr Ref.py_int Ref.py_float
           odd_cpuinfo_texts).
  right; left. exact H.
Defined.

(** A kernel that prints no [MemAvailable] line: 64 GiB are installed, and
    the validation fails for lack of memory. *)
Lemma meminfo_without_a_key_fails_validation_witness :
  (exists meminfo : string,
     proc_meminfo old_kernel_texts = Some meminfo /\
     (Str.contains "MemTotal" meminfo = false \/
      Str.contains "MemAvailable" meminfo = false)) /\
  get_memory_info Ref.round2 (linux_host Ref.py_int Ref.py_float old_kernel_texts)
    = unknown_memory /\
  SystemReport.overall_status
    (validate Ref.round2 Ref.float_repr
       (linux_host Ref.py_int Ref.py_float old_kernel_texts)) = "FAILED".
Proof.
  assert (H : exists meminfo : string,
     proc_meminfo old_kernel_texts = Some meminfo /\
     (Str.contains "MemTotal" meminfo = false \/
      Str.contains "MemAvailable" meminfo = false)).
  { eexists. split; [reflexivity |]. right. vm_compute. reflexivity. }
  split; [exact H |].
  apply (meminfo_without_a_key_fails_validation Ref.round2 Ref.float_repr
           Ref.py_int Ref.py_float old_kernel_texts).
  right. exact H.
Defined.

(** A card whose memory reads [N/A]. *)
Lemma unparsed_gpu_answer_means_no_gpu_witness :
  let t := with_gpu_answer "NVIDIA RTX 5090, [N/A], 560.35" in
  let gpu_data := Str.split ", " (Str.strip "NVIDIA RTX 5090, [N/A], 560.35") in
  nvidia_smi_query t = Some "NVIDIA RTX 5090, [N/A], 560.35" /\
  (exists text : string,
     gpu_data !! 1%nat = Some text /\ Ref.py_float text = None) /\
  get_gpu_info Ref.round2 (linux_host Ref.py_int Ref.py_float t) = None.
Proof.
  intros t gpu_data.
  assert (H : exists text : string,
     gpu_data !! 1%nat = Some text /\ Ref.py_float text = None).
  { exists "[N/A]". split; vm_compute; reflexivity. }
  split; [reflexivity |]. split; [exact H |].
  apply (unparsed_gpu_answer_means_no_gpu Ref.round2 Ref.float_repr
           Ref.py_int Ref.py_float t "NVIDIA RTX 5090, [N/A], 560.35" eq_refl).
  right. exact H.
Defined.

(** An RTX 5090 beside an RTX 4090: the fact names the first card with its
    32 GB, and the driver version ends in the name of the second. *)
Lemma second_card_leaks_into_driver_version_witness :
  let t := with_gpu_answer two_cards in
  nvidia_smi_query t = Some two_cards /\
  Str.strip two_cards =
    "NVIDIA RTX 5090" +:+ ", " +:+ "32768" +:+ ", " +:+ "560.35" +:+
    String newline ("NVIDIA RTX 4090" +:+ ", " +:+ "24576, 560.35") /\
  Ref.py_float "32768" = Some 32768%float /\
  exists g : GPUInfo.t,
    get_gpu_info Ref.round2 (linux_host Ref.py_int Ref.py_float t) = Some g /\
    GPUInfo.name g = "NVIDIA RTX 5090" /\
    GPUInfo.vram_gb g = Ref.round2 (32768 / Py.float_of_int 1024)%float /\
    GPUInfo.driver_version g = "560.35" +:+ String newline "NVIDIA RTX 4090".
Proof.
  intros t.
  split; [reflexivity |]. split; [vm_compute; reflexivity |].
  split; [vm_compute; reflexivity |].
  apply (second_card_leaks_into_driver_version Ref.round2 Ref.py_int Ref.py_float
           t two_cards "CUDA Version: 12.6" "NVIDIA RTX 5090" "32768" "560.35"
           "NVIDIA RTX 4090" "24576, 560.35" 32768%float (Some "12.6"));
    vm_compute; reflexivity.
Defined.

(** Without [df] the test machine has the same 500 GB, 200 GB of them free,
    on a filesystem that is not known. *)
Lemma df_only_names_the_filesystem_witness :
  statvfs test_texts = statvfs no_df_texts /\
  let s := get_storage_info Ref.round2 (linux_host Ref.py_int Ref.py_float no_df_texts) in
  let s' := get_storage_info Ref.round2 (linux_host Ref.py_int Ref.py_float test_texts) in
  StorageInfo.available_gb s' = StorageInfo.available_gb s /\
  StorageInfo.meets_minimum s' = StorageInfo.meets_minimum s /\
  StorageInfo.filesystem s' = "ext4" /\
  StorageInfo.filesystem s = "Unknown".
Proof.
  split; [reflexivity |]. intros s s'.
  destruct (df_only_names_the_filesystem Ref.round2 Ref.py_int Ref.py_float
              no_df_texts test_texts eq_refl) as [(_ & Havail & Hflag) Hunknown].
  split; [exact Havail |]. split; [exact Hflag |].
  split; [vm_compute; reflexivity |].
  apply Hunknown. left. reflexivity.
Defined.

(** Adding a 24 GB card to the machine of the specification lifts the
    status from PASSED_WITH_WARNINGS to PASSED. *)
Lemma status_is_monotone_witness :
  (gpu_without_warning None = true -> gpu_without_warning (Some test_gpu) = true) /\
  let before := validate_facts Ref.float_repr test_cpu test_memory None
                  test_storage "2025-01-01T00:00:00" in
  let after := validate_facts Ref.float_repr test_cpu test_memory (Some test_gpu)
                 test_storage "2025-01-02T00:00:00" in
  (status_rank (SystemReport.overall_status before) <=
   status_rank (SystemReport.overall_status after))%nat /\
  SystemReport.overall_status before = "PASSED_WITH_WARNINGS" /\
  SystemReport.overall_status after = "PASSED".
Proof.
  split; [discriminate |]. intros before after.
  split; [| split; reflexivity].
  apply (status_is_monotone Ref.float_repr test_cpu test_cpu test_memory test_memory
           None (Some test_gpu) test_storage test_storage
           "2025-01-01T00:00:00" "2025-01-02T00:00:00");
    first [ intros H; exact H | discriminate ].
Defined.
